(** * Bank of Anthos AI backend: agents and orchestration

    A shallow embedding of the agent pipeline of [src/aiBackend]
    (query understanding, data analyst, insight generator, data
    visualization, alert notification, user preferences, orchestrator),
    of the parts of the gateway client, the database manager and the
    request authentication that the agents rely on, together with the
    properties of its specification that can be settled on the code and
    further properties read off the code.

    Conventions of the embedding.
    - Python [str] is Rocq's [string] on ASCII text, where [lower],
      [upper] and [strip] of [PyStr] are the Python methods. SQL
      validation is also modelled on sequences of Unicode code points
      ([Unicode]), with the case map of [str.upper] as a parameter; the
      two models agree on ASCII text.
    - Python [int] is [Z]. The improvement analysis computes in IEEE 754
      binary64, as Python's [float] does, on Rocq's primitive floats;
      elsewhere a Python [float] and SQL [DECIMAL] are exact rationals
      [Q].
    - A Python exception is a [Raise] outcome; [try ... except Exception]
      is [try_except].
    - [execute_query] opens a connection for each statement and never
      commits: a change of rows is rolled back when the connection is
      closed, a value drawn from a sequence is not given back, and
      reading the rows of a statement that returns none raises.
    - Calls that leave the process (the generative model, the two
      databases, the clock) and Python's number formatting are
      parameters: section variables or fields of an environment
      record. *)

From Stdlib Require Import ZArith QArith Qabs Qround Lia Bool List Ascii String.
From Stdlib Require Import DecimalString.
From Stdlib Require Import PrimFloat FloatOps FloatAxioms.
From stdpp Require Import gmap strings.
Import ListNotations.

Set Default Proof Using "Type".
Local Open Scope string_scope.
Local Open Scope list_scope.
Local Open Scope Z_scope.

(** ** Exceptions *)

Inductive exn : Type :=
| TypeError
| ValueError
| KeyError
| AttributeError
| ZeroDivisionError
| SQLAlchemyError.

Inductive result (A : Type) : Type :=
| Ok (a : A)
| Raise (e : exn).
Arguments Ok {A} a.
Arguments Raise {A} e.

#[global] Instance result_ret : MRet result := fun _ a => Ok a.

#[global] Instance result_bind : MBind result := fun _ _ k m =>
  match m with
  | Ok a => k a
  | Raise e => Raise e
  end.

(** [try: body except Exception: return dflt] *)
Definition try_except {A} (body : result A) (dflt : A) : A :=
  match body with
  | Ok a => a
  | Raise _ => dflt
  end.

Definition raises {A} (m : result A) : bool :=
  match m with
  | Ok _ => false
  | Raise _ => true
  end.

(** Computations that record the calls they make, in order, and may
    raise. *)
Definition Traced (E A : Type) : Type := list E * result A.

#[global] Instance Traced_ret {E} : MRet (Traced E) := fun _ a => ([], Ok a).

#[global] Instance Traced_bind {E} : MBind (Traced E) := fun _ _ k m =>
  match m with
  | (tr, Ok a) => let '(tr', r) := k a in (tr ++ tr', r)
  | (tr, Raise e) => (tr, Raise e)
  end.

Definition emit {E} (ev : E) : Traced E unit := ([ev], Ok tt).
Definition lift {E A} (r : result A) : Traced E A := ([], r).

(** A call to a collaborator: recorded, then its outcome. *)
Definition call {E A} (ev : E) (r : result A) : Traced E A := ([ev], r).

(** [try: body except Exception: return dflt], keeping the record. *)
Definition try_except_t {E A} (body : Traced E A) (dflt : A) : Traced E A :=
  (fst body, Ok (try_except (snd body) dflt)).

(** ** Python strings (ASCII fragment) *)

Module PyStr.

Definition code (c : ascii) : N := N_of_ascii c.

(** [str.isspace] on one character: TAB..CR, FS..US and SPACE. *)
Definition isspace (c : ascii) : bool :=
  let n := code c in
  ((9 <=? n) && (n <=? 13) || (28 <=? n) && (n <=? 32))%N.

Definition upper_char (c : ascii) : ascii :=
  let n := code c in
  if ((97 <=? n) && (n <=? 122))%N then ascii_of_N (n - 32) else c.

Definition lower_char (c : ascii) : ascii :=
  let n := code c in
  if ((65 <=? n) && (n <=? 90))%N then ascii_of_N (n + 32) else c.

Fixpoint map (f : ascii -> ascii) (s : string) : string :=
  match s with
  | EmptyString => EmptyString
  | String c s' => String (f c) (map f s')
  end.

Definition upper : string -> string := map upper_char.
Definition lower : string -> string := map lower_char.

Fixpoint lstrip (s : string) : string :=
  match s with
  | EmptyString => EmptyString
  | String c s' => if isspace c then lstrip s' else s
  end.

Definition is_empty (s : string) : bool :=
  match s with
  | EmptyString => true
  | String _ _ => false
  end.

Fixpoint rstrip (s : string) : string :=
  match s with
  | EmptyString => EmptyString
  | String c s' =>
      let r := rstrip s' in
      if is_empty r && isspace c then EmptyString else String c r
  end.

Definition strip (s : string) : string := rstrip (lstrip s).

(** [s.startswith(p)] *)
Fixpoint startswith (s p : string) {struct p} : bool :=
  match p with
  | EmptyString => true
  | String a p' =>
      match s with
      | EmptyString => false
      | String b s' => Ascii.eqb a b && startswith s' p'
      end
  end.

(** [sub in s] *)
Fixpoint contains (sub s : string) : bool :=
  match s with
  | EmptyString => startswith EmptyString sub
  | String _ s' => startswith s sub || contains sub s'
  end.

(** [any(k in s for k in keywords)] *)
Definition any_in (keywords : list string) (s : string) : bool :=
  existsb (fun k => contains k s) keywords.

(** [s.replace(old, new)] for a one-character [old]. *)
Fixpoint replace1 (old : ascii) (new s : string) : string :=
  match s with
  | EmptyString => EmptyString
  | String c s' =>
      if Ascii.eqb c old then new +:+ replace1 old new s'
      else String c (replace1 old new s')
  end.

(** Truthiness of a string: [if s:]. *)
Definition truthy (s : string) : bool := negb (is_empty s).

End PyStr.

(** ** Data analyst: SQL validation (agents/data_analyst.py) *)

Module DataAnalyst.

Definition dangerous_keywords : list string :=
  ["DROP"; "DELETE"; "UPDATE"; "INSERT"; "ALTER"].

(** [_validate_sql_query]: [None] is Python's [None]. The warning that
    is logged when the text mentions [username] has no effect on the
    returned value. *)
Definition _validate_sql_query (sql_query username : string) : option string :=
  let sql_query := PyStr.strip sql_query in
  if negb (PyStr.startswith (PyStr.upper sql_query) "SELECT") then None
  else if PyStr.any_in dangerous_keywords (PyStr.upper sql_query) then None
  else Some sql_query.

(** [generate_sql_query], given what [vertex_ai_client.generate_sql_query]
    produced for the prompt ([Raise] when that call fails). *)
Definition generate_sql_query (ai_sql : result (option string))
    (username : string) : option string :=
  try_except
    (r ← ai_sql;
     Ok match r with
        | Some sql_query =>
            if PyStr.truthy sql_query
            then _validate_sql_query sql_query username
            else None
        | None => None
        end)
    None.

(** [execute_query] picks the database from the text of the query. *)
Definition database_for (sql_query : string) : string :=
  if PyStr.contains "transactions" (PyStr.lower sql_query)
  then "ledger" else "accounts".

(** The [CASE] expression of the canned query of
    [get_spending_by_category]: the first [WHEN t.amount < bound] that
    holds gives the label, [ELSE] otherwise ([amount] is [INT]). *)
Fixpoint sql_case (whens : list (Z * string)) (else_ : string) (amount : Z) : string :=
  match whens with
  | [] => else_
  | (bound, label) :: rest =>
      if amount <? bound then label else sql_case rest else_ amount
  end.

Definition category_case : Z -> string :=
  sql_case [(50, "Small purchases"); (200, "Medium purchases");
            (500, "Large purchases")] "Very large purchases".

End DataAnalyst.

(** ** Python text as code points; SQL validation on any text *)

Module Unicode.

(** A Python [str]: a sequence of Unicode code points. *)
Definition str : Type := list N.

Definition of_string (s : string) : str :=
  List.map N_of_ascii (list_ascii_of_string s).

(** [str.isspace] on one code point: TAB..CR, FS..US, SPACE, NEXT LINE,
    NO-BREAK SPACE, OGHAM SPACE MARK, EN QUAD..HAIR SPACE, the line and
    paragraph separators, NARROW NO-BREAK SPACE, MEDIUM MATHEMATICAL SPACE
    and IDEOGRAPHIC SPACE. *)
Definition isspace (c : N) : bool :=
  ((9 <=? c) && (c <=? 13) || (28 <=? c) && (c <=? 32) || (c =? 133)
   || (c =? 160) || (c =? 5760) || (8192 <=? c) && (c <=? 8202) || (c =? 8232)
   || (c =? 8233) || (c =? 8239) || (c =? 8287) || (c =? 12288))%N.

(** The upper case of an ASCII code point. *)
Definition ascii_upper (c : N) : N :=
  if ((97 <=? c) && (c <=? 122))%N then (c - 32)%N else c.

Fixpoint lstrip (s : str) : str :=
  match s with
  | [] => []
  | c :: s' => if isspace c then lstrip s' else s
  end.

Definition is_empty (s : str) : bool :=
  match s with
  | [] => true
  | _ :: _ => false
  end.

Fixpoint rstrip (s : str) : str :=
  match s with
  | [] => []
  | c :: s' =>
      let r := rstrip s' in
      if is_empty r && isspace c then [] else c :: r
  end.

Definition strip (s : str) : str := rstrip (lstrip s).

(** [s.startswith(p)] *)
Fixpoint startswith (s p : str) {struct p} : bool :=
  match p with
  | [] => true
  | a :: p' =>
      match s with
      | [] => false
      | b :: s' => N.eqb a b && startswith s' p'
      end
  end.

(** [sub in s] *)
Fixpoint contains (sub s : str) : bool :=
  match s with
  | [] => startswith [] sub
  | _ :: s' => startswith s sub || contains sub s'
  end.

(** [any(k in s for k in keywords)] *)
Definition any_in (keywords : list str) (s : str) : bool :=
  existsb (fun k => contains k s) keywords.

(** Truthiness of a string: [if s:]. *)
Definition truthy (s : str) : bool := negb (is_empty s).

(** Words without white space, such as the SQL keywords. *)
Definition spaceless (w : str) : bool := forallb (fun c => negb (isspace c)) w.

Definition select : str := of_string "SELECT".

Definition dangerous_keywords : list str :=
  List.map of_string DataAnalyst.dangerous_keywords.

Section CaseMap.

(** Python's upper case of one code point, which is one, two or three
    code points; [str.upper] maps each code point on its own. *)
Variable upper_char : N -> list N.

Definition upper (s : str) : str := flat_map upper_char s.

(** [DataAnalyst._validate_sql_query] on any text. *)
Definition _validate_sql_query (sql_query : str) (username : string) : option str :=
  let sql_query := strip sql_query in
  if negb (startswith (upper sql_query) select) then None
  else if any_in dangerous_keywords (upper sql_query) then None
  else Some sql_query.

(** [DataAnalyst.generate_sql_query], given what the gateway client
    produced for the prompt ([Raise] when that call fails). *)
Definition generate_sql_query (ai_sql : result (option str))
    (username : string) : option str :=
  try_except
    (r ← ai_sql;
     Ok match r with
        | Some sql_query =>
            if truthy sql_query
            then _validate_sql_query sql_query username
            else None
        | None => None
        end)
    None.

(** [s] begins with [p], letter case ignored as [upper] ignores it. *)
Definition begins_with_ci (p s : str) : Prop :=
  exists rest, upper s = p ++ rest.

(** [w] occurs somewhere in [s], letter case ignored as [upper] ignores
    it. *)
Definition substring_ci (w s : str) : Prop :=
  exists l r, upper s = l ++ w ++ r.

End CaseMap.

(** What is used of Python's case map: on ASCII it is the ASCII upper
    case, and it leaves white space alone. *)
Definition ascii_law (upper_char : N -> list N) : Prop :=
  forall c, (c < 128)%N -> upper_char c = [ascii_upper c].

Definition space_law (upper_char : N -> list N) : Prop :=
  forall c, isspace c = true -> upper_char c = [c].

(** The code points outside ASCII whose upper case holds an ASCII
    letter: sharp s, dotless i, n preceded by apostrophe, long s, j with
    caron, h with line below, t with diaeresis, w and y with ring above,
    a with right half ring, and the ligatures ff, fi, fl, ffi, ffl, long
    s t and st. *)
Definition special_upper : list (N * list N) :=
  [(223, [83; 83]); (305, [73]); (329, [700; 78]); (383, [83]);
   (496, [74; 780]); (7830, [72; 817]); (7831, [84; 776]); (7832, [87; 778]);
   (7833, [89; 778]); (7834, [65; 702]); (64256, [70; 70]); (64257, [70; 73]);
   (64258, [70; 76]); (64259, [70; 70; 73]); (64260, [70; 70; 76]);
   (64261, [83; 84]); (64262, [83; 84])]%N.

Fixpoint lookup (c : N) (table : list (N * list N)) : option (list N) :=
  match table with
  | [] => None
  | (k, v) :: rest => if N.eqb c k then Some v else lookup c rest
  end.

(** A case map with the two laws: Python's on ASCII and on the code
    points of [special_upper], the identity elsewhere. *)
Definition basic_upper (c : N) : list N :=
  if (c <? 128)%N then [ascii_upper c]
  else default [c] (lookup c special_upper).

Definition is_ascii (s : string) : bool :=
  forallb (fun c => (N_of_ascii c <? 128)%N) (list_ascii_of_string s).

End Unicode.

(** ** Dynamically typed values (JSON payloads, dictionary entries) *)

#[warnings="-register-all"]
Inductive Value : Type :=
| VNone
| VBool (b : bool)
| VInt (z : Z)
| VFloat (q : Q)
| VStr (s : string)
| VList (l : list Value)
| VDict (d : list (string * Value)).

(** A Python [dict] with string keys whose iteration order is not used. *)
Abbreviation dict := (gmap string Value).

Module Py.

(** Truthiness: [if v:]. *)
Definition truthy (v : Value) : bool :=
  match v with
  | VNone => false
  | VBool b => b
  | VInt z => negb (z =? 0)
  | VFloat q => negb (Qeq_bool q 0)
  | VStr s => PyStr.truthy s
  | VList l => match l with [] => false | _ => true end
  | VDict d => match d with [] => false | _ => true end
  end.

Definition dict_truthy (d : dict) : bool :=
  negb (bool_decide (d = ∅)).

(** [for x in v]: lists give their elements, dictionaries their keys,
    strings their characters; anything else is not iterable. *)
Fixpoint chars (s : string) : list Value :=
  match s with
  | EmptyString => []
  | String c s' => VStr (String c EmptyString) :: chars s'
  end.

Definition iter (v : Value) : result (list Value) :=
  match v with
  | VList l => Ok l
  | VDict d => Ok (List.map (fun kv => VStr (fst kv)) d)
  | VStr s => Ok (chars s)
  | _ => Raise TypeError
  end.

Fixpoint assoc (k : string) (d : list (string * Value)) : option Value :=
  match d with
  | [] => None
  | (k', v) :: d' => if String.eqb k k' then Some v else assoc k d'
  end.

(** [v.get(k, dflt)]: only dictionaries have [get]. *)
Definition get (v : Value) (k : string) (dflt : Value) : result Value :=
  match v with
  | VDict d => Ok (default dflt (assoc k d))
  | _ => Raise AttributeError
  end.

(** [a / b] on numbers. *)
Definition div (a b : Q) : result Q :=
  if Qeq_bool b 0 then Raise ZeroDivisionError else Ok (a / b)%Q.

Definition Qgt_bool (a b : Q) : bool := negb (Qle_bool a b).

(** The integers that a float holds exactly. *)
Definition exact (z : Z) : Prop := Z.abs z <= 2 ^ 53.

(** [float(z)], for an exact [z]. *)
Definition float_of_int (z : Z) : float :=
  match z with
  | Z0 => 0%float
  | Zpos _ => PrimFloat.of_uint63 (Uint63Axioms.of_Z z)
  | Zneg _ => PrimFloat.opp (PrimFloat.of_uint63 (Uint63Axioms.of_Z (- z)))
  end.

(** [a / b] on two ints: the quotient rounded to the nearest float, which
    for exact [a] and [b] is the quotient of the two floats. *)
Definition truediv (a b : Z) : result float :=
  if b =? 0 then Raise ZeroDivisionError
  else Ok (PrimFloat.div (float_of_int a) (float_of_int b)).

(** [a / b] on two floats. *)
Definition float_div (a b : float) : result float :=
  if PrimFloat.eqb b 0 then Raise ZeroDivisionError else Ok (PrimFloat.div a b).

End Py.

(** ** Query understanding (agents/query_understanding.py) *)

Module QueryUnderstanding.

Definition time_patterns : list (string * Z) :=
  [("today", 0); ("yesterday", 1); ("this week", 7); ("last week", 14);
   ("this month", 30); ("last month", 60); ("this year", 365);
   ("last year", 730)].

Definition category_keywords : list (string * list string) :=
  [("food", ["food"; "restaurant"; "dining"; "coffee"; "lunch"; "dinner"; "grocery"]);
   ("entertainment", ["movie"; "game"; "entertainment"; "netflix"; "spotify"; "subscription"]);
   ("transportation", ["gas"; "fuel"; "uber"; "lyft"; "taxi"; "transport"; "parking"]);
   ("shopping", ["amazon"; "store"; "shopping"; "retail"; "clothes"; "clothing"]);
   ("utilities", ["electric"; "water"; "internet"; "phone"; "utility"; "bill"]);
   ("healthcare", ["doctor"; "pharmacy"; "medical"; "health"; "hospital"]);
   ("education", ["school"; "university"; "course"; "book"; "education"; "learning"])].

(** [ai_understanding and key in ai_understanding], then
    [ai_understanding[key]]. *)
Definition ai_field (ai_understanding : option dict) (key : string) : option Value :=
  match ai_understanding with
  | Some d => if Py.dict_truthy d then d !! key else None
  | None => None
  end.

Definition _determine_analysis_type (query : string) (ai : option dict) : Value :=
  match ai_field ai "analysis_type" with
  | Some v => v
  | None =>
      if PyStr.any_in ["trend"; "over time"; "change"; "increase"; "decrease"] query
      then VStr "spending_trends"
      else if PyStr.any_in ["category"; "breakdown"; "spend on"; "where"] query
      then VStr "category_analysis"
      else if PyStr.any_in ["improve"; "better"; "worse"; "progress"; "doing"] query
      then VStr "improvement"
      else VStr "general"
  end.

(** The loop over [time_patterns.items()], in insertion order. *)
Fixpoint first_period (patterns : list (string * Z)) (query : string) : option string :=
  match patterns with
  | [] => None
  | (period, _) :: rest =>
      if PyStr.contains period query
      then Some (PyStr.replace1 " " "_" period)
      else first_period rest query
  end.

Definition _extract_time_period (query : string) (ai : option dict) : Value :=
  match ai_field ai "time_period" with
  | Some v => v
  | None => VStr (default "this_month" (first_period time_patterns query))
  end.

Definition found_categories (query : string) : list string :=
  List.map fst
    (List.filter (fun ck => PyStr.any_in (snd ck) query) category_keywords).

Definition _extract_categories (query : string) (ai : option dict) : Value :=
  match ai_field ai "categories" with
  | Some v => v
  | None => VList (List.map VStr (found_categories query))
  end.

Definition visualization_keywords : list string :=
  ["chart"; "graph"; "visual"; "show"; "plot"; "display"].

Definition _needs_visualization (query : string) (ai : option dict) : Value :=
  match ai_field ai "needs_visualization" with
  | Some v => v
  | None => VBool (PyStr.any_in visualization_keywords query)
  end.

Definition urgent_keywords : list string :=
  ["urgent"; "important"; "asap"; "quickly"; "immediately"].

Definition _determine_priority (query : string) (ai : option dict) : Value :=
  match ai_field ai "priority" with
  | Some v => v
  | None => if PyStr.any_in urgent_keywords query then VInt 5 else VInt 3
  end.

Definition confidence (ai : option dict) : Value :=
  match ai with
  | Some d =>
      if Py.dict_truthy d then default (VFloat (8 # 10)) (d !! "confidence")
      else VFloat (7 # 10)
  | None => VFloat (7 # 10)
  end.

Section Gateway.

(** [vertex_ai_client.generate_structured_response] on the prompt
    built around the query: the parsed object, [None], or a failure. *)
Variable generate_structured_response : string -> result (option dict).

Definition _ai_understand_query (query : string) : option dict :=
  try_except (generate_structured_response query) None.

Definition understand_query (query : string) : option dict :=
  try_except
    (let query_lower := PyStr.strip (PyStr.lower query) in
     let ai_understanding := _ai_understand_query query in
     Ok (Some
       {[ "original_query" := VStr query;
          "analysis_type" := _determine_analysis_type query_lower ai_understanding;
          "time_period" := _extract_time_period query_lower ai_understanding;
          "categories" := _extract_categories query_lower ai_understanding;
          "needs_visualization" := _needs_visualization query_lower ai_understanding;
          "priority" := _determine_priority query_lower ai_understanding;
          "confidence" := confidence ai_understanding ]}))
    None.

End Gateway.

End QueryUnderstanding.


(** ** Transactions and timestamps *)

(** A [datetime]: microseconds since 0001-01-01T00:00:00 on its own wall
    clock, and the UTC offset in seconds ([None] for a naive value). *)
Record datetime : Type := mk_datetime {
  dt_us : Z;
  dt_utcoffset : option Z
}.

Inductive Timestamp : Type :=
| TsStr (s : string)
| TsDatetime (d : datetime).

(** A transaction row; [None] is an absent key. *)
Record Transaction : Type := mk_tx {
  tx_amount : option Z;
  tx_timestamp : option Timestamp;
  tx_description : option string
}.

(** [transaction.get("amount", 0)] *)
Definition amount_of (t : Transaction) : Z := default 0 (tx_amount t).

Definition sum_amounts (ts : list Transaction) : Z :=
  fold_left (fun acc t => acc + amount_of t) ts 0.

(** ** Insight generator (agents/insight_generator.py) *)

Module InsightGenerator.

Definition small := "Small purchases (<$50)".
Definition medium := "Medium purchases ($50-$200)".
Definition large := "Large purchases ($200-$500)".
Definition very_large := "Very large purchases (>$500)".

(** Keys of [categories] in insertion order. *)
Definition bucket_names : list string := [small; medium; large; very_large].

Definition empty_categories : gmap string Z :=
  {[ small := 0; medium := 0; large := 0; very_large := 0 ]}.

(** The [if]/[elif] chain on [amount]. *)
Definition bucket_of (amount : Z) : string :=
  if amount <? 50 then small
  else if amount <? 200 then medium
  else if amount <? 500 then large
  else very_large.

(** One iteration of the loop over the transactions. *)
Definition categorize_step (st : gmap string Z * Z) (t : Transaction)
  : gmap string Z * Z :=
  let amount := amount_of t in
  (alter (fun v => v + amount) (bucket_of amount) (fst st), snd st + amount).

Definition categorize (transactions : list Transaction) : gmap string Z * Z :=
  fold_left categorize_step transactions (empty_categories, 0).

(** [max(keys, key=get)]: the first key whose value is maximal. *)
Definition max_key (get : string -> Z) (keys : list string) : string :=
  match keys with
  | [] => EmptyString
  | k :: rest =>
      fold_left (fun best k' => if get best <? get k' then k' else best) rest k
  end.

Record PeriodStats : Type := {
  total : Z;
  average : float;
  count : nat
}.

Record CategoryAnalysis : Type := {
  categories : gmap string Z;
  total_amount : Z;
  top_category : string;
  top_percentage : Q
}.

Record ImprovementAnalysis : Type := {
  recent_period : PeriodStats;
  older_period : PeriodStats;
  improvement_percentage : float;
  is_improvement : bool;
  trend_direction : string
}.

Inductive InsightData : Type :=
| TrendData (analysis : dict)
| CategoryData (a : CategoryAnalysis)
| ImprovementData (a : ImprovementAnalysis).

Record Insight : Type := {
  insight_type : string;
  title : string;
  description : string;
  data : InsightData;
  priority : Z;
  visualization_config : list (string * string)
}.

Section Agent.

(** The generative model and Python's number formatting, [float_1f]
    being [:.1f] on a float. *)
Variable analyze_data : list Transaction -> string -> string -> option dict.
Variable generate_insight_description : InsightData -> string -> option string.
Variable format_1f : Q -> string.
Variable format_2f : Q -> string.
Variable float_1f : float -> string.

(** [if not description: description = fallback] *)
Definition or_fallback (d : option string) (fallback : string) : string :=
  match d with
  | Some s => if PyStr.truthy s then s else fallback
  | None => fallback
  end.

Definition analyze_spending_trends (transactions : list Transaction)
    (username : string) : option Insight :=
  try_except
    (match transactions with
     | [] => Ok None
     | _ =>
         match analyze_data transactions "spending_trends"
                 ("Analyze spending trends for user " +:+ username) with
         | None => Ok None
         | Some analysis_result =>
             if negb (Py.dict_truthy analysis_result) then Ok None
             else
               let description :=
                 or_fallback
                   (generate_insight_description (TrendData analysis_result)
                      "spending_trends")
                   "Your spending patterns show interesting trends over time." in
               Ok (Some {| insight_type := "spending_trends";
                           title := "Spending Trend Analysis";
                           description := description;
                           data := TrendData analysis_result;
                           priority := 2;
                           visualization_config :=
                             [("chart_type", "line"); ("x_axis", "date");
                              ("y_axis", "amount")] |})
         end
     end)
    None.

Definition analyze_spending_categories (transactions : list Transaction)
    (username : string) : option Insight :=
  try_except
    (match transactions with
     | [] => Ok None
     | _ =>
         let '(categories, total_amount) := categorize transactions in
         let top_category :=
           max_key (fun k => default 0 (categories !! k)) bucket_names in
         let top_amount := default 0 (categories !! top_category) in
         top_percentage ←
           (if 0 <? total_amount
            then q ← Py.div (inject_Z top_amount) (inject_Z total_amount);
                 Ok (q * 100)%Q
            else Ok 0%Q);
         let analysis_data :=
           {| categories := categories; total_amount := total_amount;
              top_category := top_category;
              top_percentage := top_percentage |} in
         let description :=
           or_fallback
             (generate_insight_description (CategoryData analysis_data)
                "category_analysis")
             ("Your spending is highest in " +:+ top_category +:+ " at $"
              +:+ format_2f (inject_Z top_amount) +:+ " ("
              +:+ format_1f top_percentage +:+ "% of total spending).") in
         Ok (Some {| insight_type := "category_analysis";
                     title := "Spending Category Breakdown";
                     description := description;
                     data := CategoryData analysis_data;
                     priority := 2;
                     visualization_config :=
                       [("chart_type", "pie"); ("data_key", "categories")] |})
     end)
    None.

(** [total / len(ts) if ts else 0]; the [0] of an empty period, an int,
    is the float zero here, and so is the [0] of the percentage. *)
Definition average_of (total_ : Z) (ts : list Transaction) : result float :=
  match ts with
  | [] => Ok 0%float
  | _ => Py.truediv total_ (Z.of_nat (length ts))
  end.

Definition analyze_improvements (transactions : list Transaction)
    (username : string) : option Insight :=
  try_except
    (if (length transactions <? 10)%nat then Ok None
     else
       let mid_point := (length transactions / 2)%nat in
       let recent_transactions := firstn mid_point transactions in
       let older_transactions := skipn mid_point transactions in
       let recent_total := sum_amounts recent_transactions in
       let older_total := sum_amounts older_transactions in
       recent_avg ← average_of recent_total recent_transactions;
       older_avg ← average_of older_total older_transactions;
       improvement_pct ←
         (if PrimFloat.ltb 0 older_avg
          then q ← Py.float_div (PrimFloat.sub older_avg recent_avg) older_avg;
               Ok (PrimFloat.mul q 100)
          else Ok 0%float);
       let is_improvement := PrimFloat.ltb 5 improvement_pct in
       let trend_direction :=
         if is_improvement then "decreased" else "increased" in
       let analysis_data :=
         {| recent_period :=
              {| total := recent_total; average := recent_avg;
                 count := length recent_transactions |};
            older_period :=
              {| total := older_total; average := older_avg;
                 count := length older_transactions |};
            improvement_percentage := improvement_pct;
            is_improvement := is_improvement;
            trend_direction := trend_direction |} in
       let description :=
         or_fallback
           (generate_insight_description (ImprovementData analysis_data)
              "improvement_analysis")
           (if is_improvement
            then "Great news! Your average spending has " +:+ trend_direction
                 +:+ " by " +:+ float_1f (PrimFloat.abs improvement_pct)
                 +:+ "% compared to the previous period."
            else "Your average spending has " +:+ trend_direction
                 +:+ " by " +:+ float_1f (PrimFloat.abs improvement_pct)
                 +:+ "% compared to the previous period. "
                 +:+ "Consider reviewing your spending habits.") in
       Ok (Some {| insight_type := "improvement_analysis";
                   title := "Spending Improvement Analysis";
                   description := description;
                   data := ImprovementData analysis_data;
                   priority := if is_improvement then 3 else 2;
                   visualization_config :=
                     [("chart_type", "bar"); ("x_axis", "period");
                      ("y_axis", "amount")] |}))
    None.

Definition to_list {A} (o : option A) : list A :=
  match o with
  | Some a => [a]
  | None => []
  end.

(** [_general_analysis]: every analysis that gives an insight. *)
Definition _general_analysis (data_ : list Transaction) (username : string)
  : list Insight :=
  to_list (analyze_spending_trends data_ username)
  ++ to_list (analyze_spending_categories data_ username)
  ++ to_list (analyze_improvements data_ username).

(** [analysis_type == name] *)
Definition is_type (analysis_type : Value) (name : string) : bool :=
  match analysis_type with
  | VStr s => String.eqb s name
  | _ => false
  end.

Definition generate_insights (data_ : list Transaction) (query_intent : dict)
    (username : string) : list Insight :=
  try_except
    (let analysis_type := default (VStr "general") (query_intent !! "analysis_type") in
     Ok (if is_type analysis_type "spending_trends"
         then to_list (analyze_spending_trends data_ username)
         else if is_type analysis_type "category_analysis"
         then to_list (analyze_spending_categories data_ username)
         else if is_type analysis_type "improvement"
         then to_list (analyze_improvements data_ username)
         else _general_analysis data_ username))
    [].

End Agent.

End InsightGenerator.

(** ** Accounts database: the preference table (database.py) *)

Module Database.

(** A row of [user_preferences]. *)
Record PrefRow : Type := {
  id : Z;
  username : string;
  preference_type : string;
  preference_key : string;
  preference_value : Value
}.

(** The committed rows of the table, the [SERIAL] sequence behind [id],
    and the number of statements given to [execute_query] so far. *)
Record Accounts : Type := {
  user_preferences : list PrefRow;
  next_id : Z;
  statements : nat
}.

(** A database operation: state passing, and the state survives an
    exception. *)
Definition DB (A : Type) : Type := Accounts -> result A * Accounts.

#[global] Instance DB_ret : MRet DB := fun _ a db => (Ok a, db).

#[global] Instance DB_bind : MBind DB := fun _ _ k m db =>
  match m db with
  | (Ok a, db') => k a db'
  | (Raise e, db') => (Raise e, db')
  end.

(** A fresh database: no preference yet, the sequence at 1. *)
Definition empty_accounts : Accounts :=
  {| user_preferences := []; next_id := 1; statements := 0 |}.

Definition matches (u t k : string) (r : PrefRow) : bool :=
  String.eqb (username r) u && String.eqb (preference_type r) t
  && String.eqb (preference_key r) k.

(** What becomes of a Python value bound to the parameter of a [JSONB
    NOT NULL] column. *)
Inductive Binding : Type :=
| Rejected
| Null
| Json.

(** One more statement given to [execute_query]; one value drawn from the
    sequence. *)
Definition sent (db : Accounts) : Accounts :=
  {| user_preferences := user_preferences db; next_id := next_id db;
     statements := S (statements db) |}.

Definition drawn (db : Accounts) : Accounts :=
  {| user_preferences := user_preferences db; next_id := next_id db + 1;
     statements := statements db |}.

Section Store.

(** Which statements fail for a reason of their own (the connection, the
    server): [execute_query] re-raises the error of the statement
    numbered [n] when [fails n]. And which texts PostgreSQL reads as
    JSON. *)
Variable fails : nat -> bool.
Variable valid_json : string -> bool.

(** The driver passes a [str] as a quoted literal, which the server reads
    as JSON text, and the empty list as the literal '{}'; [None] is NULL.
    A [dict] has no adapter, and a number, a boolean or a list with
    members arrives as a literal of another type than jsonb: the
    statement is rejected before it touches a row or the sequence. *)
Definition bind_jsonb (v : Value) : Binding :=
  match v with
  | VStr s => if valid_json s then Json else Rejected
  | VList [] => Json
  | VNone => Null
  | _ => Rejected
  end.

(** [execute_query]: [with engine.connect() as connection] runs the
    statement and reads the rows of its result. [run] gives the outcome
    of the statement ([None] for a result without rows) and what is left
    once the connection is closed. Nothing is committed, so the
    transaction is rolled back with its changes of rows, and only a value
    drawn from a sequence stays drawn. Reading the rows of a result that
    has none raises. *)
Definition execute_query {A}
    (run : Accounts -> result (option (list A)) * Accounts) : DB (list A) :=
  fun db =>
    if fails (statements db) then (Raise SQLAlchemyError, sent db)
    else
      match run (sent db) with
      | (Ok (Some rows), db') => (Ok rows, db')
      | (Ok None, db') => (Raise SQLAlchemyError, db')
      | (Raise e, db') => (Raise e, db')
      end.

(** [SELECT id FROM user_preferences WHERE username = .. AND
    preference_type = .. AND preference_key = ..] *)
Definition select_ids (u t k : string) : DB (list Z) :=
  execute_query (fun db =>
    (Ok (Some (List.map id (List.filter (matches u t k) (user_preferences db)))),
     db)).

(** [UPDATE user_preferences SET preference_value = .. WHERE id = ..] of
    a row that exists: an error of the server, or a result without
    rows. *)
Definition update_value (i : Z) (v : Value) : DB (list Z) :=
  execute_query (fun db =>
    (match bind_jsonb v with
     | Json => Ok None
     | Null | Rejected => Raise SQLAlchemyError
     end, db)).

(** [INSERT INTO user_preferences (..) VALUES (..) RETURNING id]: the new
    row is gone with the transaction, its id is not; NULL is refused by
    the column after the id is drawn. *)
Definition insert_row (u t k : string) (v : Value) : DB (list Z) :=
  execute_query (fun db =>
    match bind_jsonb v with
    | Json => (Ok (Some [next_id db]), drawn db)
    | Null => (Raise SQLAlchemyError, drawn db)
    | Rejected => (Raise SQLAlchemyError, db)
    end).

(** [save_user_preference]; the result is the row id, or [None]. *)
Definition save_user_preference (u t k : string) (v : Value) : DB (option Z) :=
  existing ← select_ids u t k;
  match existing with
  | i :: _ => _ ← update_value i v; mret (Some i)
  | [] => result_ ← insert_row u t k v; mret (head result_)
  end.

End Store.

End Database.

(** ** User preference agent (agents/user_preference.py) *)

Module UserPreference.

Import Database.

(** [if pref_id:] *)
Definition id_truthy (pref_id : option Z) : bool :=
  match pref_id with
  | Some i => negb (i =? 0)
  | None => false
  end.

Section Store.

Variable fails : nat -> bool.
Variable valid_json : string -> bool.

(** The inner loop over [pref_data.items()]. *)
Fixpoint save_entries (u pref_type : string) (entries : list (string * Value))
    (success_count : nat) : DB nat :=
  match entries with
  | [] => mret success_count
  | (key, value) :: rest =>
      pref_id ← save_user_preference fails valid_json u pref_type key value;
      save_entries u pref_type rest
        (if id_truthy pref_id then S success_count else success_count)
  end.

(** The loop over [preferences.items()]. *)
Fixpoint save_all (u : string) (preferences : list (string * Value))
    (success_count : nat) : DB nat :=
  match preferences with
  | [] => mret success_count
  | (pref_type, pref_data) :: rest =>
      n ← match pref_data with
          | VDict entries => save_entries u pref_type entries success_count
          | _ =>
              pref_id ← save_user_preference fails valid_json u pref_type
                          "default" pref_data;
              mret (if id_truthy pref_id then S success_count else success_count)
          end;
      save_all u rest n
  end.

Definition update_preferences (u : string) (preferences : list (string * Value))
    (db : Accounts) : bool * Accounts :=
  match save_all u preferences 0%nat db with
  | (Ok success_count, db') => ((0 <? success_count)%nat, db')
  | (Raise _, db') => (false, db')
  end.

(** The upserts that the update rule asks for: one per entry of a
    mapping-valued preference, a single one under the key "default"
    otherwise. *)
Definition upserts_of (preferences : list (string * Value))
  : list (string * string * Value) :=
  flat_map (fun p =>
    match snd p with
    | VDict entries => List.map (fun kv => (fst p, fst kv, snd kv)) entries
    | v => [(fst p, "default", v)]
    end) preferences.

(** Their outcomes in order, up to and including the first that raises. *)
Fixpoint outcomes (u : string) (ups : list (string * string * Value))
    (db : Accounts) : list (result (option Z)) :=
  match ups with
  | [] => []
  | (t, k, v) :: rest =>
      match save_user_preference fails valid_json u t k v db with
      | (Ok i, db') => Ok i :: outcomes u rest db'
      | (Raise e, _) => [Raise e]
      end
  end.

(** An upsert succeeded when it returned a usable row id. *)
Definition succeeded (o : result (option Z)) : bool :=
  match o with
  | Ok i => id_truthy i
  | Raise _ => false
  end.

(** An upsert completed when it did not raise. *)
Definition completed (o : result (option Z)) : Prop := raises o = false.

(** The upserts of a flattened preference map, run in order with the
    counter of the loop. *)
Fixpoint run_upserts (u : string) (ups : list (string * string * Value))
    (success_count : nat) : DB nat :=
  match ups with
  | [] => mret success_count
  | (t, k, v) :: rest =>
      pref_id ← save_user_preference fails valid_json u t k v;
      run_upserts u rest
        (if id_truthy pref_id then S success_count else success_count)
  end.

End Store.

End UserPreference.

(** ** Naive and aware datetimes (the part of [datetime] the agents use) *)

Module Datetime.

Definition second_us : Z := 1000000.
Definition day_us : Z := 86400 * second_us.

Definition is_leap (y : Z) : bool :=
  (y mod 4 =? 0) && negb (y mod 100 =? 0) || (y mod 400 =? 0).

Definition days_in_month (y m : Z) : Z :=
  if m =? 2 then (if is_leap y then 29 else 28)
  else if (m =? 4) || (m =? 6) || (m =? 9) || (m =? 11) then 30
  else 31.

Definition days_before_year (y : Z) : Z :=
  let p := y - 1 in p * 365 + p / 4 - p / 100 + p / 400.

Definition days_before_month (y m : Z) : Z :=
  fold_left (fun acc k => acc + days_in_month y (Z.of_nat k))
    (seq 1 (Z.to_nat m - 1)) 0.

(** Proleptic Gregorian ordinal, 0001-01-01 being day 1. *)
Definition ymd2ord (y m d : Z) : Z :=
  days_before_year y + days_before_month y m + d.

Definition of_fields (y m d hh mm ss : Z) (tz : option Z) : datetime :=
  {| dt_us := (ymd2ord y m d - 1) * day_us + ((hh * 60 + mm) * 60 + ss) * second_us;
     dt_utcoffset := tz |}.

(** [now.replace(hour=0, minute=0, second=0, microsecond=0)] *)
Definition midnight (d : datetime) : datetime :=
  {| dt_us := dt_us d - dt_us d mod day_us; dt_utcoffset := dt_utcoffset d |}.

(** [now - timedelta(days=n)] *)
Definition minus_days (d : datetime) (n : Z) : datetime :=
  {| dt_us := dt_us d - n * day_us; dt_utcoffset := dt_utcoffset d |}.

(** [a >= b]: ordering a naive and an aware value is a [TypeError]. *)
Definition ge (a b : datetime) : result bool :=
  match dt_utcoffset a, dt_utcoffset b with
  | None, None => Ok (dt_us b <=? dt_us a)
  | Some oa, Some ob =>
      Ok (dt_us b - ob * second_us <=? dt_us a - oa * second_us)
  | _, _ => Raise TypeError
  end.

Definition digit (c : ascii) : option Z :=
  let n := Z.of_N (N_of_ascii c) in
  if (48 <=? n) && (n <=? 57) then Some (n - 48) else None.

Definition num2 (a b : ascii) : option Z :=
  x ← digit a; y ← digit b; Some (x * 10 + y).

Definition num4 (a b c d : ascii) : option Z :=
  x ← num2 a b; y ← num2 c d; Some (x * 100 + y).

Definition parse_date (s : list ascii) : option (Z * Z * Z * list ascii) :=
  match s with
  | y1 :: y2 :: y3 :: y4 :: "-"%char :: m1 :: m2 :: "-"%char :: d1 :: d2 :: rest =>
      y ← num4 y1 y2 y3 y4; m ← num2 m1 m2; d ← num2 d1 d2;
      if (1 <=? y) && (1 <=? m) && (m <=? 12) && (1 <=? d) && (d <=? days_in_month y m)
      then Some (y, m, d, rest) else None
  | _ => None
  end.

Definition parse_clock (s : list ascii) : option (Z * Z * Z * list ascii) :=
  match s with
  | h1 :: h2 :: ":"%char :: m1 :: m2 :: ":"%char :: s1 :: s2 :: rest =>
      hh ← num2 h1 h2; mm ← num2 m1 m2; ss ← num2 s1 s2;
      if (hh <=? 23) && (mm <=? 59) && (ss <=? 59)
      then Some (hh, mm, ss, rest) else None
  | _ => None
  end.

Definition parse_offset (s : list ascii) : option (option Z) :=
  match s with
  | [] => Some None
  | sign :: h1 :: h2 :: ":"%char :: m1 :: m2 :: [] =>
      hh ← num2 h1 h2; mm ← num2 m1 m2;
      if (hh <=? 23) && (mm <=? 59) then
        if Ascii.eqb sign "+" then Some (Some (hh * 3600 + mm * 60))
        else if Ascii.eqb sign "-" then Some (Some (- (hh * 3600 + mm * 60)))
        else None
      else None
  | _ => None
  end.

(** [datetime.fromisoformat] on [YYYY-MM-DD] and on
    [YYYY-MM-DD?HH:MM:SS] with an optional [+HH:MM] or [-HH:MM]
    offset; any other text is rejected with [ValueError]. *)
Definition fromisoformat (s : string) : result datetime :=
  match parse_date (list_ascii_of_string s) with
  | Some (y, m, d, []) => Ok (of_fields y m d 0 0 0 None)
  | Some (y, m, d, _ :: rest) =>
      match parse_clock rest with
      | Some (hh, mm, ss, rest') =>
          match parse_offset rest' with
          | Some tz => Ok (of_fields y m d hh mm ss tz)
          | None => Raise ValueError
          end
      | None => Raise ValueError
      end
  | None => Raise ValueError
  end.

End Datetime.

(** ** Alert notification agent (agents/alert_notification.py) *)

Module AlertNotification.

(** A row of [alert_configurations] (the columns the agent reads). *)
Record AlertConfig : Type := {
  cfg_id : Z;
  alert_type : string;
  alert_name : string;
  threshold_value : Q;
  threshold_period : string
}.

Inductive AlertData : Type :=
| SpendingData (category : option string) (threshold : Q)
    (actual_spending : Z) (period : string) (excess_amount : Q)
| BalanceData (current_balance threshold deficit : Q)
| PatternData (payload : Value).

Record Alert : Type := {
  type : string;
  title : string;
  description : Value;
  data : AlertData;
  priority : Z;
  alert_config_id : option Z
}.

Definition excess_of (a : Alert) : option Q :=
  match data a with
  | SpendingData _ _ _ _ e => Some e
  | _ => None
  end.

(** Calls that leave the process, recorded in order. *)
Inductive Event : Type :=
| QueryAlertConfigs (username : string)
| QueryBalance (username : string)
| AnalyzeData (analysis_type : string).

(** What the agent reaches outside itself during one call:
    [datetime.now()] (naive local time, one instant for the call),
    [datetime.fromisoformat], the query for the active configurations of
    a user, [db_manager.get_user_balance], [vertex_ai_client.analyze_data]
    (which handles its own failures and returns nothing then), and the
    [:.2f] number format. *)
Record Env : Type := {
  now : datetime;
  fromisoformat : string -> result datetime;
  alert_configurations : string -> result (list AlertConfig);
  get_user_balance : string -> result Q;
  analyze_data : list Transaction -> string -> string -> option dict;
  format_2f : Q -> string
}.

Abbreviation W := (Traced Event).

Definition Qlt_bool (a b : Q) : bool := negb (Qle_bool b a).

Definition period_start (now_ : datetime) (period : string) : datetime :=
  if String.eqb period "daily" then Datetime.midnight now_
  else if String.eqb period "weekly" then Datetime.minus_days now_ 7
  else if String.eqb period "monthly" then Datetime.minus_days now_ 30
  else Datetime.minus_days now_ 1.

Definition category_keywords : list (string * list string) :=
  [("coffee", ["coffee"; "starbucks"; "cafe"]);
   ("food", ["restaurant"; "dining"; "food"; "lunch"; "dinner"]);
   ("entertainment", ["movie"; "game"; "netflix"; "spotify"]);
   ("shopping", ["amazon"; "store"; "retail"])].

Fixpoint lookup_keywords (k : string) (table : list (string * list string))
  : option (list string) :=
  match table with
  | [] => None
  | (k', v) :: rest => if String.eqb k k' then Some v else lookup_keywords k rest
  end.

(** [category_keywords.get(category.lower(), [category.lower()])] *)
Definition keywords_for (category : string) : list string :=
  let c := PyStr.lower category in
  default [c] (lookup_keywords c category_keywords).

(** [str(transaction.get("description", default)).lower()], the default
    being the empty text. *)
Definition transaction_desc (t : Transaction) : string :=
  PyStr.lower (default EmptyString (tx_description t)).

Record Pattern : Type := {
  pattern_description : Value;
  pattern_data : Value
}.

Fixpoint map_result {A B} (f : A -> result B) (l : list A) : result (list B) :=
  match l with
  | [] => Ok []
  | a :: rest => b ← f a; bs ← map_result f rest; Ok (b :: bs)
  end.

Section Agent.

Variable env : Env.

(** The timestamp of a transaction as a [datetime]. *)
Definition trans_date (t : Transaction) : result datetime :=
  match tx_timestamp t with
  | Some (TsStr s) => fromisoformat env (PyStr.replace1 "Z" "+00:00" s)
  | Some (TsDatetime d) => Ok d
  | None => Raise KeyError
  end.

Fixpoint spending_loop (start_date : datetime) (transactions : list Transaction)
    (total_spending : Z) : result Z :=
  match transactions with
  | [] => Ok total_spending
  | t :: rest =>
      d ← trans_date t;
      recent ← Datetime.ge d start_date;
      spending_loop start_date rest
        (if recent : bool then total_spending + amount_of t else total_spending)
  end.

(** [_calculate_spending_for_period]; the [0.0] of the handler is [0]. *)
Definition _calculate_spending_for_period (transactions : list Transaction)
    (period : string) : Z :=
  try_except (spending_loop (period_start (now env) period) transactions 0) 0.

Fixpoint category_loop (keywords : list string) (start_date : datetime)
    (transactions : list Transaction) (category_spending : Z) : result Z :=
  match transactions with
  | [] => Ok category_spending
  | t :: rest =>
      d ← trans_date t;
      recent ← Datetime.ge d start_date;
      category_loop keywords start_date rest
        (if (recent : bool) && PyStr.any_in keywords (transaction_desc t)
         then category_spending + amount_of t else category_spending)
  end.

Definition _calculate_category_spending (transactions : list Transaction)
    (category period : string) : Z :=
  try_except
    (category_loop (keywords_for category) (period_start (now env) period)
       transactions 0)
    0.

Definition _get_user_alert_configs (username : string) : W (list AlertConfig) :=
  try_except_t
    (_ ← emit (QueryAlertConfigs username);
     lift (alert_configurations env username))
    [].

Definition spending_alert (config : AlertConfig) (spending : Z) : Alert :=
  let threshold := threshold_value config in
  let period := threshold_period config in
  {| type := "spending_threshold";
     title := "Spending Alert: " +:+ alert_name config;
     description :=
       VStr ("You've spent $" +:+ format_2f env (inject_Z spending)
             +:+ " this " +:+ period +:+ ", exceeding your threshold of $"
             +:+ format_2f env threshold);
     data := SpendingData None threshold spending period
               (inject_Z spending - threshold)%Q;
     priority := 3;
     alert_config_id := Some (cfg_id config) |}.

(** The [try] block of [_check_spending_threshold_alerts]. *)
Definition spending_threshold_body (transactions : list Transaction)
    (username : string) (alert_configs : list AlertConfig) : W (list Alert) :=
  let threshold_configs :=
    List.filter (fun c => String.eqb (alert_type c) "spending_threshold")
      alert_configs in
  mret (flat_map (fun config =>
    let spending :=
      _calculate_spending_for_period transactions (threshold_period config) in
    if Py.Qgt_bool (inject_Z spending) (threshold_value config)
    then [spending_alert config spending] else [])
    threshold_configs).

Definition _check_spending_threshold_alerts (transactions : list Transaction)
    (username : string) (alert_configs : list AlertConfig) : W (list Alert) :=
  try_except_t (spending_threshold_body transactions username alert_configs) [].

Definition category_alert (config : AlertConfig) (category_spending : Z) : Alert :=
  let threshold := threshold_value config in
  let period := threshold_period config in
  let category := alert_name config in
  {| type := "category_budget";
     title := "Category Budget Alert: " +:+ category;
     description :=
       VStr ("You've spent $" +:+ format_2f env (inject_Z category_spending)
             +:+ " on " +:+ category +:+ " this " +:+ period
             +:+ ", exceeding your budget of $" +:+ format_2f env threshold);
     data := SpendingData (Some category) threshold category_spending period
               (inject_Z category_spending - threshold)%Q;
     priority := 3;
     alert_config_id := Some (cfg_id config) |}.

(** The [try] block of [_check_category_budget_alerts]. *)
Definition category_budget_body (transactions : list Transaction)
    (username : string) (alert_configs : list AlertConfig) : W (list Alert) :=
  let category_configs :=
    List.filter (fun c => String.eqb (alert_type c) "category_budget")
      alert_configs in
  mret (flat_map (fun config =>
    let category_spending :=
      _calculate_category_spending transactions (alert_name config)
        (threshold_period config) in
    if Py.Qgt_bool (inject_Z category_spending) (threshold_value config)
    then [category_alert config category_spending] else [])
    category_configs).

Definition _check_category_budget_alerts (transactions : list Transaction)
    (username : string) (alert_configs : list AlertConfig) : W (list Alert) :=
  try_except_t (category_budget_body transactions username alert_configs) [].

Definition _detect_unusual_patterns (transactions : list Transaction)
    (username : string) : W (list Pattern) :=
  _ ← emit (AnalyzeData "unusual_spending_detection");
  lift (Ok (try_except
    (match analyze_data env transactions "unusual_spending_detection"
             ("Detect unusual spending patterns for user " +:+ username) with
     | None => Ok []
     | Some analysis_result =>
         match (if Py.dict_truthy analysis_result
                then analysis_result !! "unusual_patterns" else None) with
         | None => Ok []
         | Some patterns =>
             items ← Py.iter patterns;
             map_result (fun pattern =>
               d ← Py.get pattern "description"
                     (VStr "Unusual spending pattern detected");
               p ← Py.get pattern "data" (VDict []);
               Ok {| pattern_description := d; pattern_data := p |}) items
         end
     end)
    [])).

(** The [try] block of [_check_unusual_spending_alerts]. *)
Definition unusual_spending_body (transactions : list Transaction)
    (username : string) (alert_configs : list AlertConfig) : W (list Alert) :=
  if (length transactions <? 10)%nat then mret []
  else
    unusual_patterns ← _detect_unusual_patterns transactions username;
    mret (List.map (fun pattern =>
      {| type := "unusual_spending";
         title := "Unusual Spending Pattern Detected";
         description := pattern_description pattern;
         data := PatternData (pattern_data pattern);
         priority := 2;
         alert_config_id := None |}) unusual_patterns).

Definition _check_unusual_spending_alerts (transactions : list Transaction)
    (username : string) (alert_configs : list AlertConfig) : W (list Alert) :=
  try_except_t (unusual_spending_body transactions username alert_configs) [].

Definition balance_alert (config : AlertConfig) (current_balance : Q) : Alert :=
  let threshold := threshold_value config in
  {| type := "low_balance";
     title := "Low Balance Alert";
     description :=
       VStr ("Your current balance ($" +:+ format_2f env current_balance
             +:+ ") is below your threshold ($" +:+ format_2f env threshold
             +:+ ")");
     data := BalanceData current_balance threshold (threshold - current_balance)%Q;
     priority := 4;
     alert_config_id := Some (cfg_id config) |}.

(** The [try] block of [_check_balance_alerts]. *)
Definition balance_body (username : string)
    (alert_configs : list AlertConfig) : W (list Alert) :=
  let balance_configs :=
    List.filter (fun c => String.eqb (alert_type c) "low_balance")
      alert_configs in
  match balance_configs with
  | [] => mret []
  | _ =>
      _ ← emit (QueryBalance username);
      current_balance ← lift (get_user_balance env username);
      mret (flat_map (fun config =>
        if Qlt_bool current_balance (threshold_value config)
        then [balance_alert config current_balance] else [])
        balance_configs)
  end.

Definition _check_balance_alerts (username : string)
    (alert_configs : list AlertConfig) : W (list Alert) :=
  try_except_t (balance_body username alert_configs) [].

Definition _analyze_spending_improvements (transactions : list Transaction)
    (username : string) : W (list Pattern) :=
  _ ← emit (AnalyzeData "spending_improvement_analysis");
  lift (Ok (try_except
    (match analyze_data env transactions "spending_improvement_analysis"
             ("Analyze spending improvements for user " +:+ username) with
     | None => Ok []
     | Some analysis_result =>
         match (if Py.dict_truthy analysis_result
                then analysis_result !! "improvements" else None) with
         | None => Ok []
         | Some improvements =>
             items ← Py.iter improvements;
             found ← map_result (fun improvement =>
               positive ← Py.get improvement "is_positive" (VBool false);
               if Py.truthy positive then
                 d ← Py.get improvement "description"
                       (VStr "Positive spending improvement detected");
                 p ← Py.get improvement "data" (VDict []);
                 Ok [{| pattern_description := d; pattern_data := p |}]
               else Ok []) items;
             Ok (concat found)
         end
     end)
    [])).

(** Every improvement kept by [_analyze_spending_improvements] has
    [is_positive] set, so each becomes an alert. *)
(** The [try] block of [_check_improvement_alerts]. *)
Definition improvement_body (transactions : list Transaction)
    (username : string) (user_preferences : list Database.PrefRow)
  : W (list Alert) :=
  if (length transactions <? 20)%nat then mret []
  else
    improvements ← _analyze_spending_improvements transactions username;
    mret (List.map (fun improvement =>
      {| type := "improvement_alert";
         title := "Great Job! Spending Improvement Detected";
         description := pattern_description improvement;
         data := PatternData (pattern_data improvement);
         priority := 1;
         alert_config_id := None |}) improvements).

Definition _check_improvement_alerts (transactions : list Transaction)
    (username : string) (user_preferences : list Database.PrefRow)
  : W (list Alert) :=
  try_except_t (improvement_body transactions username user_preferences) [].

Definition check_alerts (transactions : list Transaction) (username : string)
    (user_preferences : list Database.PrefRow) : W (list Alert) :=
  try_except_t
    (match transactions with
     | [] => mret []
     | _ =>
         alert_configs ← _get_user_alert_configs username;
         spending ← _check_spending_threshold_alerts transactions username alert_configs;
         budget ← _check_category_budget_alerts transactions username alert_configs;
         unusual ← _check_unusual_spending_alerts transactions username alert_configs;
         balance ← _check_balance_alerts username alert_configs;
         improvement ← _check_improvement_alerts transactions username user_preferences;
         mret (spending ++ budget ++ unusual ++ balance ++ improvement)
     end)
    [].

End Agent.

End AlertNotification.

(** ** Orchestrator: the ad-hoc query workflow (agents/orchestrator.py) *)

Module Orchestrator.

Inductive Stage : Type :=
| UnderstandQuery
| GetUserPreferences
| GenerateSql
| ExecuteQuery
| GenerateInsights
| CreateVisualizations
| LogInteraction.

(** A chart configuration is a dictionary. *)
Abbreviation Visualization := (list (string * Value)).

(** Values of the response dictionary. *)
Inductive Field : Type :=
| FBool (b : bool)
| FStr (s : string)
| FIntent (query_intent : dict)
| FData (rows : list Transaction)
| FInsights (insights : list InsightGenerator.Insight)
| FVisualizations (visualizations : list Visualization).

(** The sub-agents as the orchestrator sees them; each call may raise. *)
Record Agents : Type := {
  understand_query : string -> result (option dict);
  get_user_preferences : string -> result (list Database.PrefRow);
  generate_sql_query :
    dict -> string -> list Database.PrefRow -> result (option string);
  execute_query : string -> string -> result (list Transaction);
  generate_insights :
    list Transaction -> dict -> string -> list Database.PrefRow ->
    result (list InsightGenerator.Insight);
  create_visualizations :
    list Transaction -> list InsightGenerator.Insight -> dict ->
    result (list Visualization);
  log_interaction : string -> string -> string * dict * nat -> result (option Z);
  utcnow_isoformat : string
}.

Definition failure (message : string) : gmap string Field :=
  {[ "success" := FBool false; "error" := FStr message ]}.

Definition no_sql_message : string :=
  "Could not generate appropriate query for your request.".

(** [if not query_intent] *)
Definition intent_truthy (i : option dict) : option dict :=
  match i with
  | Some d => if Py.dict_truthy d then Some d else None
  | None => None
  end.

(** [if not sql_query] *)
Definition sql_truthy (q : option string) : option string :=
  match q with
  | Some s => if PyStr.truthy s then Some s else None
  | None => None
  end.

Section Workflow.

Variable agents : Agents.

Definition process_user_query (username query : string)
  : Traced Stage (gmap string Field) :=
  try_except_t
    (query_intent ← call UnderstandQuery (understand_query agents query);
     match intent_truthy query_intent with
     | None =>
         mret (failure "Could not understand your query. Please try rephrasing it.")
     | Some query_intent =>
         user_preferences ←
           call GetUserPreferences (get_user_preferences agents username);
         sql_query ←
           call GenerateSql
             (generate_sql_query agents query_intent username user_preferences);
         match sql_truthy sql_query with
         | None =>
             mret (failure "Could not generate appropriate query for your request.")
         | Some sql_query =>
             data_ ← call ExecuteQuery (execute_query agents sql_query username);
             match data_ with
             | [] => mret (failure "No data found for your query.")
             | _ =>
                 insights ←
                   call GenerateInsights
                     (generate_insights agents data_ query_intent username
                        user_preferences);
                 visualizations ←
                   (if Py.truthy (default (VBool false)
                                    (query_intent !! "needs_visualization"))
                    then call CreateVisualizations
                           (create_visualizations agents data_ insights query_intent)
                    else mret []);
                 _ ← call LogInteraction
                       (log_interaction agents username "query_processed"
                          (query, query_intent, length insights));
                 mret {[ "success" := FBool true;
                         "query_intent" := FIntent query_intent;
                         "data" := FData data_;
                         "insights" := FInsights insights;
                         "visualizations" := FVisualizations visualizations;
                         "timestamp" := FStr (utcnow_isoformat agents) ]}
             end
         end
     end)
    (failure "An error occurred while processing your query. Please try again.").

End Workflow.

End Orchestrator.

(** ** Vocabulary for the alert checks *)

Module AlertSpec.

Import AlertNotification.

(** The instant of a transaction whose timestamp is a naive datetime
    (a datetime object without offset, or text that parses to one). *)
Definition naive_us (env : Env) (t : Transaction) : option Z :=
  match trans_date env t with
  | Ok d => match dt_utcoffset d with None => Some (dt_us d) | Some _ => None end
  | Raise _ => None
  end.

Definition all_naive (env : Env) (txs : list Transaction) : Prop :=
  Forall (fun t => is_Some (naive_us env t)) txs.

(** Inside the period window: not before its start. *)
Definition in_window (env : Env) (period : string) (t : Transaction) : bool :=
  dt_us (period_start (now env) period) <=? default 0 (naive_us env t).

(** What a check contributes: the result of its [try] block, or nothing
    when the block raises. *)
Definition contribution (body : W (list Alert)) : list Alert :=
  try_except (snd body) [].

(** The same environment with another balance query. *)
Definition with_balance (env : Env) (b : string -> result Q) : Env :=
  {| now := now env; fromisoformat := fromisoformat env;
     alert_configurations := alert_configurations env;
     get_user_balance := b; analyze_data := analyze_data env;
     format_2f := format_2f env |}.

End AlertSpec.

(** ** Scenarios *)

Module Scenario.

Import AlertNotification.

(** The JSON texts of the examples are decimal numerals; this reading of
    what PostgreSQL takes as JSON knows no other text. *)
Definition digit (c : ascii) : bool :=
  (48 <=? nat_of_ascii c)%nat && (nat_of_ascii c <=? 57)%nat.

Definition valid_json (s : string) : bool :=
  match s with
  | EmptyString => false
  | String c EmptyString => digit c
  | String c rest =>
      negb (Ascii.eqb c "0") && forallb digit (c :: list_ascii_of_string rest)
  end.

Definition coffee_query : string := "Show me my coffee spending this month".

(** Five recent amounts of average 3.8, five older ones of average 4. *)
Definition threshold_transactions : list Transaction :=
  List.map (fun a => mk_tx (Some a) None None) [19; 0; 0; 0; 0; 20; 0; 0; 0; 0].

Definition ten_transactions : list Transaction :=
  List.map (fun a => mk_tx (Some a) None None)
    [30; 50; 40; 20; 60; 100; 150; 50; 90; 110].

Definition decimal (n : Z) : string :=
  NilZero.string_of_uint (N.to_uint (Z.to_N n)).

(** Two-decimal text of a non-negative rational (half rounds up). *)
Definition format_2f (q : Q) : string :=
  let cents := Qfloor (q * 100 + (1 # 2))%Q in
  let frac := cents mod 100 in
  decimal (cents / 100) +:+ "." +:+ (if frac <? 10 then "0" else EmptyString)
  +:+ decimal frac.

(** Local time is 2024-01-01 12:00:00. *)
Definition noon : datetime := Datetime.of_fields 2024 1 1 12 0 0 None.

Definition daily_limit : AlertConfig :=
  {| cfg_id := 1; alert_type := "spending_threshold";
     alert_name := "Daily spending"; threshold_value := 100;
     threshold_period := "daily" |}.

Definition low_balance : AlertConfig :=
  {| cfg_id := 2; alert_type := "low_balance"; alert_name := "Low balance";
     threshold_value := 500; threshold_period := "daily" |}.

Definition unnamed_budget : AlertConfig :=
  {| cfg_id := 3; alert_type := "category_budget"; alert_name := EmptyString;
     threshold_value := 100; threshold_period := "daily" |}.

Definition coffee_budget : AlertConfig :=
  {| cfg_id := 4; alert_type := "category_budget"; alert_name := "Coffee";
     threshold_value := 20; threshold_period := "daily" |}.

Definition env (configs : list AlertConfig) (balance : result Q) : Env :=
  {| now := noon;
     fromisoformat := Datetime.fromisoformat;
     alert_configurations := fun _ => Ok configs;
     get_user_balance := fun _ => balance;
     analyze_data := fun _ _ _ => None;
     AlertNotification.format_2f := format_2f |}.

(** Today's spending of 150 with UTC-suffixed timestamps, as in the
    mock transactions of test/test_aibackend.py. *)
Definition today_utc : list Transaction :=
  [mk_tx (Some 100) (Some (TsStr "2024-01-01T09:30:00Z")) (Some "Groceries");
   mk_tx (Some 50) (Some (TsStr "2024-01-01T10:00:00Z")) (Some "Coffee")].

(** The same spending with offset-free timestamps. *)
Definition today_naive : list Transaction :=
  [mk_tx (Some 100) (Some (TsStr "2024-01-01T09:30:00")) (Some "Groceries");
   mk_tx (Some 50) (Some (TsStr "2024-01-01T10:00:00")) (Some "Coffee")].

(** Rows shaped like the ledger table: a datetime and no description. *)
Definition ledger_rows : list Transaction :=
  [mk_tx (Some 100)
     (Some (TsDatetime (Datetime.of_fields 2024 1 1 9 30 0 None))) None;
   mk_tx (Some 50)
     (Some (TsDatetime (Datetime.of_fields 2024 1 1 10 0 0 None))) None].

(** Sub-agents for the ad-hoc workflow: no gateway result for the intent,
    and a generated statement that validation rejects. Every later stage
    raises if it is ever called. *)
Definition agents_rejected_sql : Orchestrator.Agents :=
  {| Orchestrator.understand_query := fun q =>
       Ok (QueryUnderstanding.understand_query (fun _ => Ok None) q);
     Orchestrator.get_user_preferences := fun _ => Ok [];
     Orchestrator.generate_sql_query := fun _ u _ =>
       Ok (DataAnalyst.generate_sql_query (Ok (Some "DROP TABLE users")) u);
     Orchestrator.execute_query := fun _ _ => Raise SQLAlchemyError;
     Orchestrator.generate_insights := fun _ _ _ _ => Raise TypeError;
     Orchestrator.create_visualizations := fun _ _ _ => Raise TypeError;
     Orchestrator.log_interaction := fun _ _ _ => Raise SQLAlchemyError;
     Orchestrator.utcnow_isoformat := "2024-01-01T12:00:00" |}.

End Scenario.

(** ** Vocabulary of the specification *)

Module Spec.

(** The four purchase buckets and their amount ranges. *)
Inductive Bucket : Type := Small | Medium | Large | VeryLarge.

#[global] Instance Bucket_eq_dec : EqDecision Bucket.
Proof. solve_decision. Defined.

Definition in_range (b : Bucket) (a : Z) : Prop :=
  match b with
  | Small => a < 50
  | Medium => 50 <= a < 200
  | Large => 200 <= a < 500
  | VeryLarge => 500 <= a
  end.

Definition bucket_name (b : Bucket) : string :=
  match b with
  | Small => "Small purchases"
  | Medium => "Medium purchases"
  | Large => "Large purchases"
  | VeryLarge => "Very large purchases"
  end.

(** The key of the bucket in the category insight: its name followed
    by its range. *)
Definition insight_key (b : Bucket) : string :=
  bucket_name b +:+
  match b with
  | Small => " (<$50)"
  | Medium => " ($50-$200)"
  | Large => " ($200-$500)"
  | VeryLarge => " (>$500)"
  end.

(** All four keys are in the dictionary of a category insight. *)
Definition has_buckets (cats : gmap string Z) : Prop :=
  forall b, is_Some (cats !! insight_key b).

(** The sum of the four bucket totals of a category insight. *)
Definition buckets_sum (cats : gmap string Z) : Z :=
  fold_right Z.add 0
    (List.map (fun b => default 0 (cats !! insight_key b))
       [Small; Medium; Large; VeryLarge]).

End Spec.

(** ** Vocabulary for the insight list *)

Module InsightSpec.

Import InsightGenerator.

(** The chart configurations the analyses attach to their insights. *)
Definition known_configs : list (list (string * string)) :=
  [[("chart_type", "line"); ("x_axis", "date"); ("y_axis", "amount")];
   [("chart_type", "pie"); ("data_key", "categories")];
   [("chart_type", "bar"); ("x_axis", "period"); ("y_axis", "amount")]].

(** What every generated insight satisfies: one of the three kinds, a
    priority of 2 or 3, a description that is not empty, and one of the
    three chart configurations. *)
Definition well_formed (i : Insight) : Prop :=
  In (insight_type i) ["spending_trends"; "category_analysis"; "improvement_analysis"]
  /\ (priority i = 2 \/ priority i = 3)
  /\ description i <> EmptyString
  /\ In (visualization_config i) known_configs.

End InsightSpec.

(** ** Vocabulary for the alerts of one check *)

Module AlertVocab.

Import AlertNotification.

(** The alerts a check returns. *)
Definition alerts_of (w : W (list Alert)) : list Alert :=
  try_except (snd w) [].

(** The configurations of one alert type. *)
Definition of_type (name : string) (configs : list AlertConfig) : list AlertConfig :=
  List.filter (fun c => String.eqb (alert_type c) name) configs.

(** The deficit a low-balance alert reports. *)
Definition deficit_of (a : Alert) : option Q :=
  match data a with
  | BalanceData _ _ d => Some d
  | _ => None
  end.

(** A transaction whose timestamp cannot be ordered against a naive
    window start: the key is missing, the text does not parse, or the
    datetime carries a UTC offset. *)
Definition unorderable (env : Env) (t : Transaction) : Prop :=
  AlertSpec.naive_us env t = None.

(** The five kinds of alert: the type, its priority, and whether the
    alert names the configuration that triggered it. *)
Definition kinds : list (string * Z * bool) :=
  [("spending_threshold", 3, true); ("category_budget", 3, true);
   ("unusual_spending", 2, false); ("low_balance", 4, true);
   ("improvement_alert", 1, false)].

Definition kind_of (a : Alert) : string * Z * bool :=
  (type a, priority a,
   match alert_config_id a with Some _ => true | None => false end).

Definition is_dict (v : Value) : bool :=
  match v with
  | VDict _ => true
  | _ => false
  end.

(** The entry [k] of a dictionary value, [dflt] when it is missing. *)
Definition field (k : string) (dflt : Value) (item : Value) : Value :=
  match item with
  | VDict d => default dflt (Py.assoc k d)
  | _ => dflt
  end.

(** The alert raised for one pattern reported by the gateway. *)
Definition unusual_alert (item : Value) : Alert :=
  {| type := "unusual_spending";
     title := "Unusual Spending Pattern Detected";
     description := field "description" (VStr "Unusual spending pattern detected") item;
     data := PatternData (field "data" (VDict []) item);
     priority := 2;
     alert_config_id := None |}.

Definition is_positive (item : Value) : bool :=
  Py.truthy (field "is_positive" (VBool false) item).

(** The alert raised for one improvement reported by the gateway. *)
Definition improvement_alert (item : Value) : Alert :=
  {| type := "improvement_alert";
     title := "Great Job! Spending Improvement Detected";
     description :=
       field "description" (VStr "Positive spending improvement detected") item;
     data := PatternData (field "data" (VDict []) item);
     priority := 1;
     alert_config_id := None |}.

End AlertVocab.

(** ** Gateway answers used as examples *)

Module GatewayScenario.

Import AlertNotification.

Definition weekend_pattern : Value :=
  VDict [("description", VStr "Spending doubled at the weekend");
         ("data", VDict [("ratio", VInt 2)])].

Definition bare_pattern : Value := VDict [].

Definition saved : Value :=
  VDict [("is_positive", VBool true); ("description", VStr "Dining down 20%")].

Definition worse : Value :=
  VDict [("is_positive", VBool false); ("description", VStr "Shopping up 10%")].

Definition answer : dict :=
  <["unusual_patterns" := VList [weekend_pattern; bare_pattern]]>
    (<["improvements" := VList [saved; worse; bare_pattern]]> ∅).

(** The scenario environment with a gateway that gives [answer]. *)
Definition env : Env :=
  {| now := Scenario.noon;
     fromisoformat := Datetime.fromisoformat;
     alert_configurations := fun _ => Ok [];
     get_user_balance := fun _ => Ok 0%Q;
     analyze_data := fun _ _ _ => Some answer;
     AlertNotification.format_2f := Scenario.format_2f |}.

Definition twenty_transactions : list Transaction :=
  Scenario.ten_transactions ++ Scenario.ten_transactions.

End GatewayScenario.

(** ** Vocabulary for the preference table *)

Module TableSpec.

Import Database.

(** What the primary key and the sequence give (the sequence is
    positive, ids are distinct, positive and below the next value of the
    sequence), and one record at most per (username, type, key), which
    the schema does not ask for. *)
Record well_formed (db : Accounts) : Prop := {
  seq_positive : 0 < next_id db;
  ids_unique : List.NoDup (List.map id (user_preferences db));
  ids_issued : Forall (fun r => 0 < id r < next_id db) (user_preferences db);
  keys_unique : forall u t k,
    (length (List.filter (matches u t k) (user_preferences db)) <= 1)%nat
}.

(** An upsert that is an insert the column takes: no record for its
    key, and a value that is read as JSON. *)
Definition fresh (valid_json : string -> bool) (u : string) (db : Accounts)
    (p : string * string * Value) : Prop :=
  List.filter (matches u (fst (fst p)) (snd (fst p))) (user_preferences db) = []
  /\ bind_jsonb valid_json (snd p) = Json.

(** The rows of one user. *)
Definition rows_of (u : string) (db : Accounts) : list PrefRow :=
  List.filter (fun r => String.eqb (username r) u) (user_preferences db).

End TableSpec.

(** ** Vocabulary for the ad-hoc query workflow *)

Module WorkflowSpec.

Import Orchestrator.

(** The stages of a complete run, in order. *)
Definition pipeline (with_visualization : bool) : list Stage :=
  [UnderstandQuery; GetUserPreferences; GenerateSql; ExecuteQuery; GenerateInsights]
  ++ (if with_visualization then [CreateVisualizations] else [])
  ++ [LogInteraction].

Definition not_understood : string :=
  "Could not understand your query. Please try rephrasing it.".

Definition no_data : string := "No data found for your query.".

Definition generic_error : string :=
  "An error occurred while processing your query. Please try again.".

(** [query_intent.get("needs_visualization", False)] as a condition. *)
Definition wants_visualization (query_intent : dict) : bool :=
  Py.truthy (default (VBool false) (query_intent !! "needs_visualization")).

(** The answer of a complete run, given what the logging call did. *)
Definition answer (agents : Agents) (query_intent : dict) (rows : list Transaction)
    (insights : list InsightGenerator.Insight) (visualizations : list Visualization)
    (logged : result (option Z)) : gmap string Field :=
  match logged with
  | Ok _ =>
      {[ "success" := FBool true;
         "query_intent" := FIntent query_intent;
         "data" := FData rows;
         "insights" := FInsights insights;
         "visualizations" := FVisualizations visualizations;
         "timestamp" := FStr (utcnow_isoformat agents) ]}
  | Raise _ => failure generic_error
  end.

(** Sub-agents that answer every call. *)
Definition agents_ok (intent : dict) (rows : list Transaction) : Agents :=
  {| understand_query := fun _ => Ok (Some intent);
     get_user_preferences := fun _ => Ok [];
     generate_sql_query := fun _ _ _ => Ok (Some "SELECT amount FROM transactions");
     execute_query := fun _ _ => Ok rows;
     generate_insights := fun _ _ _ _ => Ok [];
     create_visualizations := fun _ _ _ => Ok [[("type", VStr "bar")]];
     log_interaction := fun _ _ _ => Ok (Some 1);
     utcnow_isoformat := "2024-01-01T12:00:00" |}.

End WorkflowSpec.

(** ** Time periods (agents/query_understanding.py) *)

Module TimePeriods.

Definition period_mapping : list (string * Z) :=
  [("today", 1); ("yesterday", 1); ("this_week", 7); ("last_week", 14);
   ("this_month", 30); ("last_month", 60); ("this_year", 365);
   ("last_year", 730)].

Fixpoint lookup (k : string) (table : list (string * Z)) : option Z :=
  match table with
  | [] => None
  | (k', v) :: rest => if String.eqb k k' then Some v else lookup k rest
  end.

(** [period_mapping.get(time_period, 30)] *)
Definition get_time_period_days (time_period : string) : Z :=
  default 30 (lookup time_period period_mapping).

(** [get_time_period_dates], given [datetime.now()]. *)
Definition get_time_period_dates (now_ : datetime) (time_period : string)
  : datetime * datetime :=
  let days := get_time_period_days time_period in
  let end_date := now_ in
  let start_date := Datetime.minus_days end_date days in
  (start_date, end_date).

End TimePeriods.

(** ** Vocabulary for intents *)

Module IntentSpec.

(** The keys of an intent. *)
Definition intent_keys : list string :=
  ["original_query"; "analysis_type"; "time_period"; "categories";
   "needs_visualization"; "priority"; "confidence"].

(** The fields the gateway may decide. *)
Definition gateway_fields : list string :=
  ["analysis_type"; "time_period"; "categories"; "needs_visualization"; "priority"].

End IntentSpec.

(** ** Gateway client: cleaning the generated SQL (vertex_ai_client.py) *)

Module VertexAI.

(** [s[n:]] *)
Fixpoint drop (n : nat) (s : string) : string :=
  match n, s with
  | O, _ => s
  | S n', String _ s' => drop n' s'
  | S _, EmptyString => EmptyString
  end.

(** [s[:n]] *)
Fixpoint take (n : nat) (s : string) : string :=
  match n, s with
  | O, _ => EmptyString
  | S n', String c s' => String c (take n' s')
  | S _, EmptyString => EmptyString
  end.

(** [s.endswith(p)] *)
Definition endswith (s p : string) : bool :=
  (String.length p <=? String.length s)%nat
  && String.eqb (drop (String.length s - String.length p) s) p.

Definition fence_open : string := "```sql".
Definition fence_close : string := "```".

(** [generate_sql_query], given what [generate_text] returned for the
    prompt; [s[6:]] and [s[:-3]] are [drop 6] and [take (len - 3)]. *)
Definition generate_sql_query (response : option string) : option string :=
  match response with
  | Some response =>
      if PyStr.truthy response then
        let sql_query := PyStr.strip response in
        let sql_query :=
          if PyStr.startswith sql_query fence_open then drop 6 sql_query
          else sql_query in
        let sql_query :=
          if endswith sql_query fence_close
          then take (String.length sql_query - 3) sql_query
          else sql_query in
        Some (PyStr.strip sql_query)
      else None
  | None => None
  end.

(** What the data analyst returns for a gateway response. *)
Definition analyst_sql (response : option string) (username : string)
  : option string :=
  DataAnalyst.generate_sql_query (Ok (generate_sql_query response)) username.

(** [s.find(c)] for a one-character [c]: the first index, or -1. *)
Fixpoint find_from (c : ascii) (s : string) (i : Z) : Z :=
  match s with
  | EmptyString => -1
  | String a s' => if Ascii.eqb a c then i else find_from c s' (i + 1)
  end.

Definition find (c : ascii) (s : string) : Z := find_from c s 0.

(** [s.rfind(c)] for a one-character [c]: the last index, or -1. *)
Fixpoint rfind_from (c : ascii) (s : string) (i last : Z) : Z :=
  match s with
  | EmptyString => last
  | String a s' => rfind_from c s' (i + 1) (if Ascii.eqb a c then i else last)
  end.

Definition rfind (c : ascii) (s : string) : Z := rfind_from c s 0 (-1).

(** [s[a:b]] for indices that are not negative. *)
Definition slice (a b : Z) (s : string) : string :=
  drop (Z.to_nat a) (take (Z.to_nat b) s).

Section Json.

(** [json.loads] on a text that begins with an opening brace: the object,
    or a decoding error. *)
Variable json_loads : string -> result dict.

(** [generate_structured_response], given what [generate_text] returned
    for the prompt. *)
Definition generate_structured_response (response_text : option string)
  : option dict :=
  match response_text with
  | Some response_text =>
      if PyStr.truthy response_text then
        let start_idx := find "{" response_text in
        let end_idx := rfind "}" response_text + 1 in
        if negb (start_idx =? -1) && (start_idx <? end_idx)
        then try_except
               (parsed ← json_loads (slice start_idx end_idx response_text);
                Ok (Some parsed))
               None
        else None
      else None
  | None => None
  end.

End Json.

End VertexAI.

(** ** Alert configurations: writing (agents/alert_notification.py) *)

Module AlertConfigStore.









End AlertConfigStore.

(** ** Learned preferences (agents/user_preference.py) *)

Module LearnedPreferences.

Import Database.

Definition has_key (k : string) (d : list (string * Value)) : bool :=
  match Py.assoc k d with
  | Some _ => true
  | None => false
  end.

(** [{**a, **b}]: the keys of [a] in their order, with the value of [b]
    where [b] has the key, then the keys that only [b] has. *)
Definition merge (a b : list (string * Value)) : list (string * Value) :=
  List.map (fun kv => (fst kv, default (snd kv) (Py.assoc (fst kv) b))) a
  ++ List.filter (fun kv => negb (has_key (fst kv) a)) b.

(** The value saved over an existing preference. *)
Definition updated_value (current_value value : Value) : Value :=
  match current_value, value with
  | VDict a, VDict b => VDict (merge a b)
  | _, _ => value
  end.

Section Store.

Variable fails : nat -> bool.
Variable valid_json : string -> bool.

(** [SELECT preference_value FROM user_preferences WHERE username = ..
    AND preference_type = .. AND preference_key = ..] *)
Definition select_values (u t k : string) : DB (list Value) :=
  execute_query fails (fun db =>
    (Ok (Some (List.map preference_value
                 (List.filter (matches u t k) (user_preferences db)))),
     db)).

(** The body of the inner loop: one learned entry. *)
Definition apply_entry (u pref_type key : string) (value : Value) : DB unit :=
  current_prefs ← select_values u pref_type key;
  match current_prefs with
  | current_value :: _ =>
      _ ← save_user_preference fails valid_json u pref_type key
            (updated_value current_value value);
      mret tt
  | [] =>
      _ ← save_user_preference fails valid_json u pref_type key value;
      mret tt
  end.

Fixpoint apply_entries (u pref_type : string) (entries : list (string * Value))
  : DB unit :=
  match entries with
  | [] => mret tt
  | (key, value) :: rest =>
      _ ← apply_entry u pref_type key value;
      apply_entries u pref_type rest
  end.

(** The loop over [learned_preferences.items()]; an entry that is not a
    dictionary is skipped. *)
Fixpoint apply_all (u : string) (learned_preferences : list (string * Value))
  : DB unit :=
  match learned_preferences with
  | [] => mret tt
  | (pref_type, pref_data) :: rest =>
      _ ← match pref_data with
          | VDict entries => apply_entries u pref_type entries
          | _ => mret tt
          end;
      apply_all u rest
  end.

(** [_apply_learned_preferences]: the handler logs the error and the
    function returns nothing, so what is left is the database. *)
Definition _apply_learned_preferences (u : string)
    (learned_preferences : list (string * Value)) (db : Accounts) : Accounts :=
  snd (apply_all u learned_preferences db).

End Store.

(** The number of learned entries that are looked at. *)
Definition entries_of (learned_preferences : list (string * Value)) : nat :=
  length (UserPreference.upserts_of
            (List.filter (fun p => AlertVocab.is_dict (snd p)) learned_preferences)).

End LearnedPreferences.

(** ** Data visualization agent (agents/data_visualization.py) *)

Module DataVisualization.

Import InsightGenerator.

(** Values of a chart configuration: JSON values and the data rows. *)
Inductive Field : Type :=
| FVal (v : Value)
| FRows (rows : list Transaction).

Abbreviation Config := (gmap string Field).

Definition field_truthy (f : Field) : bool :=
  match f with
  | FVal v => Py.truthy v
  | FRows rows => match rows with [] => false | _ => true end
  end.

(** [field in config] *)
Definition has (config : Config) (field : string) : bool :=
  match config !! field with
  | Some _ => true
  | None => false
  end.

Definition required_fields : list string :=
  ["id"; "type"; "chart_type"; "title"; "data"].

(** [validate_visualization_config]; [config["data"]] is read only when
    the key is there. *)
Definition validate_visualization_config (config : Config) : bool :=
  if forallb (has config) required_fields
  then field_truthy (default (FVal VNone) (config !! "data"))
  else false.

(** The chart configuration of an insight as a dictionary. *)
Definition base_config_of (i : Insight) : Config :=
  list_to_map (List.map (fun kv => (fst kv, FVal (VStr (snd kv))))
                 (visualization_config i)).

(** [config.get(key, dflt)] *)
Definition get (config : dict) (key : string) (dflt : Value) : Value :=
  default dflt (config !! key).

Section Agent.

(** The gateway's structured response for the prompt of one kind of
    chart, built from the first five rows and the intent; the clock as
    [strftime('%Y%m%d_%H%M%S')] and as [isoformat()]. *)
Variable generate_structured_response :
  string -> list Transaction -> dict -> result (option dict).
Variable stamp : string.
Variable now_isoformat : string.

(** [if config:] after the gateway call of a builder. *)
Definition config_for (kind : string) (data_ : list Transaction)
    (query_intent : dict) : result (option dict) :=
  config ← generate_structured_response kind (firstn 5 data_) query_intent;
  Ok match config with
     | Some c => if Py.dict_truthy c then Some c else None
     | None => None
     end.

Definition _create_trend_visualization (data_ : list Transaction)
    (query_intent : dict) : option Config :=
  try_except
    (match data_ with
     | [] => Ok None
     | first :: _ =>
         match tx_timestamp first with
         | None => Ok None
         | Some _ =>
             config ← config_for "spending trends" data_ query_intent;
             Ok match config with
                | Some config =>
                    Some {[ "id" := FVal (VStr ("trend_" +:+ stamp));
                            "type" := FVal (VStr "trend_analysis");
                            "chart_type" := FVal (get config "chart_type" (VStr "line"));
                            "title" := FVal (get config "title" (VStr "Spending Trends"));
                            "x_axis" :=
                              FVal (VDict
                                [("field", get config "x_axis_field" (VStr "timestamp"));
                                 ("label", get config "x_axis_label" (VStr "Date"));
                                 ("type", VStr "datetime")]);
                            "y_axis" :=
                              FVal (VDict
                                [("field", get config "y_axis_field" (VStr "amount"));
                                 ("label", get config "y_axis_label" (VStr "Amount ($)"));
                                 ("type", VStr "number")]);
                            "data" := FRows data_;
                            "color_scheme" := FVal (get config "color_scheme" (VStr "blue"));
                            "description" :=
                              FVal (VStr "Shows your spending patterns over time") ]}
                | None => None
                end
         end
     end)
    None.

Definition _create_category_visualization (data_ : list Transaction)
    (query_intent : dict) : option Config :=
  try_except
    (config ← config_for "spending category" data_ query_intent;
     Ok match config with
        | Some config =>
            Some {[ "id" := FVal (VStr ("category_" +:+ stamp));
                    "type" := FVal (VStr "category_analysis");
                    "chart_type" := FVal (get config "chart_type" (VStr "pie"));
                    "title" := FVal (get config "title" (VStr "Spending by Category"));
                    "category_field" :=
                      FVal (get config "category_field" (VStr "category"));
                    "value_field" := FVal (get config "value_field" (VStr "amount"));
                    "data" := FRows data_;
                    "color_scheme" := FVal (get config "color_scheme" (VStr "rainbow"));
                    "description" :=
                      FVal (VStr "Shows how your spending is distributed across categories") ]}
        | None => None
        end)
    None.

Definition _create_improvement_visualization (data_ : list Transaction)
    (query_intent : dict) : option Config :=
  try_except
    (config ← config_for "spending improvement" data_ query_intent;
     Ok match config with
        | Some config =>
            Some {[ "id" := FVal (VStr ("improvement_" +:+ stamp));
                    "type" := FVal (VStr "improvement_analysis");
                    "chart_type" := FVal (get config "chart_type" (VStr "bar"));
                    "title" := FVal (get config "title" (VStr "Spending Improvement"));
                    "comparison_fields" :=
                      FVal (get config "comparison_fields"
                              (VList [VStr "current"; VStr "previous"]));
                    "data" := FRows data_;
                    "color_scheme" :=
                      FVal (get config "color_scheme" (VStr "improvement"));
                    "description" :=
                      FVal (VStr "Shows how your spending has improved over time") ]}
        | None => None
        end)
    None.

Definition _create_general_visualization (data_ : list Transaction)
    (query_intent : dict) : option Config :=
  try_except
    (config ← config_for "general spending" data_ query_intent;
     Ok match config with
        | Some config =>
            Some {[ "id" := FVal (VStr ("general_" +:+ stamp));
                    "type" := FVal (VStr "general_analysis");
                    "chart_type" := FVal (get config "chart_type" (VStr "bar"));
                    "title" := FVal (get config "title" (VStr "Spending Analysis"));
                    "x_axis" := FVal (get config "x_axis" (VDict []));
                    "y_axis" := FVal (get config "y_axis" (VDict []));
                    "data" := FRows data_;
                    "color_scheme" := FVal (get config "color_scheme" (VStr "blue"));
                    "description" :=
                      FVal (VStr "Shows your spending data in an easy-to-understand format") ]}
        | None => None
        end)
    None.

(** [_create_visualizations_for_intent]: a chart that was built is a
    dictionary with entries, so [if viz:] keeps it. *)
Definition _create_visualizations_for_intent (data_ : list Transaction)
    (query_intent : dict) : list Config :=
  let analysis_type :=
    default (VStr "general") (query_intent !! "analysis_type") in
  to_list
    (if is_type analysis_type "spending_trends"
     then _create_trend_visualization data_ query_intent
     else if is_type analysis_type "category_analysis"
     then _create_category_visualization data_ query_intent
     else if is_type analysis_type "improvement"
     then _create_improvement_visualization data_ query_intent
     else _create_general_visualization data_ query_intent).

(** [_enhance_visualization_config]; a generated insight has no [id], so
    [insight.get("id")] is [None]. *)
Definition _enhance_visualization_config (base_config : Config)
    (data_ : list Transaction) (insight : Insight) : Config :=
  let enhanced_config := base_config in
  let enhanced_config := <["data" := FRows data_]> enhanced_config in
  let enhanced_config := <["insight_id" := FVal VNone]> enhanced_config in
  let enhanced_config :=
    <["insight_type" := FVal (VStr (insight_type insight))]> enhanced_config in
  let enhanced_config :=
    if has enhanced_config "description" then enhanced_config
    else <["description" := FVal (VStr (description insight))]> enhanced_config in
  <["created_at" := FVal (VStr now_isoformat)]> enhanced_config.

(** [if insight.get("visualization_config")] *)
Definition has_chart (insight : Insight) : bool :=
  match visualization_config insight with
  | [] => false
  | _ => true
  end.

Definition create_visualizations (data_ : list Transaction)
    (insights : list Insight) (query_intent : dict) : list Config :=
  (if Py.truthy (default (VBool false) (query_intent !! "needs_visualization"))
   then _create_visualizations_for_intent data_ query_intent
   else [])
  ++ List.map (fun insight =>
       _enhance_visualization_config (base_config_of insight) data_ insight)
       (List.filter has_chart insights).

End Agent.

(** [if data:] *)
Definition nonempty (data_ : list Transaction) : bool :=
  match data_ with [] => false | _ => true end.

(** The kinds of chart the builders make. *)
Definition chart_kinds : list Value :=
  [VStr "trend_analysis"; VStr "category_analysis"; VStr "improvement_analysis";
   VStr "general_analysis"].

End DataVisualization.

(** ** Daily insights (agents/orchestrator.py, database.py) *)

Module DailyInsights.

(** What the daily run collects: insights, then alerts. *)
Inductive Item : Type :=
| InsightItem (i : InsightGenerator.Insight)
| AlertItem (a : AlertNotification.Alert).

(** A row of [ai_insights]: its id, its owner, and the item it was
    written from. *)
Record SavedInsight : Type := {
  saved_id : Z;
  saved_username : string;
  saved_item : Item
}.

(** The committed rows of the table, the [SERIAL] sequence behind [id],
    and the number of statements given to [execute_query] so far. *)
Record InsightTable : Type := {
  saved : list SavedInsight;
  next_id : Z;
  statements : nat
}.

Section Store.

(** Which statements fail for a reason of their own, and what becomes of
    the description and the payload of an alert of the gateway when they
    are bound to the columns [description] and [data]. *)
Variable fails : nat -> bool.
Variable bind_alert : Value -> Value -> Database.Binding.

(** The parameters of the [INSERT]. The [data] of an insight, and of a
    spending or a balance alert, is a [dict], for which the driver has no
    adapter. *)
Definition bind_item (item : Item) : Database.Binding :=
  match item with
  | InsightItem _ => Database.Rejected
  | AlertItem a =>
      match AlertNotification.data a with
      | AlertNotification.PatternData payload =>
          bind_alert (AlertNotification.description a) payload
      | _ => Database.Rejected
      end
  end.

(** [db_manager.save_insight]: the [INSERT .. RETURNING id] through
    [execute_query]. Nothing is committed: the new row is gone when the
    connection is closed, the id it drew is not. *)
Definition save_insight (u : string) (item : Item) (t : InsightTable)
  : result (option Z) * InsightTable :=
  let t1 := {| saved := saved t; next_id := next_id t;
               statements := S (statements t) |} in
  let drawn := {| saved := saved t; next_id := next_id t + 1;
                  statements := S (statements t) |} in
  if fails (statements t) then (Raise SQLAlchemyError, t1)
  else
    match bind_item item with
    | Database.Json => (Ok (Some (next_id t)), drawn)
    | Database.Null => (Raise SQLAlchemyError, drawn)
    | Database.Rejected => (Raise SQLAlchemyError, t1)
    end.

(** The loop that saves each item and records its id in it. *)
Fixpoint save_each (u : string) (items : list Item) (t : InsightTable)
  : result (list (Item * option Z)) * InsightTable :=
  match items with
  | [] => (Ok [], t)
  | item :: rest =>
      match save_insight u item t with
      | (Ok insight_id, t1) =>
          match save_each u rest t1 with
          | (Ok done, t2) => (Ok ((item, insight_id) :: done), t2)
          | (Raise e, t2) => (Raise e, t2)
          end
      | (Raise e, t1) => (Raise e, t1)
      end
  end.

(** The gateway and the formats of the insight generator, the
    environment of the alert agent, the preferences as the preference
    agent returns them, and [db_manager.get_user_transactions]. *)
Variable generate_insight_description :
  InsightGenerator.InsightData -> string -> option string.
Variable format_1f format_2f : Q -> string.
Variable float_1f : float -> string.
Variable env : AlertNotification.Env.
Variable get_user_preferences : string -> list Database.PrefRow.
Variable get_user_transactions : string -> result (list Transaction).

(** The insights and the alerts of one run, in the order in which they
    are collected. *)
Definition collect (u : string) (recent_transactions : list Transaction)
  : list Item :=
  let user_preferences := get_user_preferences u in
  List.map InsightItem
    (InsightGenerator.to_list
       (InsightGenerator.analyze_spending_trends
          (AlertNotification.analyze_data env) generate_insight_description
          recent_transactions u)
     ++ InsightGenerator.to_list
          (InsightGenerator.analyze_spending_categories
             generate_insight_description format_1f format_2f
             recent_transactions u)
     ++ InsightGenerator.to_list
          (InsightGenerator.analyze_improvements
             generate_insight_description float_1f recent_transactions u))
  ++ List.map AlertItem
       (try_except
          (snd (AlertNotification.check_alerts env recent_transactions u
                  user_preferences))
          []).

Definition generate_daily_insights (u : string) (t : InsightTable)
  : list (Item * option Z) * InsightTable :=
  match get_user_transactions u with
  | Raise _ => ([], t)
  | Ok [] => ([], t)
  | Ok recent_transactions =>
      match save_each u (collect u recent_transactions) t with
      | (Ok insights, t') => (insights, t')
      | (Raise _, t') => ([], t')
      end
  end.

End Store.

End DailyInsights.

(** ** Authentication of a request (main.py, auth.py) *)

Module Auth.

(** How [get_current_user] can end without a user. *)
Inductive Failure : Type :=
| HTTPException (status_code : Z) (detail : string)
| IndexError.

(** [s.split(c)] for a one-character separator. *)
Fixpoint split (c : ascii) (s : string) : list string :=
  match s with
  | EmptyString => [EmptyString]
  | String a s' =>
      if Ascii.eqb a c then EmptyString :: split c s'
      else match split c s' with
           | w :: ws => String a w :: ws
           | [] => [String a EmptyString]
           end
  end.

(** The text before the first space. *)
Fixpoint until_space (s : string) : string :=
  match s with
  | EmptyString => EmptyString
  | String a s' => if Ascii.eqb a " " then EmptyString else String a (until_space s')
  end.

Section Jwt.

(** [jwt.decode] with the public key, signature and expiry checks: the
    payload, or any of its errors (a key file that cannot be read
    included). *)
Variable decode : string -> result dict.

Definition verify_jwt_token (token : string) : option dict :=
  try_except (payload ← decode token; Ok (Some payload)) None.

Definition get_username_from_token (token : string) : option Value :=
  match verify_jwt_token token with
  | Some payload =>
      if Py.dict_truthy payload then payload !! "username" else None
  | None => None
  end.

Definition is_token_valid (token : string) : bool :=
  match verify_jwt_token token with
  | Some _ => true
  | None => false
  end.

Definition get_current_user (authorization : option string)
  : Failure + Value :=
  match authorization with
  | None => inl (HTTPException 401 "Authorization header required")
  | Some authorization =>
      if negb (PyStr.truthy authorization)
      then inl (HTTPException 401 "Authorization header required")
      else if negb (PyStr.startswith authorization "Bearer ")
      then inl (HTTPException 401 "Invalid authorization format")
      else
        match nth_error (split " " authorization) 1 with
        | None => inl IndexError
        | Some token =>
            if negb (is_token_valid token)
            then inl (HTTPException 401 "Invalid or expired token")
            else
              match get_username_from_token token with
              | Some username =>
                  if Py.truthy username then inr username
                  else inl (HTTPException 401 "Could not extract username from token")
              | None =>
                  inl (HTTPException 401 "Could not extract username from token")
              end
        end
  end.

End Jwt.

Definition details : list string :=
  ["Authorization header required"; "Invalid authorization format";
   "Invalid or expired token"; "Could not extract username from token"].

End Auth.

(** * Properties *)

(** ** Strings *)

Section StringFacts.

Import PyStr.

Lemma startswith_spec s p :
  startswith s p = true <-> exists rest, s = p +:+ rest.
Proof.
  revert s; induction p as [|a p IH]; intros s; simpl.
  - split; [intros _; exists s; reflexivity | intros _; reflexivity].
  - destruct s as [|b s].
    + split; [discriminate | intros [r Hr]; discriminate].
    + rewrite andb_true_iff, Ascii.eqb_eq, IH. split.
      * intros [-> [r ->]]. exists r. reflexivity.
      * intros [r Hr]. injection Hr as -> ->. eauto.
Qed.

Lemma is_empty_map f s : is_empty (map f s) = is_empty s.
Proof. destruct s; reflexivity. Qed.

End StringFacts.

(** ** SQL validation on any text *)

Section UnicodeFacts.

Import Unicode.

Lemma ustartswith_spec (s p : str) :
  startswith s p = true <-> exists rest, s = p ++ rest.
Proof.
  revert s; induction p as [|a p IH]; intros s; cbn [startswith app].
  - split; [intros _; exists s; reflexivity | intros _; reflexivity].
  - destruct s as [|b s].
    + split; [discriminate | intros [r Hr]; discriminate].
    + rewrite andb_true_iff, N.eqb_eq, IH. split.
      * intros [-> [r ->]]. exists r. reflexivity.
      * intros [r Hr]. injection Hr as -> ->. eauto.
Qed.

Lemma ucontains_spec (sub s : str) :
  contains sub s = true <-> exists l r, s = l ++ sub ++ r.
Proof.
  induction s as [|c s IH]; cbn [contains].
  - rewrite ustartswith_spec. split.
    + intros [r Hr]. exists [], r. exact Hr.
    + intros [l [r Hr]]. destruct l; cbn [app] in Hr.
      * exists r. exact Hr.
      * discriminate.
  - rewrite orb_true_iff, ustartswith_spec, IH. split.
    + intros [[r Hr] | [l [r Hr]]].
      * exists [], r. exact Hr.
      * exists (c :: l), r. cbn [app]. now rewrite Hr.
    + intros [l [r Hr]]. destruct l as [|c' l]; cbn [app] in Hr.
      * left. exists r. exact Hr.
      * right. injection Hr as _ ->. eauto.
Qed.

(** What [strip] removes is white space on both sides. *)
Lemma ulstrip_split (s : str) :
  exists l, s = l ++ lstrip s /\ forallb isspace l = true.
Proof.
  induction s as [|c s [l [Hs Hl]]]; [exists []; split; reflexivity|].
  cbn [lstrip]. destruct (isspace c) eqn:Hc.
  - exists (c :: l). cbn [app forallb]. rewrite Hc, Hl.
    split; [now f_equal|reflexivity].
  - exists []. split; reflexivity.
Qed.

Lemma urstrip_split (s : str) :
  exists r, s = rstrip s ++ r /\ forallb isspace r = true.
Proof.
  induction s as [|c s [r [Hs Hr]]]; [exists []; split; reflexivity|].
  cbn [rstrip]. destruct (is_empty (rstrip s)) eqn:He; cbn [andb].
  - destruct (rstrip s); [|discriminate He]. cbn [app] in Hs. subst r.
    destruct (isspace c) eqn:Hc.
    + exists (c :: s). cbn [app forallb]. rewrite Hc, Hr. split; reflexivity.
    + exists s. split; [reflexivity|exact Hr].
  - exists r. cbn [app]. split; [now f_equal|exact Hr].
Qed.

Lemma ustrip_split (s : str) :
  exists l r, s = l ++ strip s ++ r
              /\ forallb isspace l = true /\ forallb isspace r = true.
Proof.
  destruct (ulstrip_split s) as [l [Hs Hl]].
  destruct (urstrip_split (lstrip s)) as [r [Hs' Hr]].
  exists l, r. unfold strip. split; [|split; assumption].
  rewrite <- Hs'. exact Hs.
Qed.

Lemma ulstrip_fixed (s : str) :
  match s with [] => True | c :: _ => isspace c = false end -> lstrip s = s.
Proof. destruct s as [|c s]; [reflexivity|]. cbn [lstrip]. now intros ->. Qed.

Lemma urstrip_head (s : str) :
  match s with [] => True | c :: _ => isspace c = false end ->
  match rstrip s with [] => True | c :: _ => isspace c = false end.
Proof.
  destruct s as [|c s]; [exact id|]. cbn [rstrip]. intros Hc. rewrite Hc.
  rewrite andb_false_r. exact Hc.
Qed.

Lemma ulstrip_head (s : str) :
  match lstrip s with [] => True | c :: _ => isspace c = false end.
Proof.
  induction s as [|c s IH]; [exact I|]. cbn [lstrip].
  destruct (isspace c) eqn:Hc; [exact IH|exact Hc].
Qed.

Lemma urstrip_idem (s : str) : rstrip (rstrip s) = rstrip s.
Proof.
  induction s as [|c s IH]; [reflexivity|]. cbn [rstrip].
  destruct (is_empty (rstrip s) && isspace c) eqn:E; [reflexivity|].
  cbn [rstrip]. rewrite IH, E. reflexivity.
Qed.

Lemma ustrip_idem (s : str) : strip (strip s) = strip s.
Proof.
  unfold strip. rewrite (ulstrip_fixed (rstrip (lstrip s))).
  - apply urstrip_idem.
  - apply urstrip_head, ulstrip_head.
Qed.

(** A word without white space does not begin in white space. *)
Lemma ustartswith_space (w s : str) c :
  spaceless w = true -> w <> [] -> isspace c = true ->
  startswith (c :: s) w = false.
Proof.
  intros Hw Hne Hc. destruct w as [|a w]; [congruence|].
  cbn [spaceless forallb] in Hw. apply andb_true_iff in Hw as [Ha _].
  cbn [startswith]. destruct (N.eqb_spec a c) as [->|]; [|reflexivity].
  now rewrite Hc in Ha.
Qed.

Lemma ucontains_spaces (w r : str) :
  spaceless w = true -> w <> [] -> forallb isspace r = true ->
  contains w r = false.
Proof.
  intros Hw Hne. induction r as [|c r IH]; intros Hr.
  - destruct w; [congruence|reflexivity].
  - cbn [forallb] in Hr. apply andb_true_iff in Hr as [Hc Hr].
    cbn [contains]. now rewrite (ustartswith_space w r c Hw Hne Hc), IH.
Qed.

Lemma ustartswith_pad (w x r : str) :
  spaceless w = true -> forallb isspace r = true ->
  startswith (x ++ r) w = startswith x w.
Proof.
  intros Hw Hr. revert x. induction w as [|a w IH]; intros x; [reflexivity|].
  cbn [spaceless forallb] in Hw. apply andb_true_iff in Hw as [Ha Hw].
  destruct x as [|b x].
  - cbn [app]. destruct r as [|c r]; [reflexivity|].
    cbn [forallb] in Hr. apply andb_true_iff in Hr as [Hc _].
    cbn [startswith]. destruct (N.eqb_spec a c) as [->|]; [|reflexivity].
    now rewrite Hc in Ha.
  - cbn [app startswith]. now rewrite (IH Hw).
Qed.

Lemma ucontains_pad (w l x r : str) :
  spaceless w = true -> w <> [] ->
  forallb isspace l = true -> forallb isspace r = true ->
  contains w (l ++ x ++ r) = contains w x.
Proof.
  intros Hw Hne Hl Hr. induction l as [|c l IH].
  - cbn [app]. clear Hl. induction x as [|b x IHx].
    + cbn [app]. rewrite (ucontains_spaces w r Hw Hne Hr).
      destruct w; [congruence|reflexivity].
    + change ((b :: x) ++ r) with (b :: (x ++ r)). cbn [contains].
      rewrite IHx. f_equal.
      exact (ustartswith_pad w (b :: x) r Hw Hr).
  - cbn [forallb] in Hl. apply andb_true_iff in Hl as [Hc Hl].
    cbn [app contains]. now rewrite (ustartswith_space w _ c Hw Hne Hc), IH.
Qed.

Variable upper_char : N -> list N.

Lemma uupper_app (a b : str) :
  upper upper_char (a ++ b) = upper upper_char a ++ upper upper_char b.
Proof. unfold upper. apply flat_map_app. Qed.

Lemma uupper_spaces (l : str) :
  space_law upper_char -> forallb isspace l = true -> upper upper_char l = l.
Proof.
  intros Hlaw. induction l as [|c l IH]; intros Hl; [reflexivity|].
  cbn [forallb] in Hl. apply andb_true_iff in Hl as [Hc Hl].
  unfold upper. cbn [flat_map]. fold (upper upper_char l).
  now rewrite (Hlaw c Hc), (IH Hl).
Qed.

(** The keyword test sees the same on the trimmed text as on the text. *)
Lemma ucontains_upper_strip (w s : str) :
  space_law upper_char -> spaceless w = true -> w <> [] ->
  contains w (upper upper_char (strip s)) = contains w (upper upper_char s).
Proof.
  intros Hlaw Hw Hne. destruct (ustrip_split s) as [l [r [Hs [Hl Hr]]]].
  rewrite Hs at 2. rewrite !uupper_app, (uupper_spaces l Hlaw Hl),
    (uupper_spaces r Hlaw Hr).
  symmetry. now apply ucontains_pad.
Qed.

Lemma udangerous_strip (s : str) :
  space_law upper_char ->
  any_in dangerous_keywords (upper upper_char (strip s))
  = any_in dangerous_keywords (upper upper_char s).
Proof.
  intros Hlaw. unfold any_in, dangerous_keywords, DataAnalyst.dangerous_keywords.
  cbn [List.map existsb].
  rewrite !(ucontains_upper_strip _ s Hlaw) by (try reflexivity; discriminate).
  reflexivity.
Qed.

Lemma udangerous_spec (s : str) :
  any_in dangerous_keywords (upper upper_char s) = true
  <-> exists kw, In kw dangerous_keywords /\ substring_ci upper_char kw s.
Proof.
  unfold any_in. rewrite existsb_exists.
  split; intros [kw [Hin H]]; exists kw; split; auto; now apply ucontains_spec.
Qed.

End UnicodeFacts.

(** ** The ASCII fragment *)

Section AsciiFragment.

Import Unicode.

Lemma of_string_cons c s : of_string (String c s) = N_of_ascii c :: of_string s.
Proof. reflexivity. Qed.

Lemma is_ascii_cons c s :
  is_ascii (String c s) = (N_of_ascii c <? 128)%N && is_ascii s.
Proof. reflexivity. Qed.

Lemma code_eqb a b : N.eqb (N_of_ascii a) (N_of_ascii b) = Ascii.eqb a b.
Proof.
  destruct (Ascii.eqb_spec a b) as [->|Hne]; [apply N.eqb_refl|].
  apply N.eqb_neq. intros H. apply Hne.
  now rewrite <- (ascii_N_embedding a), <- (ascii_N_embedding b), H.
Qed.

Lemma isspace_code c :
  (N_of_ascii c <? 128)%N = true -> isspace (N_of_ascii c) = PyStr.isspace c.
Proof.
  intros H. apply N.ltb_lt in H. unfold isspace, PyStr.isspace, PyStr.code.
  cbv zeta.
  repeat match goal with
         | |- context [(N_of_ascii c =? ?k)%N] =>
             replace (N_of_ascii c =? k)%N with false
               by (symmetry; apply N.eqb_neq; lia)
         end.
  replace (8192 <=? N_of_ascii c)%N with false by (symmetry; apply N.leb_gt; lia).
  cbn [andb]. now rewrite !orb_false_r.
Qed.

Lemma upper_code c :
  (N_of_ascii c <? 128)%N = true ->
  ascii_upper (N_of_ascii c) = N_of_ascii (PyStr.upper_char c)
  /\ (N_of_ascii (PyStr.upper_char c) <? 128)%N = true.
Proof.
  intros H. unfold ascii_upper, PyStr.upper_char, PyStr.code. cbv zeta.
  destruct ((97 <=? N_of_ascii c) && (N_of_ascii c <=? 122))%N eqn:E;
    [|split; [reflexivity|exact H]].
  apply andb_true_iff in E as [E1 E2]. apply N.leb_le in E1, E2.
  rewrite N_ascii_embedding by lia. split; [reflexivity|]. apply N.ltb_lt. lia.
Qed.

Lemma of_string_lstrip s :
  is_ascii s = true ->
  of_string (PyStr.lstrip s) = lstrip (of_string s)
  /\ is_ascii (PyStr.lstrip s) = true.
Proof.
  induction s as [|c s IH]; intros H; [split; reflexivity|].
  pose proof H as H'. rewrite is_ascii_cons in H'.
  apply andb_true_iff in H' as [Hc Hs].
  rewrite of_string_cons. cbn [PyStr.lstrip lstrip]. rewrite (isspace_code c Hc).
  destruct (PyStr.isspace c); [exact (IH Hs)|]. split; [reflexivity|exact H].
Qed.

Lemma is_empty_of_string s : is_empty (of_string s) = PyStr.is_empty s.
Proof. now destruct s. Qed.

Lemma of_string_rstrip s :
  is_ascii s = true ->
  of_string (PyStr.rstrip s) = rstrip (of_string s)
  /\ is_ascii (PyStr.rstrip s) = true.
Proof.
  induction s as [|c s IH]; intros H; [split; reflexivity|].
  rewrite is_ascii_cons in H. apply andb_true_iff in H as [Hc Hs].
  destruct (IH Hs) as [IH1 IH2].
  rewrite of_string_cons. cbn [PyStr.rstrip rstrip]. cbv zeta.
  rewrite <- IH1, is_empty_of_string, (isspace_code c Hc).
  destruct (PyStr.is_empty (PyStr.rstrip s) && PyStr.isspace c);
    [split; reflexivity|].
  rewrite of_string_cons, is_ascii_cons, Hc, IH2. split; reflexivity.
Qed.

Lemma of_string_strip s :
  is_ascii s = true ->
  of_string (PyStr.strip s) = strip (of_string s)
  /\ is_ascii (PyStr.strip s) = true.
Proof.
  intros H. unfold PyStr.strip, strip.
  destruct (of_string_lstrip s H) as [H1 H2].
  destruct (of_string_rstrip _ H2) as [H3 H4].
  now rewrite <- H1.
Qed.

Lemma of_string_startswith s p :
  startswith (of_string s) (of_string p) = PyStr.startswith s p.
Proof.
  revert s. induction p as [|a p IH]; intros s; [reflexivity|].
  destruct s as [|b s]; [reflexivity|].
  rewrite !of_string_cons. cbn [startswith PyStr.startswith].
  now rewrite code_eqb, IH.
Qed.

Lemma of_string_contains w s :
  contains (of_string w) (of_string s) = PyStr.contains w s.
Proof.
  induction s as [|c s IH].
  - exact (of_string_startswith EmptyString w).
  - rewrite of_string_cons. cbn [contains PyStr.contains].
    rewrite <- of_string_cons, of_string_startswith. now rewrite IH.
Qed.

Lemma of_string_any_in kws s :
  any_in (List.map of_string kws) (of_string s) = PyStr.any_in kws s.
Proof.
  unfold any_in, PyStr.any_in. induction kws as [|k kws IH]; [reflexivity|].
  cbn [List.map existsb]. now rewrite of_string_contains, IH.
Qed.

Variable upper_char : N -> list N.

Lemma of_string_upper s :
  ascii_law upper_char -> is_ascii s = true ->
  of_string (PyStr.upper s) = upper upper_char (of_string s).
Proof.
  intros Hascii. induction s as [|c s IH]; intros H; [reflexivity|].
  rewrite is_ascii_cons in H. apply andb_true_iff in H as [Hc Hs].
  change (PyStr.upper (String c s)) with (String (PyStr.upper_char c) (PyStr.upper s)).
  rewrite !of_string_cons. unfold upper. cbn [flat_map].
  fold (upper upper_char (of_string s)).
  rewrite (Hascii _ (proj1 (N.ltb_lt _ _) Hc)), (proj1 (upper_code c Hc)), (IH Hs).
  reflexivity.
Qed.

(** On ASCII text the validation on code points is the validation on
    bytes. *)
Lemma validate_ascii s username :
  ascii_law upper_char -> is_ascii s = true ->
  _validate_sql_query upper_char (of_string s) username
  = of_string <$> DataAnalyst._validate_sql_query s username.
Proof.
  intros Hascii H. destruct (of_string_strip s H) as [Hs Ha].
  unfold _validate_sql_query, DataAnalyst._validate_sql_query. cbv zeta.
  rewrite <- Hs, <- (of_string_upper _ Hascii Ha).
  unfold select, dangerous_keywords.
  rewrite of_string_startswith, of_string_any_in.
  destruct (PyStr.startswith _ _); [|reflexivity]. cbn [negb].
  destruct (PyStr.any_in _ _); reflexivity.
Qed.

End AsciiFragment.

Lemma basic_upper_ascii : Unicode.ascii_law Unicode.basic_upper.
Proof.
  intros c Hc. unfold Unicode.basic_upper.
  now rewrite (proj2 (N.ltb_lt c 128) Hc).
Qed.

Lemma basic_upper_space : Unicode.space_law Unicode.basic_upper.
Proof.
  intros c Hc. unfold Unicode.isspace in Hc.
  repeat rewrite ?orb_true_iff, ?andb_true_iff, ?N.leb_le, ?N.eqb_eq in Hc.
  unfold Unicode.basic_upper, Unicode.ascii_upper.
  destruct (N.ltb_spec c 128) as [Hlt|Hge].
  - destruct (N.leb_spec 97 c); cbn [andb]; [|reflexivity].
    destruct (N.leb_spec c 122); [lia|reflexivity].
  - cbn [Unicode.lookup Unicode.special_upper].
    repeat match goal with
           | |- context [(c =? ?k)%N] => destruct (N.eqb_spec c k); [lia|]
           end.
    reflexivity.
Qed.

(** C1. For every text, with letter case ignored as [str.upper] ignores
    it (a case map that is the ASCII one on ASCII and leaves white space
    alone), SQL validation returns [None] when the trimmed text does not
    begin with SELECT, returns [None] when the text contains DROP,
    DELETE, UPDATE, INSERT or ALTER anywhere, and otherwise returns the
    trimmed text unchanged; a SELECT ... FROM transactions WHERE ...
    query without those words is accepted. *)
Theorem validate_sql_query_spec (upper_char : N -> list N)
    (Hascii : Unicode.ascii_law upper_char)
    (Hspace : Unicode.space_law upper_char)
    (s : Unicode.str) (username : string) :
  (~ Unicode.begins_with_ci upper_char Unicode.select (Unicode.strip s) ->
   Unicode._validate_sql_query upper_char s username = None)
  /\ (forall kw, In kw Unicode.dangerous_keywords ->
      Unicode.substring_ci upper_char kw s ->
      Unicode._validate_sql_query upper_char s username = None)
  /\ (Unicode.begins_with_ci upper_char Unicode.select (Unicode.strip s) ->
      (forall kw, In kw Unicode.dangerous_keywords ->
                  ~ Unicode.substring_ci upper_char kw s) ->
      Unicode._validate_sql_query upper_char s username
      = Some (Unicode.strip s))
  /\ Unicode._validate_sql_query upper_char
       (Unicode.of_string " SELECT amount FROM transactions WHERE amount > 10 ")
       username
     = Some (Unicode.of_string "SELECT amount FROM transactions WHERE amount > 10").
Proof.
  split; [|split; [|split]].
  - unfold Unicode._validate_sql_query. cbv zeta.
    intros Hno. destruct (Unicode.startswith _ _) eqn:E; [|reflexivity].
    exfalso. apply Hno, ustartswith_spec, E.
  - unfold Unicode._validate_sql_query. cbv zeta.
    rewrite (udangerous_strip upper_char s Hspace).
    intros kw Hin Hsub.
    assert (Hd : Unicode.any_in Unicode.dangerous_keywords
                   (Unicode.upper upper_char s) = true)
      by (apply udangerous_spec; eauto).
    rewrite Hd. now destruct (Unicode.startswith _ _).
  - unfold Unicode._validate_sql_query. cbv zeta.
    rewrite (udangerous_strip upper_char s Hspace).
    intros Hsel Hnone. apply ustartswith_spec in Hsel. rewrite Hsel. cbn [negb].
    destruct (Unicode.any_in _ _) eqn:E; [|reflexivity].
    apply udangerous_spec in E as [kw [Hin Hsub]].
    exfalso. exact (Hnone kw Hin Hsub).
  - rewrite (validate_ascii upper_char _ username Hascii) by reflexivity.
    vm_compute. reflexivity.
Qed.

Lemma validate_sql_query_spec_witness :
  Unicode._validate_sql_query Unicode.basic_upper
    (160%N :: 383%N :: Unicode.of_string "elect id from transactions  ") "alice"
  = Some (383%N :: Unicode.of_string "elect id from transactions").
Proof.
  apply (proj1 (proj2 (proj2
    (validate_sql_query_spec Unicode.basic_upper basic_upper_ascii
       basic_upper_space
       (160%N :: 383%N :: Unicode.of_string "elect id from transactions  ")
       "alice")))).
  - apply ustartswith_spec. vm_compute. reflexivity.
  - intros kw Hin Hsub.
    assert (H : Unicode.any_in Unicode.dangerous_keywords
                  (Unicode.upper Unicode.basic_upper
                     (160%N :: 383%N
                      :: Unicode.of_string "elect id from transactions  "))
                = true) by (apply udangerous_spec; eauto).
    vm_compute in H. discriminate H.
Defined.

(** Outside ASCII: a leading NO-BREAK SPACE is trimmed, LATIN SMALL
    LETTER LONG S counts as S, and LATIN SMALL LETTER DOTLESS I counts
    as I. *)
Example validate_sql_query_beyond_ascii :
  Unicode._validate_sql_query Unicode.basic_upper
    (160%N :: Unicode.of_string "SELECT 1") "alice"
  = Some (Unicode.of_string "SELECT 1")
  /\ Unicode._validate_sql_query Unicode.basic_upper
       (383%N :: Unicode.of_string "ELECT 1") "alice"
     = Some (383%N :: Unicode.of_string "ELECT 1")
  /\ Unicode._validate_sql_query Unicode.basic_upper
       (Unicode.of_string "SELECT " ++ 305%N :: Unicode.of_string "nsert") "alice"
     = None.
Proof. repeat split; vm_compute; reflexivity. Qed.

(** ** Query understanding *)

Section QueryUnderstandingFacts.

Import QueryUnderstanding.

Example coffee_show_keyword :
  PyStr.contains "show" (PyStr.strip (PyStr.lower Scenario.coffee_query)) = true.
Proof. reflexivity. Qed.

Example coffee_fallback_fields :
  let q := PyStr.strip (PyStr.lower Scenario.coffee_query) in
  _determine_analysis_type q None = VStr "general"
  /\ _extract_time_period q None = VStr "this_month"
  /\ _extract_categories q None = VList [VStr "food"]
  /\ _needs_visualization q None = VBool true
  /\ _determine_priority q None = VInt 3.
Proof. repeat split; reflexivity. Qed.

End QueryUnderstandingFacts.

(** C3, as the code has it. Whenever the gateway gives no result (it
    returns nothing or fails), [understand_query] returns an intent whose
    fields are the fallback rules applied to the lowered, trimmed query,
    with confidence 0.7; for "Show me my coffee spending this month" the
    categories are ["food"], the time period is "this_month", and
    needs_visualization is true, because "show" is a visualization
    keyword. *)
Theorem understand_query_fallback
    (gateway : string -> result (option dict)) (query : string) :
  QueryUnderstanding._ai_understand_query gateway query = None ->
  exists intent : dict,
    QueryUnderstanding.understand_query gateway query = Some intent
    /\ intent !! "original_query" = Some (VStr query)
    /\ intent !! "confidence" = Some (VFloat (7 # 10))
    /\ (let q := PyStr.strip (PyStr.lower query) in
        intent !! "analysis_type"
          = Some (QueryUnderstanding._determine_analysis_type q None)
        /\ intent !! "time_period"
          = Some (QueryUnderstanding._extract_time_period q None)
        /\ intent !! "categories"
          = Some (QueryUnderstanding._extract_categories q None)
        /\ intent !! "needs_visualization"
          = Some (QueryUnderstanding._needs_visualization q None)
        /\ intent !! "priority"
          = Some (QueryUnderstanding._determine_priority q None))
    /\ (query = Scenario.coffee_query ->
        intent !! "categories" = Some (VList [VStr "food"])
        /\ intent !! "time_period" = Some (VStr "this_month")
        /\ intent !! "needs_visualization" = Some (VBool true)).
Proof.
  intros Hai. unfold QueryUnderstanding.understand_query. rewrite Hai.
  eexists. split; [reflexivity|].
  repeat split; try reflexivity.
  all: subst query; reflexivity.
Qed.

Lemma understand_query_fallback_witness :
  exists intent : dict,
    QueryUnderstanding.understand_query (fun _ => Raise ValueError) Scenario.coffee_query
      = Some intent
    /\ intent !! "needs_visualization" = Some (VBool true).
Proof.
  pose proof (understand_query_fallback (fun _ => Raise ValueError) Scenario.coffee_query
                eq_refl) as [intent [H [_ [_ [_ Hc]]]]].
  exists intent. split; [exact H|]. exact (proj2 (proj2 (Hc eq_refl))).
Defined.

(** C3, as stated, fails: with no gateway result the intent for "Show me
    my coffee spending this month" does not have needs_visualization
    false. *)
Lemma understand_query_coffee_not_false :
  ~ (exists intent : dict,
       QueryUnderstanding.understand_query (fun _ => Ok None) Scenario.coffee_query
         = Some intent
       /\ intent !! "needs_visualization" = Some (VBool false)).
Proof.
  intros [intent [H Hv]].
  apply (f_equal (fun o : option dict =>
                    match o with
                    | Some d => d !! "needs_visualization"
                    | None => None
                    end)) in H.
  rewrite Hv in H. vm_compute in H. discriminate H.
Qed.

(** ** Sums of amounts *)

Lemma sum_amounts_from (ts : list Transaction) (x : Z) :
  fold_left (fun acc t => acc + amount_of t) ts x = x + sum_amounts ts.
Proof.
  unfold sum_amounts. revert x.
  induction ts as [|t ts IH]; intros x; simpl; [lia|].
  rewrite (IH (x + amount_of t)), (IH (0 + amount_of t)). lia.
Qed.

Lemma sum_amounts_cons (t : Transaction) (ts : list Transaction) :
  sum_amounts (t :: ts) = amount_of t + sum_amounts ts.
Proof. unfold sum_amounts at 1. simpl. rewrite sum_amounts_from. lia. Qed.

Lemma sum_amounts_app (ts us : list Transaction) :
  sum_amounts (ts ++ us) = sum_amounts ts + sum_amounts us.
Proof.
  induction ts as [|t ts IH]; [reflexivity|].
  simpl. rewrite !sum_amounts_cons, IH. lia.
Qed.

(** ** Category buckets *)

Section Buckets.

Import InsightGenerator.

Lemma bucket_cases (a : Z) :
  a < 50 \/ 50 <= a < 200 \/ 200 <= a < 500 \/ 500 <= a.
Proof. lia. Qed.

Lemma bucket_of_range (a : Z) (b : Spec.Bucket) :
  Spec.in_range b a -> bucket_of a = Spec.insight_key b.
Proof.
  unfold bucket_of. destruct b; simpl; intros H.
  - now destruct (Z.ltb_spec a 50); [|lia].
  - destruct (Z.ltb_spec a 50); [lia|].
    now destruct (Z.ltb_spec a 200); [|lia].
  - destruct (Z.ltb_spec a 50); [lia|].
    destruct (Z.ltb_spec a 200); [lia|].
    now destruct (Z.ltb_spec a 500); [|lia].
  - destruct (Z.ltb_spec a 50); [lia|].
    destruct (Z.ltb_spec a 200); [lia|].
    now destruct (Z.ltb_spec a 500); [lia|].
Qed.

Lemma category_case_range (a : Z) (b : Spec.Bucket) :
  Spec.in_range b a -> DataAnalyst.category_case a = Spec.bucket_name b.
Proof.
  unfold DataAnalyst.category_case, DataAnalyst.sql_case.
  destruct b; simpl; intros H.
  - now destruct (Z.ltb_spec a 50); [|lia].
  - destruct (Z.ltb_spec a 50); [lia|].
    now destruct (Z.ltb_spec a 200); [|lia].
  - destruct (Z.ltb_spec a 50); [lia|].
    destruct (Z.ltb_spec a 200); [lia|].
    now destruct (Z.ltb_spec a 500); [|lia].
  - destruct (Z.ltb_spec a 50); [lia|].
    destruct (Z.ltb_spec a 200); [lia|].
    now destruct (Z.ltb_spec a 500); [lia|].
Qed.

Lemma range_exists (a : Z) : exists b, Spec.in_range b a.
Proof.
  destruct (bucket_cases a) as [H | [H | [H | H]]];
    [exists Spec.Small | exists Spec.Medium
     | exists Spec.Large | exists Spec.VeryLarge]; exact H.
Qed.

Lemma range_unique (a : Z) (b b' : Spec.Bucket) :
  Spec.in_range b a -> Spec.in_range b' a -> b = b'.
Proof. destruct b, b'; simpl; intros; first [reflexivity | lia]. Qed.

Lemma insight_key_inj b b' : Spec.insight_key b = Spec.insight_key b' -> b = b'.
Proof. destruct b, b'; simpl; intros H; first [reflexivity | discriminate H]. Qed.

Lemma step_lookup (cats : gmap string Z) (total_ : Z) (t : Transaction) (k : string) :
  fst (categorize_step (cats, total_) t) !! k
  = if decide (k = bucket_of (amount_of t))
    then (fun v => v + amount_of t) <$> cats !! k
    else cats !! k.
Proof.
  unfold categorize_step; simpl. rewrite lookup_alter.
  destruct (decide (k = bucket_of (amount_of t))) as [->|Hne].
  - now rewrite decide_True.
  - now rewrite decide_False by congruence.
Qed.

Lemma step_has_buckets cats total_ t :
  Spec.has_buckets cats -> Spec.has_buckets (fst (categorize_step (cats, total_) t)).
Proof.
  intros H b. rewrite step_lookup. destruct (H b) as [v Hv].
  case_decide; rewrite Hv; simpl; eauto.
Qed.

Lemma step_buckets_sum cats total_ t :
  Spec.has_buckets cats ->
  Spec.buckets_sum (fst (categorize_step (cats, total_) t))
  = Spec.buckets_sum cats + amount_of t.
Proof.
  intros H. unfold Spec.buckets_sum. cbn [List.map fold_right].
  rewrite !step_lookup.
  destruct (H Spec.Small) as [v1 H1], (H Spec.Medium) as [v2 H2],
    (H Spec.Large) as [v3 H3], (H Spec.VeryLarge) as [v4 H4].
  rewrite H1, H2, H3, H4.
  destruct (range_exists (amount_of t)) as [b Hb].
  rewrite (bucket_of_range _ _ Hb).
  destruct b; repeat case_decide; try discriminate;
    try (exfalso; match goal with H : _ <> _ |- _ => now apply H end);
    simpl; lia.
Qed.

Lemma categorize_from_sum (ts : list Transaction) cats total_ :
  Spec.has_buckets cats ->
  let st := fold_left categorize_step ts (cats, total_) in
  Spec.has_buckets (fst st)
  /\ Spec.buckets_sum (fst st) = Spec.buckets_sum cats + sum_amounts ts
  /\ snd st = total_ + sum_amounts ts.
Proof.
  revert cats total_.
  induction ts as [|t ts IH]; intros cats total_ H; cbn [fold_left].
  - unfold sum_amounts; simpl. repeat split; [exact H | lia | lia].
  - pose proof (IH (fst (categorize_step (cats, total_) t))
                   (snd (categorize_step (cats, total_) t))
                   (step_has_buckets cats total_ t H)) as [I1 [I2 I3]].
    rewrite <- surjective_pairing in I1, I2, I3.
    rewrite step_buckets_sum in I2 by exact H.
    rewrite sum_amounts_cons.
    repeat split; [exact I1 | rewrite I2 | rewrite I3; simpl]; lia.
Qed.

(** In a category insight the four bucket totals add up to the total
    amount: no transaction is counted twice or left out. *)
Lemma categorize_partition (ts : list Transaction) :
  Spec.buckets_sum (fst (categorize ts)) = snd (categorize ts)
  /\ snd (categorize ts) = sum_amounts ts.
Proof.
  assert (H0 : Spec.has_buckets empty_categories) by (intros []; vm_compute; eauto).
  destruct (categorize_from_sum ts empty_categories 0 H0) as [_ [H2 H3]].
  unfold categorize. rewrite H2, H3. split; [|lia].
  assert (Spec.buckets_sum empty_categories = 0) as -> by reflexivity. lia.
Qed.

End Buckets.

(** C4. Bucketing is a total function of the amount: every amount lies
    in exactly one of the ranges a<50, 50<=a<200, 200<=a<500, a>=500, and
    both the category insight and the canned category query put it in
    the bucket of that range (Small, Medium, Large, Very large
    purchases); one step of the insight's loop adds the amount to that
    bucket and leaves the other three unchanged. *)
Theorem category_bucketing (a : Z) :
  (exists b, Spec.in_range b a /\ forall b', Spec.in_range b' a -> b' = b)
  /\ (forall b, Spec.in_range b a ->
        DataAnalyst.category_case a = Spec.bucket_name b
        /\ InsightGenerator.bucket_of a = Spec.insight_key b)
  /\ (forall (cats : gmap string Z) (total_ : Z) (t : Transaction) (b b' : Spec.Bucket),
        amount_of t = a -> Spec.in_range b a ->
        let cats' := fst (InsightGenerator.categorize_step (cats, total_) t) in
        cats' !! Spec.insight_key b'
        = if decide (b' = b)
          then (fun v => v + a) <$> cats !! Spec.insight_key b'
          else cats !! Spec.insight_key b').
Proof.
  split; [|split].
  - destruct (range_exists a) as [b Hb]. exists b. split; [exact Hb|].
    intros b' Hb'. exact (range_unique a b' b Hb' Hb).
  - intros b Hb. split; [now apply category_case_range | now apply bucket_of_range].
  - intros cats total_ t b b' Ha Hb. cbv zeta. rewrite step_lookup, Ha.
    rewrite (bucket_of_range a b Hb).
    destruct (decide (b' = b)) as [->|Hne].
    + now rewrite decide_True.
    + rewrite decide_False; [reflexivity|].
      intros Heq. apply Hne. now apply insight_key_inj.
Qed.

Lemma category_bucketing_witness :
  DataAnalyst.category_case 75 = "Medium purchases"
  /\ InsightGenerator.bucket_of 75 = "Medium purchases ($50-$200)".
Proof.
  apply (proj1 (proj2 (category_bucketing 75)) Spec.Medium).
  simpl. lia.
Defined.

(** ** Improvement analysis *)

Section Improvements.

Import InsightGenerator.

Lemma bind_ok {A B} (a : A) (f : A -> result B) : (Ok a ≫= f) = f a.
Proof. reflexivity. Qed.

Lemma Qgt_bool_spec a b : Py.Qgt_bool a b = true <-> (b < a)%Q.
Proof.
  unfold Py.Qgt_bool. rewrite negb_true_iff. split.
  - intros H. apply Qnot_le_lt. intros Hle.
    apply Qle_bool_iff in Hle. congruence.
  - intros H. destruct (Qle_bool a b) eqn:E; [|reflexivity].
    apply Qle_bool_iff in E. exfalso. exact (Qlt_not_le _ _ H E).
Qed.

Lemma div_ok a b : ~ (b == 0)%Q -> Py.div a b = Ok (a / b)%Q.
Proof.
  unfold Py.div. intros H. destruct (Qeq_bool b 0) eqn:E; [|reflexivity].
  apply Qeq_bool_iff in E. contradiction.
Qed.

(** Both halves of a list of ten or more are non-empty, so neither
    average divides by zero. *)
Lemma average_of_nonempty total_ (ts : list Transaction) :
  ts <> [] ->
  average_of total_ ts
  = Ok (PrimFloat.div (Py.float_of_int total_)
          (Py.float_of_int (Z.of_nat (length ts)))).
Proof.
  destruct ts as [|t ts]; [congruence|]. intros _. unfold average_of, Py.truediv.
  destruct (Z.eqb_spec (Z.of_nat (length (t :: ts))) 0) as [E|]; [|reflexivity].
  cbn [length] in E. lia.
Qed.

(** A float above zero is not zero. *)
Lemma float_positive_nonzero (x : float) :
  PrimFloat.ltb 0 x = true -> PrimFloat.eqb x 0 = false.
Proof.
  rewrite FloatAxioms.ltb_spec, FloatAxioms.eqb_spec.
  change (Prim2SF 0) with (SpecFloat.S754_zero false).
  destruct (Prim2SF x) as [[]|[]| |[] m e]; cbn; congruence.
Qed.

Lemma float_zero_not_positive (x : float) :
  PrimFloat.eqb x 0 = true -> PrimFloat.ltb 0 x = false.
Proof.
  intros H. destruct (PrimFloat.ltb 0 x) eqn:E; [|reflexivity].
  apply float_positive_nonzero in E. congruence.
Qed.

(** The guard [older_avg > 0] keeps the percentage from dividing by
    zero. *)
Lemma improvement_pct_ok (recent_avg older_avg : float) :
  exists pct,
    (if PrimFloat.ltb 0 older_avg
     then Py.float_div (PrimFloat.sub older_avg recent_avg) older_avg
          ≫= (fun q : float => Ok (PrimFloat.mul q 100))
     else Ok 0%float) = Ok pct
    /\ (PrimFloat.ltb 0 older_avg = true ->
        pct = PrimFloat.mul
                (PrimFloat.div (PrimFloat.sub older_avg recent_avg) older_avg) 100)
    /\ (PrimFloat.ltb 0 older_avg = false -> pct = 0%float).
Proof.
  destruct (PrimFloat.ltb 0 older_avg) eqn:E.
  - unfold Py.float_div. rewrite (float_positive_nonzero _ E), bind_ok.
    eexists. split; [reflexivity|]. split; [reflexivity|discriminate].
  - exists 0%float. split; [reflexivity|]. split; [discriminate|reflexivity].
Qed.

Lemma halves_nonempty (txs : list Transaction) :
  (10 <= length txs)%nat ->
  firstn (length txs / 2) txs <> [] /\ skipn (length txs / 2) txs <> [].
Proof.
  intros Hlen.
  assert (Hmid : (5 <= length txs / 2)%nat)
    by (apply Nat.div_le_lower_bound; lia).
  assert (Hmid2 : (length txs / 2 + 5 <= length txs)%nat).
  { pose proof (Nat.div_mod_eq (length txs) 2).
    pose proof (Nat.mod_upper_bound (length txs) 2). lia. }
  split; intros E; apply (f_equal (@length _)) in E.
  - rewrite length_firstn in E. cbn [length] in E. lia.
  - rewrite length_skipn in E. cbn [length] in E. lia.
Qed.

End Improvements.

(** C5. For a list of at least ten transactions split at its midpoint
    into recent (first half) and older (second half), whose period totals
    and length are integers that a float holds exactly, the improvement
    analysis returns an insight (no division error) whose
    improvement_percentage is (olderAvg - recentAvg) / olderAvg * 100, in
    binary64 arithmetic as Python computes it, when olderAvg > 0, and 0
    when olderAvg = 0; is_improvement holds exactly when the percentage
    exceeds 5, trend_direction is "decreased" then and "increased"
    otherwise, and the priority is 3 when improving and 2 otherwise. With
    a recent average of 40 and an older average of 100 the percentage is
    60, is_improvement is true and the direction is "decreased". *)
Theorem analyze_improvements_spec
    (generate_insight_description :
       InsightGenerator.InsightData -> string -> option string)
    (float_1f : float -> string)
    (txs : list Transaction) (username : string) :
  (10 <= length txs)%nat ->
  let mid := (length txs / 2)%nat in
  let recent := firstn mid txs in
  let older := skipn mid txs in
  Py.exact (sum_amounts recent) -> Py.exact (sum_amounts older) ->
  Py.exact (Z.of_nat (length txs)) ->
  let recent_avg :=
    PrimFloat.div (Py.float_of_int (sum_amounts recent))
      (Py.float_of_int (Z.of_nat (length recent))) in
  let older_avg :=
    PrimFloat.div (Py.float_of_int (sum_amounts older))
      (Py.float_of_int (Z.of_nat (length older))) in
  exists insight a,
    InsightGenerator.analyze_improvements generate_insight_description
      float_1f txs username = Some insight
    /\ InsightGenerator.data insight = InsightGenerator.ImprovementData a
    /\ InsightGenerator.average (InsightGenerator.recent_period a) = recent_avg
    /\ InsightGenerator.average (InsightGenerator.older_period a) = older_avg
    /\ (PrimFloat.ltb 0 older_avg = true ->
        InsightGenerator.improvement_percentage a
        = PrimFloat.mul
            (PrimFloat.div (PrimFloat.sub older_avg recent_avg) older_avg) 100)
    /\ (PrimFloat.eqb older_avg 0 = true ->
        InsightGenerator.improvement_percentage a = 0%float)
    /\ InsightGenerator.is_improvement a
       = PrimFloat.ltb 5 (InsightGenerator.improvement_percentage a)
    /\ InsightGenerator.trend_direction a
       = (if InsightGenerator.is_improvement a then "decreased" else "increased")
    /\ InsightGenerator.priority insight
       = (if InsightGenerator.is_improvement a then 3 else 2)
    /\ (recent_avg = 40%float -> older_avg = 100%float ->
        InsightGenerator.improvement_percentage a = 60%float
        /\ InsightGenerator.is_improvement a = true
        /\ InsightGenerator.trend_direction a = "decreased").
Proof.
  intros Hlen mid recent older _ _ _ recent_avg older_avg.
  destruct (halves_nonempty txs Hlen) as [Hr Ho].
  fold mid in Hr, Ho. fold recent in Hr. fold older in Ho.
  unfold InsightGenerator.analyze_improvements.
  destruct (Nat.ltb_spec (length txs) 10) as [Hlt|_]; [lia|].
  fold mid. fold recent. fold older.
  rewrite (average_of_nonempty _ recent Hr), (average_of_nonempty _ older Ho).
  fold recent_avg. fold older_avg.
  rewrite !bind_ok.
  destruct (improvement_pct_ok recent_avg older_avg) as [pct [Hp [Hpos Hzero]]].
  rewrite Hp, bind_ok. cbn [try_except].
  eexists. eexists. split; [reflexivity|].
  cbn [InsightGenerator.data InsightGenerator.priority].
  split; [reflexivity|].
  cbn [InsightGenerator.recent_period InsightGenerator.older_period
       InsightGenerator.average InsightGenerator.improvement_percentage
       InsightGenerator.is_improvement InsightGenerator.trend_direction].
  split; [reflexivity|]. split; [reflexivity|].
  split; [exact Hpos|].
  split; [intros H; apply Hzero; now apply float_zero_not_positive|].
  split; [reflexivity|]. split; [reflexivity|]. split; [reflexivity|].
  intros H40 H100.
  assert (H60 : pct = 60%float).
  { rewrite Hpos by (rewrite H100; reflexivity). rewrite H40, H100. reflexivity. }
  rewrite H60. repeat split.
Qed.

Lemma analyze_improvements_spec_witness :
  exists insight a,
    InsightGenerator.analyze_improvements (fun _ _ => None) (fun _ => "60.0")
      Scenario.ten_transactions "alice" = Some insight
    /\ InsightGenerator.data insight = InsightGenerator.ImprovementData a
    /\ InsightGenerator.improvement_percentage a = 60%float
    /\ InsightGenerator.is_improvement a = true
    /\ InsightGenerator.trend_direction a = "decreased".
Proof.
  assert (Hlen : (10 <= length Scenario.ten_transactions)%nat) by (simpl; lia).
  pose proof (analyze_improvements_spec (fun _ _ => None) (fun _ => "60.0")
                Scenario.ten_transactions "alice" Hlen) as H.
  cbv zeta in H.
  destruct H as [insight [a [H1 [H2 [_ [_ [_ [_ [_ [_ [_ H3]]]]]]]]]]];
    try (unfold Py.exact; vm_compute; discriminate).
  exists insight, a. split; [exact H1|]. split; [exact H2|].
  apply H3; vm_compute; reflexivity.
Defined.

(** At the threshold binary64 rounding decides: a recent average of 3.8
    against an older average of 4 gives 5.0000000000000044, which exceeds
    5, where the exact quotient is 5 and does not. *)
Example improvement_at_threshold :
  exists insight a,
    InsightGenerator.analyze_improvements (fun _ _ => None) (fun _ => "5.0")
      Scenario.threshold_transactions "alice" = Some insight
    /\ InsightGenerator.data insight = InsightGenerator.ImprovementData a
    /\ InsightGenerator.improvement_percentage a = 0x1.4000000000005p+2%float
    /\ InsightGenerator.is_improvement a = true
    /\ InsightGenerator.trend_direction a = "decreased"
    /\ InsightGenerator.priority insight = 3.
Proof. eexists. eexists. split; [vm_compute; reflexivity|]. repeat split. Qed.

(** ** Preferences *)

Section Preferences.

Import Database UserPreference.

Variable fails : nat -> bool.

Variable valid_json : string -> bool.

(** What one upsert does, statement by statement: the update of a record
    that exists always raises, and an insert returns the id it drew. *)
Lemma save_user_preference_run u t k v db :
  save_user_preference fails valid_json u t k v db =
    if fails (statements db) then (Raise SQLAlchemyError, sent db)
    else
      match List.filter (matches u t k) (user_preferences db) with
      | _ :: _ => (Raise SQLAlchemyError, sent (sent db))
      | [] =>
          if fails (S (statements db))
          then (Raise SQLAlchemyError, sent (sent db))
          else
            match bind_jsonb valid_json v with
            | Json => (Ok (Some (next_id db)), drawn (sent (sent db)))
            | Null => (Raise SQLAlchemyError, drawn (sent (sent db)))
            | Rejected => (Raise SQLAlchemyError, sent (sent db))
            end
      end.
Proof.
  unfold save_user_preference, select_ids, update_value, insert_row, execute_query.
  unfold mbind, DB_bind, mret, DB_ret, sent, drawn.
  destruct (fails (statements db)); [reflexivity|]. simpl.
  destruct (List.filter (matches u t k) (user_preferences db)) as [|r rest];
    simpl; destruct (fails (S (statements db))); try reflexivity;
    destruct (bind_jsonb valid_json v); reflexivity.
Qed.

Lemma save_entries_run u t entries n db :
  save_entries fails valid_json u t entries n db
  = run_upserts fails valid_json u
      (List.map (fun kv => (t, fst kv, snd kv)) entries) n db.
Proof.
  revert n db. induction entries as [|[k v] entries IH]; intros n db;
    [reflexivity|].
  cbn [save_entries List.map run_upserts fst snd]. unfold mbind, DB_bind.
  destruct (save_user_preference fails valid_json u t k v db) as [[i|e] db'];
    [|reflexivity].
  apply IH.
Qed.

Lemma run_upserts_app u a b n db :
  run_upserts fails valid_json u (a ++ b) n db
  = match run_upserts fails valid_json u a n db with
    | (Ok m, db') => run_upserts fails valid_json u b m db'
    | (Raise e, db') => (Raise e, db')
    end.
Proof.
  revert n db. induction a as [|[[t k] v] a IH]; intros n db; [reflexivity|].
  cbn [app run_upserts]. unfold mbind, DB_bind.
  destruct (save_user_preference fails valid_json u t k v db) as [[i|e] db'];
    [|reflexivity].
  apply IH.
Qed.

Lemma save_all_run u prefs n db :
  save_all fails valid_json u prefs n db
  = run_upserts fails valid_json u (upserts_of prefs) n db.
Proof.
  revert n db. induction prefs as [|[t d] prefs IH]; intros n db; [reflexivity|].
  unfold upserts_of. cbn [flat_map]. fold (upserts_of prefs).
  rewrite run_upserts_app. cbn [save_all fst snd]. unfold mbind at 1, DB_bind at 1.
  destruct d; try rewrite save_entries_run;
    try (cbn [run_upserts]; unfold mbind, DB_bind, mret, DB_ret;
         match goal with
         | |- context [save_user_preference fails valid_json u t "default" ?v db] =>
             destruct (save_user_preference fails valid_json u t "default" v db)
               as [[i|e] db'];
             [apply IH | reflexivity]
         end).
  match goal with
  | |- context [run_upserts fails valid_json u ?l n db] =>
      destruct (run_upserts fails valid_json u l n db) as [[m|e] db'];
      [apply IH | reflexivity]
  end.
Qed.

Lemma run_upserts_outcomes u ups n db :
  match run_upserts fails valid_json u ups n db with
  | (Ok m, _) =>
      Forall UserPreference.completed (outcomes fails valid_json u ups db)
      /\ m = (n + length (List.filter succeeded
                            (outcomes fails valid_json u ups db)))%nat
  | (Raise _, _) =>
      Exists (fun o => ~ UserPreference.completed o)
        (outcomes fails valid_json u ups db)
  end.
Proof.
  revert n db. induction ups as [|[[t k] v] ups IH]; intros n db.
  - simpl. split; [constructor | lia].
  - cbn [run_upserts outcomes]. unfold mbind, DB_bind.
    destruct (save_user_preference fails valid_json u t k v db) as [[i|e] db'].
    + specialize (IH (if id_truthy i then S n else n) db').
      destruct (run_upserts fails valid_json u ups _ db') as [[m|e] db''].
      * destruct IH as [IH1 IH2]. split; [constructor; [reflexivity | exact IH1]|].
        cbn [List.filter succeeded]. rewrite IH2.
        destruct (id_truthy i); simpl; lia.
      * now apply Exists_cons_tl.
    + apply Exists_cons_hd. unfold UserPreference.completed. simpl. discriminate.
Qed.

(** One upsert never changes a committed row; it returns only for a key
    without a record and a value the column takes, and then with the id
    it drew from the sequence. *)
Lemma save_frame u t k v db :
  let out := save_user_preference fails valid_json u t k v db in
  user_preferences (snd out) = user_preferences db
  /\ (statements db < statements (snd out) <= statements db + 2)%nat
  /\ next_id db <= next_id (snd out) <= next_id db + 1
  /\ (List.filter (matches u t k) (user_preferences db) <> [] ->
      raises (fst out) = true)
  /\ (forall i, fst out = Ok i ->
        List.filter (matches u t k) (user_preferences db) = []
        /\ bind_jsonb valid_json v = Json
        /\ i = Some (next_id db)
        /\ next_id (snd out) = next_id db + 1
        /\ statements (snd out) = (statements db + 2)%nat).
Proof.
  cbv zeta. rewrite save_user_preference_run.
  destruct (fails (statements db));
    [|destruct (List.filter (matches u t k) (user_preferences db)) as [|r rest];
      [destruct (fails (S (statements db)));
        [|destruct (bind_jsonb valid_json v) eqn:Eb]|]];
    cbn [fst snd sent drawn user_preferences next_id statements raises];
    (split; [reflexivity|]); (split; [lia|]); (split; [lia|]);
    (split; [intros H; first [reflexivity | now destruct H]|]);
    intros i Hi; try discriminate Hi.
  injection Hi as <-. repeat split; lia.
Qed.

Lemma save_user_preference_total u t k v db :
  fails (statements db) = false -> fails (S (statements db)) = false ->
  List.filter (matches u t k) (user_preferences db) = [] ->
  bind_jsonb valid_json v = Json ->
  save_user_preference fails valid_json u t k v db
  = (Ok (Some (next_id db)), drawn (sent (sent db))).
Proof.
  intros H0 H1 H2 H3. rewrite save_user_preference_run. now rewrite H0, H1, H2, H3.
Qed.

End Preferences.

(** C8, as the code has it: [update_preferences] returns true exactly when
    no upsert raised and at least one upsert returned a usable row id. *)
Theorem preference_upsert_spec (fails : nat -> bool) (valid_json : string -> bool)
    (u : string) (prefs : list (string * Value)) (db : Database.Accounts) :
  let outs :=
    UserPreference.outcomes fails valid_json u
      (UserPreference.upserts_of prefs) db in
  fst (UserPreference.update_preferences fails valid_json u prefs db) = true
  <-> Forall UserPreference.completed outs
      /\ Exists (fun o => UserPreference.succeeded o = true) outs.
Proof.
  cbv zeta. unfold UserPreference.update_preferences. rewrite save_all_run.
  pose proof (run_upserts_outcomes fails valid_json u
                (UserPreference.upserts_of prefs) 0%nat db) as H.
  destruct (UserPreference.run_upserts fails valid_json u
              (UserPreference.upserts_of prefs) 0%nat db) as [[m|e] db'];
    cbn [fst].
  - destruct H as [H1 H2]. split.
    + intros Hm. apply Nat.ltb_lt in Hm. split; [exact H1|].
      destruct (List.filter UserPreference.succeeded _) as [|o os] eqn:E;
        [simpl in H2; lia|].
      assert (Ho : In o (List.filter UserPreference.succeeded
                           (UserPreference.outcomes fails valid_json u
                              (UserPreference.upserts_of prefs) db)))
        by (rewrite E; left; reflexivity).
      apply List.filter_In in Ho as [Ho1 Ho2]. apply List.Exists_exists.
      exists o. split; assumption.
    + intros [_ Hex]. apply Nat.ltb_lt.
      apply List.Exists_exists in Hex as [o [Ho1 Ho2]].
      assert (Ho : In o (List.filter UserPreference.succeeded
                           (UserPreference.outcomes fails valid_json u
                              (UserPreference.upserts_of prefs) db)))
        by (apply List.filter_In; split; assumption).
      destruct (List.filter UserPreference.succeeded _);
        [destruct Ho | simpl in H2; lia].
  - split; [discriminate|]. intros [Hall _].
    apply List.Exists_exists in H as [o [Ho1 Ho2]].
    rewrite List.Forall_forall in Hall. exfalso. exact (Ho2 (Hall o Ho1)).
Qed.

Lemma preference_upsert_spec_witness :
  fst (UserPreference.update_preferences (fun _ => false) Scenario.valid_json
         "alice" [("display", VDict [("font_size", VStr "12")])]
         Database.empty_accounts) = true.
Proof.
  apply (proj2 (preference_upsert_spec (fun _ => false) Scenario.valid_json
                  "alice" [("display", VDict [("font_size", VStr "12")])]
                  Database.empty_accounts)).
  split.
  - repeat constructor.
  - apply Exists_cons_hd. reflexivity.
Defined.

(** C8, as stated, fails twice over. Two applications of
    [save_user_preference] with the same (type, key, value) on a fresh
    table both return, with the ids 1 and 2, and leave no record for the
    key. And when the statement numbered 3 (the insert of the second
    preference) raises, the first upsert has succeeded and
    [update_preferences] still returns false. *)
Lemma update_preferences_false_after_success :
  let save :=
    Database.save_user_preference (fun _ => false) Scenario.valid_json
      "alice" "display" "font_size" (VStr "12") in
  let fails := fun n => Nat.eqb n 3 in
  let prefs := [("font_size", VStr "12"); ("columns", VStr "3")] in
  (fst (save Database.empty_accounts) = Ok (Some 1)
   /\ fst (save (snd (save Database.empty_accounts))) = Ok (Some 2)
   /\ List.filter (Database.matches "alice" "display" "font_size")
        (Database.user_preferences
           (snd (save (snd (save Database.empty_accounts))))) = [])
  /\ ~ (fst (UserPreference.update_preferences fails Scenario.valid_json
               "alice" prefs Database.empty_accounts) = true
        <-> Exists (fun o => UserPreference.succeeded o = true)
              (UserPreference.outcomes fails Scenario.valid_json "alice"
                 (UserPreference.upserts_of prefs) Database.empty_accounts)).
Proof.
  cbv zeta. split; [repeat split; reflexivity|].
  intros [_ H].
  assert (Hf : false = true); [|discriminate Hf].
  apply H. apply Exists_cons_hd. reflexivity.
Qed.

(** ** Alert checks *)

Section AlertFacts.

Import AlertNotification AlertSpec.

Lemma traced_bind_snd {E A B} (m : Traced E A) (k : A -> Traced E B) (a : A) :
  snd m = Ok a -> snd (m ≫= k) = snd (k a).
Proof.
  destruct m as [tr [x|e]]; simpl; intros H; [|discriminate].
  injection H as ->. unfold mbind, Traced_bind. now destruct (k a).
Qed.

Lemma try_except_t_snd {E A} (body : Traced E A) (dflt : A) :
  snd (try_except_t body dflt) = Ok (try_except (snd body) dflt).
Proof. reflexivity. Qed.

Lemma get_configs_snd env username :
  snd (_get_user_alert_configs env username)
  = Ok (try_except (alert_configurations env username) []).
Proof.
  unfold _get_user_alert_configs. rewrite try_except_t_snd.
  unfold emit, lift, mbind, Traced_bind. reflexivity.
Qed.

(** With at least one transaction the outer handler of [check_alerts]
    never fires: the result is the concatenation of the five
    contributions. *)
Lemma check_alerts_contributions (env : Env) (t : Transaction)
    (ts : list Transaction) (username : string) (prefs : list Database.PrefRow) :
  let txs := t :: ts in
  let configs := try_except (alert_configurations env username) [] in
  snd (check_alerts env txs username prefs)
  = Ok (contribution (spending_threshold_body env txs username configs)
        ++ contribution (category_budget_body env txs username configs)
        ++ contribution (unusual_spending_body env txs username configs)
        ++ contribution (balance_body env username configs)
        ++ contribution (improvement_body env txs username prefs)).
Proof.
  intros txs configs. unfold check_alerts. rewrite try_except_t_snd.
  subst txs. cbv iota.
  rewrite (traced_bind_snd _ _ _ (get_configs_snd env username)).
  fold configs.
  unfold _check_spending_threshold_alerts, _check_category_budget_alerts,
    _check_unusual_spending_alerts, _check_balance_alerts,
    _check_improvement_alerts.
  repeat (erewrite traced_bind_snd by apply try_except_t_snd).
  reflexivity.
Qed.

Lemma Qlt_bool_spec (a b : Q) : Qlt_bool a b = true <-> (a < b)%Q.
Proof.
  unfold Qlt_bool. rewrite negb_true_iff. split.
  - intros H. apply Qnot_le_lt. intros Hle.
    apply Qle_bool_iff in Hle. congruence.
  - intros H. destruct (Qle_bool b a) eqn:E; [|reflexivity].
    apply Qle_bool_iff in E. exfalso. exact (Qlt_not_le _ _ H E).
Qed.

(** A low-balance configuration whose threshold is above the balance
    gives its alert whenever the balance check runs. *)
Lemma balance_contribution (env : Env) (username : string)
    (configs : list AlertConfig) (config : AlertConfig) (balance : Q) :
  In config configs -> alert_type config = "low_balance" ->
  get_user_balance env username = Ok balance ->
  (balance < threshold_value config)%Q ->
  In (balance_alert env config balance)
     (contribution (balance_body env username configs)).
Proof.
  intros Hin Ht Hb Hlt. unfold contribution, balance_body.
  assert (Hf : In config
                 (List.filter (fun c => String.eqb (alert_type c) "low_balance")
                    configs)).
  { apply List.filter_In. split; [exact Hin|]. now rewrite Ht. }
  destruct (List.filter _ configs) as [|c cs] eqn:E; [destruct Hf|].
  rewrite Hb. unfold emit, lift, mbind, Traced_bind, mret, Traced_ret.
  cbn [snd try_except]. apply in_flat_map. exists config. split; [exact Hf|].
  apply Qlt_bool_spec in Hlt. rewrite Hlt. now left.
Qed.

(** C7. With at least one transaction, [check_alerts] returns the
    concatenation of what the five checks contribute, in the order
    spending_threshold, category_budget, unusual_spending, low_balance,
    improvement_alert; a check whose [try] block raises contributes the
    empty list; and when the balance query raises, the other four
    contributions are what they are without the failure while
    low_balance contributes nothing. *)
Theorem check_alerts_isolation (env : Env) (t : Transaction) (ts : list Transaction)
    (username : string) (prefs : list Database.PrefRow) :
  let txs := t :: ts in
  let configs := try_except (alert_configurations env username) [] in
  snd (check_alerts env txs username prefs)
  = Ok (contribution (spending_threshold_body env txs username configs)
        ++ contribution (category_budget_body env txs username configs)
        ++ contribution (unusual_spending_body env txs username configs)
        ++ contribution (balance_body env username configs)
        ++ contribution (improvement_body env txs username prefs))
  /\ (forall body : W (list Alert),
        raises (snd body) = true -> contribution body = [])
  /\ (forall e : exn,
        snd (check_alerts (with_balance env (fun _ => Raise e)) txs username prefs)
        = Ok (contribution (spending_threshold_body env txs username configs)
              ++ contribution (category_budget_body env txs username configs)
              ++ contribution (unusual_spending_body env txs username configs)
              ++ contribution (balance_body (with_balance env (fun _ => Raise e))
                                 username configs)
              ++ contribution (improvement_body env txs username prefs))
        /\ (List.filter (fun c => String.eqb (alert_type c) "low_balance") configs <> [] ->
            contribution (balance_body (with_balance env (fun _ => Raise e))
                            username configs) = [])).
Proof.
  intros txs configs.
  split; [apply check_alerts_contributions|]. split.
  - intros body Hb. unfold contribution.
    destruct (snd body); [discriminate|reflexivity].
  - intros e. split.
    + exact (check_alerts_contributions (with_balance env (fun _ => Raise e))
               t ts username prefs).
    + intros Hne. unfold contribution, balance_body.
      destruct (List.filter _ configs); [congruence|]. reflexivity.
Qed.

Lemma check_alerts_isolation_witness :
  snd (check_alerts
         (Scenario.env [Scenario.daily_limit; Scenario.low_balance]
            (Raise SQLAlchemyError))
         Scenario.today_naive "alice" [])
  = Ok [spending_alert (Scenario.env [] (Ok 0%Q)) Scenario.daily_limit 150].
Proof.
  pose proof (check_alerts_isolation
                (Scenario.env [Scenario.daily_limit; Scenario.low_balance] (Ok 0%Q))
                (mk_tx (Some 100) (Some (TsStr "2024-01-01T09:30:00")) (Some "Groceries"))
                [mk_tx (Some 50) (Some (TsStr "2024-01-01T10:00:00")) (Some "Coffee")]
                "alice" []) as [_ [_ H]].
  destruct (H SQLAlchemyError) as [H1 H2].
  etransitivity; [exact H1|].
  rewrite H2 by (vm_compute; discriminate).
  vm_compute. reflexivity.
Defined.

(** C9. With an empty transaction list [check_alerts] returns the empty
    list at once, with no configuration fetched, no balance queried and
    no gateway call, whatever the configurations and the balance are. In
    particular, when an active low_balance configuration exists and the
    balance is below its threshold, the balance check on its own and
    [check_alerts] on any non-empty list give the low-balance alert,
    and [check_alerts] on the empty list gives none. *)
Theorem check_alerts_no_transactions (env : Env) (username : string)
    (prefs : list Database.PrefRow) :
  check_alerts env [] username prefs = ([], Ok [])
  /\ (forall configs config balance,
        alert_configurations env username = Ok configs ->
        In config configs -> alert_type config = "low_balance" ->
        get_user_balance env username = Ok balance ->
        (balance < threshold_value config)%Q ->
        In (balance_alert env config balance)
           (contribution (balance_body env username configs))
        /\ (forall t ts, exists alerts,
              snd (check_alerts env (t :: ts) username prefs) = Ok alerts
              /\ In (balance_alert env config balance) alerts)
        /\ ~ In (balance_alert env config balance)
               (try_except (snd (check_alerts env [] username prefs)) [])).
Proof.
  split; [reflexivity|].
  intros configs config balance Hc Hin Ht Hb Hlt.
  pose proof (balance_contribution env username configs config balance
                Hin Ht Hb Hlt) as Hbal.
  split; [exact Hbal|]. split.
  - intros t ts. eexists. split; [apply check_alerts_contributions|].
    rewrite Hc. cbn [try_except].
    apply in_or_app; right. apply in_or_app; right. apply in_or_app; right.
    apply in_or_app; left. exact Hbal.
  - intros H. exact H.
Qed.

Lemma check_alerts_no_transactions_witness :
  let env := Scenario.env [Scenario.low_balance] (Ok (120 # 1)) in
  check_alerts env [] "alice" [] = ([], Ok [])
  /\ In (balance_alert env Scenario.low_balance (120 # 1))
        (contribution (balance_body env "alice" [Scenario.low_balance])).
Proof.
  cbv zeta.
  destruct (check_alerts_no_transactions
              (Scenario.env [Scenario.low_balance] (Ok (120 # 1))) "alice" [])
    as [H0 H].
  split; [exact H0|].
  apply (H [Scenario.low_balance] Scenario.low_balance (120 # 1)).
  - reflexivity.
  - now left.
  - reflexivity.
  - reflexivity.
  - reflexivity.
Defined.

(** With one transaction the same low-balance configuration does give
    its alert. *)
Example low_balance_needs_a_transaction :
  let env := Scenario.env [Scenario.low_balance] (Ok (120 # 1)) in
  check_alerts env [] "alice" [] = ([], Ok [])
  /\ check_alerts env
       [mk_tx (Some 5) (Some (TsStr "2023-11-30T08:00:00")) None] "alice" []
     = ([QueryAlertConfigs "alice"; QueryBalance "alice"],
        Ok [balance_alert env Scenario.low_balance (120 # 1)]).
Proof. split; vm_compute; reflexivity. Qed.

Lemma period_start_offset now_ period :
  dt_utcoffset (period_start now_ period) = dt_utcoffset now_.
Proof.
  unfold period_start.
  destruct (String.eqb period "daily"); [reflexivity|].
  destruct (String.eqb period "weekly"); [reflexivity|].
  destruct (String.eqb period "monthly"); reflexivity.
Qed.

Lemma naive_step env (start : datetime) (t : Transaction) :
  dt_utcoffset start = None -> is_Some (naive_us env t) ->
  exists d, trans_date env t = Ok d
            /\ Datetime.ge d start = Ok (dt_us start <=? default 0 (naive_us env t)).
Proof.
  intros Hs [us Hus]. unfold naive_us in *.
  destruct (trans_date env t) as [d|e]; [|discriminate].
  exists d. split; [reflexivity|]. unfold Datetime.ge. rewrite Hs.
  destruct (dt_utcoffset d); [discriminate|]. reflexivity.
Qed.

Lemma spending_loop_naive env start txs acc :
  dt_utcoffset start = None -> all_naive env txs ->
  spending_loop env start txs acc
  = Ok (acc + sum_amounts
                (List.filter (fun t => dt_us start <=? default 0 (naive_us env t)) txs)).
Proof.
  intros Hs Hall. revert acc. induction Hall as [|t txs Ht _ IH]; intros acc.
  - simpl. f_equal. unfold sum_amounts. simpl. lia.
  - cbn [spending_loop List.filter].
    destruct (naive_step env start t Hs Ht) as [d [Hd Hge]].
    rewrite Hd, bind_ok, Hge, bind_ok, IH.
    destruct (dt_us start <=? default 0 (naive_us env t)).
    + rewrite sum_amounts_cons. f_equal. lia.
    + reflexivity.
Qed.

Lemma calculate_spending_naive env txs period :
  dt_utcoffset (now env) = None -> all_naive env txs ->
  _calculate_spending_for_period env txs period
  = sum_amounts (List.filter (in_window env period) txs).
Proof.
  intros Hn Hall. unfold _calculate_spending_for_period.
  rewrite spending_loop_naive; [|now rewrite period_start_offset|exact Hall].
  reflexivity.
Qed.

Lemma category_loop_naive env kws start txs acc :
  dt_utcoffset start = None -> all_naive env txs ->
  category_loop env kws start txs acc
  = Ok (acc + sum_amounts
                (List.filter (fun t => (dt_us start <=? default 0 (naive_us env t))
                                       && PyStr.any_in kws (transaction_desc t)) txs)).
Proof.
  intros Hs Hall. revert acc. induction Hall as [|t txs Ht _ IH]; intros acc.
  - simpl. f_equal. unfold sum_amounts. simpl. lia.
  - cbn [category_loop List.filter].
    destruct (naive_step env start t Hs Ht) as [d [Hd Hge]].
    rewrite Hd, bind_ok, Hge, bind_ok, IH.
    destruct ((dt_us start <=? default 0 (naive_us env t))
              && PyStr.any_in kws (transaction_desc t)).
    + rewrite sum_amounts_cons. f_equal. lia.
    + reflexivity.
Qed.

Lemma any_in_empty kws :
  forallb (fun k => negb (PyStr.is_empty k)) kws = true ->
  PyStr.any_in kws EmptyString = false.
Proof.
  unfold PyStr.any_in. induction kws as [|k kws IH]; [reflexivity|].
  cbn [existsb forallb]. intros H. apply andb_true_iff in H as [Hk H].
  rewrite (IH H), orb_false_r. now destruct k.
Qed.

Lemma lookup_keywords_in c table kws :
  lookup_keywords c table = Some kws -> exists c', In (c', kws) table.
Proof.
  induction table as [|[c' v] table IH]; [discriminate|]. simpl.
  destruct (String.eqb c c').
  - intros [= ->]. exists c'. now left.
  - intros H. destruct (IH H) as [c'' Hin]. exists c''. now right.
Qed.

Lemma keywords_nonempty category :
  category <> EmptyString ->
  forallb (fun k => negb (PyStr.is_empty k)) (keywords_for category) = true.
Proof.
  intros Hne. unfold keywords_for.
  destruct (lookup_keywords _ _) as [kws|] eqn:E; cbn [default].
  - apply lookup_keywords_in in E as [c' Hin].
    assert (Ht : forallb (fun e => forallb (fun k => negb (PyStr.is_empty k)) (snd e))
                   category_keywords = true) by reflexivity.
    rewrite forallb_forall in Ht. exact (Ht _ Hin).
  - simpl. rewrite andb_true_r. unfold PyStr.lower. rewrite is_empty_map.
    now destruct category.
Qed.

Lemma category_loop_no_match env kws start txs acc x :
  Forall (fun t => PyStr.any_in kws (transaction_desc t) = false) txs ->
  category_loop env kws start txs acc = Ok x -> x = acc.
Proof.
  intros Hall. revert acc. induction Hall as [|t txs Ht _ IH]; intros acc.
  - simpl. now intros [= ->].
  - cbn [category_loop].
    destruct (trans_date env t) as [d|e]; [|discriminate].
    rewrite bind_ok. destruct (Datetime.ge d start) as [b|e]; [|discriminate].
    rewrite bind_ok, Ht, andb_false_r. apply IH.
Qed.

Lemma no_description_no_match kws txs :
  PyStr.any_in kws EmptyString = false ->
  Forall (fun t => tx_description t = None) txs ->
  Forall (fun t => PyStr.any_in kws (transaction_desc t) = false) txs.
Proof.
  intros Hk. apply List.Forall_impl. intros t Ht. unfold transaction_desc.
  now rewrite Ht.
Qed.

Lemma category_spending_no_match env txs category period :
  Forall (fun t => PyStr.any_in (keywords_for category) (transaction_desc t) = false)
    txs ->
  _calculate_category_spending env txs category period = 0.
Proof.
  intros H. unfold _calculate_category_spending.
  destruct (category_loop _ _ _ _ _) as [x|e] eqn:E; [|reflexivity].
  simpl. exact (category_loop_no_match _ _ _ _ _ _ H E).
Qed.


Lemma period_start_cases (now_ : datetime) (period : string) :
  period_start now_ "daily" = Datetime.midnight now_
  /\ period_start now_ "weekly" = Datetime.minus_days now_ 7
  /\ period_start now_ "monthly" = Datetime.minus_days now_ 30
  /\ (period <> "daily" -> period <> "weekly" -> period <> "monthly" ->
      period_start now_ period = Datetime.minus_days now_ 1).
Proof.
  repeat split. intros H1 H2 H3. unfold period_start.
  destruct (String.eqb_spec period "daily"); [contradiction|].
  destruct (String.eqb_spec period "weekly"); [contradiction|].
  destruct (String.eqb_spec period "monthly"); [contradiction|reflexivity].
Qed.

(** On naive timestamps the spending check does what the specification
    says: one alert per configuration whose window sum exceeds the
    threshold, carrying the excess. *)
Lemma spending_threshold_naive env txs username c :
  dt_utcoffset (now env) = None -> all_naive env txs ->
  alert_type c = "spending_threshold" ->
  let total_ := sum_amounts (List.filter (in_window env (threshold_period c)) txs) in
  (snd (_check_spending_threshold_alerts env txs username [c])
   = Ok (if Py.Qgt_bool (inject_Z total_) (threshold_value c)
         then [spending_alert env c total_] else []))
  /\ excess_of (spending_alert env c total_)
     = Some (inject_Z total_ - threshold_value c)%Q.
Proof.
  intros Hn Hall Ht total_. split; [|reflexivity].
  unfold _check_spending_threshold_alerts, spending_threshold_body.
  rewrite try_except_t_snd. cbn [List.filter]. rewrite Ht, String.eqb_refl.
  cbn [flat_map snd mret Traced_ret try_except].
  rewrite (calculate_spending_naive env txs _ Hn Hall). fold total_.
  now rewrite app_nil_r.
Qed.

(** C6, on the code. Two transactions of today, 100 and 50, with
    timestamps written with the UTC suffix Z: the text is parsed to an
    aware datetime, ordering it against the naive window start raises,
    the handler returns 0 as the spending, and the threshold-100 daily
    configuration gives no alert. The same transactions with offset-free
    timestamps give the one alert with excess 50. *)
Theorem spending_threshold_utc_suffix :
  let env := Scenario.env [Scenario.daily_limit] (Ok 0%Q) in
  Forall (fun t => exists d, trans_date env t = Ok d /\ dt_utcoffset d = Some 0
                             /\ dt_us (Datetime.midnight Scenario.noon) <= dt_us d)
    Scenario.today_utc
  /\ sum_amounts Scenario.today_utc = 150
  /\ _calculate_spending_for_period env Scenario.today_utc "daily" = 0
  /\ snd (check_alerts env Scenario.today_utc "alice" []) = Ok []
  /\ _calculate_spending_for_period env Scenario.today_naive "daily" = 150
  /\ snd (check_alerts env Scenario.today_naive "alice" [])
     = Ok [spending_alert env Scenario.daily_limit 150]
  /\ excess_of (spending_alert env Scenario.daily_limit 150) = Some (50 # 1).
Proof.
  cbv zeta. split.
  - repeat constructor; eexists; (split; [vm_compute; reflexivity|]);
      split; [reflexivity | vm_compute; discriminate | reflexivity
              | vm_compute; discriminate].
  - repeat split; vm_compute; reflexivity.
Qed.

(** C10, as the code has it. On naive timestamps the category sum is
    the sum of the amounts of the transactions in the period window
    whose lowered description contains a keyword of the category. When
    no transaction has a description, the sum is 0 for every category
    with a non-empty name, and no category_budget alert is emitted for
    configurations with a non-empty name and a positive threshold. *)
Theorem category_budget_spec (env : Env) (txs : list Transaction) :
  (dt_utcoffset (now env) = None -> all_naive env txs ->
   forall category period,
     _calculate_category_spending env txs category period
     = sum_amounts
         (List.filter
            (fun t => in_window env period t
                      && PyStr.any_in (keywords_for category)
                           (PyStr.lower
                              (default EmptyString (tx_description t))))
            txs))
  /\ (Forall (fun t => tx_description t = None) txs ->
      (forall category period, category <> EmptyString ->
         _calculate_category_spending env txs category period = 0)
      /\ (forall username configs,
            Forall (fun c => alert_type c = "category_budget" ->
                             alert_name c <> EmptyString
                             /\ (0 < threshold_value c)%Q) configs ->
            _check_category_budget_alerts env txs username configs = ([], Ok []))).
Proof.
  split.
  - intros Hn Hall category period. unfold _calculate_category_spending.
    rewrite category_loop_naive; [|now rewrite period_start_offset|exact Hall].
    reflexivity.
  - intros Hdesc.
    assert (Hzero : forall category period, category <> EmptyString ->
              _calculate_category_spending env txs category period = 0).
    { intros category period Hne. apply category_spending_no_match.
      apply no_description_no_match; [|exact Hdesc].
      apply any_in_empty, keywords_nonempty, Hne. }
    split; [exact Hzero|].
    intros username configs Hc.
    unfold _check_category_budget_alerts, try_except_t, category_budget_body.
    cbn [fst snd mret Traced_ret try_except]. do 2 f_equal.
    induction Hc as [|c configs Hc _ IH]; [reflexivity|].
    cbn [List.filter].
    destruct (String.eqb_spec (alert_type c) "category_budget") as [Ht|_];
      [|exact IH].
    cbn [flat_map]. rewrite IH. destruct (Hc Ht) as [Hname Hthr].
    rewrite (Hzero _ _ Hname).
    destruct (Py.Qgt_bool (inject_Z 0) (threshold_value c)) eqn:E; [|reflexivity].
    apply Qgt_bool_spec in E. exfalso.
    exact (Qlt_irrefl _ (Qlt_trans _ _ _ Hthr E)).
Qed.


Lemma category_budget_spec_witness :
  _calculate_category_spending
    (Scenario.env [Scenario.coffee_budget] (Ok 0%Q)) Scenario.ledger_rows
    "Coffee" "daily" = 0
  /\ _check_category_budget_alerts
       (Scenario.env [Scenario.coffee_budget] (Ok 0%Q)) Scenario.ledger_rows
       "alice" [Scenario.coffee_budget] = ([], Ok []).
Proof.
  assert (Hd : Forall (fun t => tx_description t = None) Scenario.ledger_rows)
    by (repeat constructor).
  destruct (proj2 (category_budget_spec
                     (Scenario.env [Scenario.coffee_budget] (Ok 0%Q))
                     Scenario.ledger_rows) Hd) as [H1 H2].
  split.
  - apply H1. discriminate.
  - apply H2. apply List.Forall_cons; [|apply List.Forall_nil].
    intros _. split; [discriminate | reflexivity].
Defined.

(** C10, as stated, fails: for a category_budget configuration whose
    name is empty the only keyword is the empty text, which every
    description contains, so ledger-shaped rows without a description
    are counted and an alert with the positive threshold 100 is
    emitted. *)
Lemma category_budget_empty_name :
  let env := Scenario.env [Scenario.unnamed_budget] (Ok 0%Q) in
  Forall (fun t => tx_description t = None) Scenario.ledger_rows
  /\ (0 < threshold_value Scenario.unnamed_budget)%Q
  /\ keywords_for (alert_name Scenario.unnamed_budget) = [EmptyString]
  /\ _calculate_category_spending env Scenario.ledger_rows EmptyString "daily"
     <> 0
  /\ snd (_check_category_budget_alerts env Scenario.ledger_rows "alice"
            [Scenario.unnamed_budget])
     <> Ok []
  /\ snd (_check_category_budget_alerts env Scenario.ledger_rows "alice"
            [Scenario.unnamed_budget])
     = Ok [category_alert env Scenario.unnamed_budget 150].
Proof.
  cbv zeta. split; [repeat constructor|]. split; [reflexivity|].
  split; [reflexivity|]. split; [vm_compute; discriminate|].
  split; [vm_compute; discriminate|]. vm_compute. reflexivity.
Qed.

End AlertFacts.

(** ** Ad-hoc query workflow *)

Section OrchestratorFacts.

Import Orchestrator.

Lemma call_bind {E A B} (ev : E) (a : A) (k : A -> Traced E B) :
  (call ev (Ok a) ≫= k) = ([ev] ++ fst (k a), snd (k a)).
Proof. unfold call, mbind, Traced_bind. now destruct (k a). Qed.

Lemma call_bind_raise {E A B} (ev : E) (e : exn) (k : A -> Traced E B) :
  (call ev (Raise e) ≫= k) = ([ev], Raise e).
Proof. reflexivity. Qed.

Lemma failure_fields msg :
  failure msg !! "success" = Some (FBool false)
  /\ failure msg !! "error" = Some (FStr msg)
  /\ failure msg !! "data" = None
  /\ failure msg !! "insights" = None
  /\ failure msg !! "visualizations" = None
  /\ failure msg !! "query_intent" = None.
Proof. repeat split; reflexivity. Qed.

(** Every response is either a bare failure or a full success. *)
Lemma process_user_query_shape agents username query :
  exists resp,
    snd (process_user_query agents username query) = Ok resp
    /\ ((exists msg, resp = failure msg)
        \/ resp !! "success" = Some (FBool true)).
Proof.
  unfold process_user_query. rewrite try_except_t_snd. eexists. split; [reflexivity|].
  destruct (understand_query agents query) as [i|e];
    [rewrite call_bind|rewrite call_bind_raise; left; eexists; reflexivity].
  cbn [snd].
  destruct (intent_truthy i) as [intent|]; [|left; eexists; reflexivity].
  destruct (get_user_preferences agents username) as [prefs|e];
    [rewrite call_bind|rewrite call_bind_raise; left; eexists; reflexivity].
  cbn [snd].
  destruct (generate_sql_query agents intent username prefs) as [sql|e];
    [rewrite call_bind|rewrite call_bind_raise; left; eexists; reflexivity].
  cbn [snd].
  destruct (sql_truthy sql) as [q|]; [|left; eexists; reflexivity].
  destruct (execute_query agents q username) as [rows|e];
    [rewrite call_bind|rewrite call_bind_raise; left; eexists; reflexivity].
  cbn [snd].
  destruct rows as [|r rows]; [left; eexists; reflexivity|].
  destruct (generate_insights agents (r :: rows) intent username prefs) as [ins|e];
    [rewrite call_bind|rewrite call_bind_raise; left; eexists; reflexivity].
  cbn [snd].
  destruct (Py.truthy _).
  - destruct (create_visualizations agents (r :: rows) ins intent) as [vis|e];
      [rewrite call_bind|rewrite call_bind_raise; left; eexists; reflexivity].
    cbn [snd].
    destruct (log_interaction agents username "query_processed" _) as [l|e];
      [rewrite call_bind|rewrite call_bind_raise; left; eexists; reflexivity].
    right. reflexivity.
  - unfold mbind at 1, Traced_bind at 1, mret at 1, Traced_ret at 1.
    destruct (log_interaction agents username "query_processed" _) as [l|e];
      [rewrite call_bind|rewrite call_bind_raise; left; eexists; reflexivity].
    right. reflexivity.
Qed.

(** C2. Whenever SQL generation yields nothing, the result of
    [process_user_query] is exactly the dictionary with success false
    and the error "Could not generate appropriate query for your
    request.", and the stages that ran are understanding, preference
    lookup and SQL generation only (no execution, insight generation,
    visualization or interaction logging); and every response that is
    not a success has success false and carries no data, insights,
    visualizations or intent. *)
Theorem process_user_query_no_sql agents username query :
  (forall intent prefs sql,
     understand_query agents query = Ok (Some intent) ->
     Py.dict_truthy intent = true ->
     get_user_preferences agents username = Ok prefs ->
     generate_sql_query agents intent username prefs = Ok sql ->
     sql_truthy sql = None ->
     process_user_query agents username query
     = ([UnderstandQuery; GetUserPreferences; GenerateSql],
        Ok {[ "success" := FBool false; "error" := FStr no_sql_message ]}))
  /\ (exists resp,
        snd (process_user_query agents username query) = Ok resp
        /\ (resp !! "success" <> Some (FBool true) ->
            resp !! "success" = Some (FBool false)
            /\ resp !! "data" = None
            /\ resp !! "insights" = None
            /\ resp !! "visualizations" = None
            /\ resp !! "query_intent" = None)).
Proof.
  split.
  - intros intent prefs sql Hu Ht Hp Hs Hn.
    unfold process_user_query. rewrite Hu, call_bind.
    unfold intent_truthy. rewrite Ht. rewrite Hp, call_bind, Hs, call_bind, Hn.
    reflexivity.
  - destruct (process_user_query_shape agents username query)
      as [resp [Hr [[msg Hm]|Hs]]]; exists resp; (split; [exact Hr|]).
    + intros _. subst resp. destruct (failure_fields msg) as [H1 [_ H2]].
      now split.
    + intros Hn. contradiction.
Qed.

Lemma process_user_query_no_sql_witness :
  process_user_query Scenario.agents_rejected_sql "alice" Scenario.coffee_query
  = ([UnderstandQuery; GetUserPreferences; GenerateSql],
     Ok {[ "success" := FBool false; "error" := FStr no_sql_message ]}).
Proof.
  eapply (proj1 (process_user_query_no_sql Scenario.agents_rejected_sql
                   "alice" Scenario.coffee_query)).
  - reflexivity.
  - vm_compute. reflexivity.
  - reflexivity.
  - reflexivity.
  - vm_compute. reflexivity.
Defined.

End OrchestratorFacts.

(** * Further properties of the agents *)

(** ** Insight generator *)

Section InsightFacts.

Import InsightGenerator.

Lemma max_key_fold (get : string -> Z) (rest : list string) (best : string) :
  let r := fold_left (fun b k' => if get b <? get k' then k' else b) rest best in
  In r (best :: rest)
  /\ get best <= get r
  /\ forall k, In k rest -> get k <= get r.
Proof.
  revert best. induction rest as [|k rest IH]; intros best; cbn [fold_left].
  - split; [now left|]. split; [lia|]. intros k [].
  - destruct (Z.ltb_spec (get best) (get k)) as [Hlt|Hge].
    + destruct (IH k) as [H1 [H2 H3]]. split; [right; exact H1|].
      split; [lia|]. intros k' [<-|Hin]; [exact H2 | now apply H3].
    + destruct (IH best) as [H1 [H2 H3]]. split.
      * destruct H1 as [H1|H1]; [now left | right; now right].
      * split; [exact H2|]. intros k' [<-|Hin]; [lia | now apply H3].
Qed.

Lemma max_key_spec (get : string -> Z) (k : string) (rest : list string) :
  In (max_key get (k :: rest)) (k :: rest)
  /\ forall k', In k' (k :: rest) -> get k' <= get (max_key get (k :: rest)).
Proof.
  unfold max_key. destruct (max_key_fold get rest k) as [H1 [H2 H3]].
  split; [exact H1|]. intros k' [<-|Hin]; [exact H2 | now apply H3].
Qed.

Lemma or_fallback_nonempty (d : option string) (fallback : string) :
  fallback <> EmptyString -> or_fallback d fallback <> EmptyString.
Proof.
  intros Hf. unfold or_fallback. destruct d as [s|]; [|exact Hf].
  destruct s; [exact Hf | discriminate].
Qed.

End InsightFacts.

(** X1. For every non-empty transaction list the category analysis
    returns an insight (the percentage never divides by zero): its total
    is the sum of the amounts, the four bucket totals add up to it, the
    top category is one of the four buckets and no bucket has a larger
    total, and the top percentage is top / total * 100 when the total is
    positive and 0 otherwise. *)
Theorem analyze_spending_categories_spec
    (generate_insight_description :
       InsightGenerator.InsightData -> string -> option string)
    (format_1f format_2f : Q -> string)
    (t : Transaction) (ts : list Transaction) (username : string) :
  exists insight a,
    InsightGenerator.analyze_spending_categories generate_insight_description
      format_1f format_2f (t :: ts) username = Some insight
    /\ InsightGenerator.data insight = InsightGenerator.CategoryData a
    /\ InsightGenerator.priority insight = 2
    /\ InsightGenerator.total_amount a = sum_amounts (t :: ts)
    /\ Spec.buckets_sum (InsightGenerator.categories a) = sum_amounts (t :: ts)
    /\ In (InsightGenerator.top_category a) InsightGenerator.bucket_names
    /\ (forall k, In k InsightGenerator.bucket_names ->
          default 0 (InsightGenerator.categories a !! k)
          <= default 0 (InsightGenerator.categories a
                          !! InsightGenerator.top_category a))
    /\ (0 < sum_amounts (t :: ts) ->
        (InsightGenerator.top_percentage a
         == inject_Z (default 0%Z (InsightGenerator.categories a
                                     !! InsightGenerator.top_category a))
            / inject_Z (sum_amounts (t :: ts)) * 100)%Q)
    /\ (sum_amounts (t :: ts) <= 0 ->
        InsightGenerator.top_percentage a = 0%Q).
Proof.
  unfold InsightGenerator.analyze_spending_categories.
  destruct (categorize_partition (t :: ts)) as [Hsum Htot].
  destruct (InsightGenerator.categorize (t :: ts)) as [cats total_] eqn:Ec.
  cbn [fst snd] in Hsum, Htot.
  set (get := fun k => default 0 (cats !! k)).
  destruct (max_key_spec get InsightGenerator.small
              [InsightGenerator.medium; InsightGenerator.large;
               InsightGenerator.very_large]) as [Hin Hmax].
  fold InsightGenerator.bucket_names in Hin, Hmax.
  destruct (Z.ltb_spec 0 total_) as [Hpos|Hle].
  - rewrite div_ok by (unfold Qeq; simpl; lia).
    rewrite !bind_ok. cbn [try_except].
    eexists. eexists. split; [reflexivity|].
    cbn [InsightGenerator.data InsightGenerator.priority].
    split; [reflexivity|]. split; [reflexivity|].
    cbn [InsightGenerator.total_amount InsightGenerator.categories
         InsightGenerator.top_category InsightGenerator.top_percentage].
    split; [exact Htot|].
    split; [now rewrite Hsum|]. split; [exact Hin|]. split; [exact Hmax|].
    split; [intros _; rewrite Htot; reflexivity | intros H; lia].
  - rewrite !bind_ok. cbn [try_except].
    eexists. eexists. split; [reflexivity|].
    cbn [InsightGenerator.data InsightGenerator.priority].
    split; [reflexivity|]. split; [reflexivity|].
    cbn [InsightGenerator.total_amount InsightGenerator.categories
         InsightGenerator.top_category InsightGenerator.top_percentage].
    split; [exact Htot|].
    split; [now rewrite Hsum|]. split; [exact Hin|]. split; [exact Hmax|].
    split; [intros H; lia | reflexivity].
Qed.

(** X2. The improvement analysis gives nothing for fewer than ten
    transactions and an insight for ten or more; the insight compares the
    first half (length / 2 transactions) with the rest, and the two period
    totals add up to the sum of all amounts. *)
Theorem analyze_improvements_threshold
    (generate_insight_description :
       InsightGenerator.InsightData -> string -> option string)
    (float_1f : float -> string)
    (txs : list Transaction) (username : string) :
  ((length txs < 10)%nat ->
   InsightGenerator.analyze_improvements generate_insight_description
     float_1f txs username = None)
  /\ ((10 <= length txs)%nat ->
      exists insight a,
        InsightGenerator.analyze_improvements generate_insight_description
          float_1f txs username = Some insight
        /\ InsightGenerator.insight_type insight = "improvement_analysis"
        /\ InsightGenerator.data insight = InsightGenerator.ImprovementData a
        /\ InsightGenerator.count (InsightGenerator.recent_period a)
           = (length txs / 2)%nat
        /\ InsightGenerator.count (InsightGenerator.older_period a)
           = (length txs - length txs / 2)%nat
        /\ InsightGenerator.total (InsightGenerator.recent_period a)
           + InsightGenerator.total (InsightGenerator.older_period a)
           = sum_amounts txs).
Proof.
  split.
  - intros Hlt. unfold InsightGenerator.analyze_improvements.
    destruct (Nat.ltb_spec (length txs) 10) as [_|Hge]; [reflexivity | lia].
  - intros Hlen.
    destruct (halves_nonempty txs Hlen) as [Hr Ho].
    unfold InsightGenerator.analyze_improvements.
    destruct (Nat.ltb_spec (length txs) 10) as [Hlt|_]; [lia|].
    rewrite (average_of_nonempty _ _ Hr), (average_of_nonempty _ _ Ho).
    rewrite !bind_ok.
    match goal with
    | |- context [if PrimFloat.ltb 0 ?o
                  then Py.float_div (PrimFloat.sub ?o ?r) ?o ≫= _ else _] =>
        destruct (improvement_pct_ok r o) as [pct [Hp _]]
    end.
    rewrite Hp, bind_ok. cbn [try_except].
    eexists. eexists. split; [reflexivity|].
    cbn [InsightGenerator.insight_type InsightGenerator.data].
    split; [reflexivity|]. split; [reflexivity|].
    cbn [InsightGenerator.recent_period InsightGenerator.older_period
         InsightGenerator.count InsightGenerator.total].
    split; [rewrite length_firstn; apply Nat.min_l, Nat.Div0.div_le_upper_bound; lia|].
    split; [apply length_skipn|].
    rewrite <- sum_amounts_app, firstn_skipn. reflexivity.
Qed.

Lemma analyze_improvements_threshold_witness :
  InsightGenerator.analyze_improvements (fun _ _ => None) (fun _ => "0.0")
    (firstn 9 Scenario.ten_transactions) "alice" = None.
Proof.
  apply (proj1 (analyze_improvements_threshold (fun _ _ => None) (fun _ => "0.0")
                  (firstn 9 Scenario.ten_transactions) "alice")).
  simpl. lia.
Defined.

Section InsightShapes.

Import InsightGenerator InsightSpec.

Variable analyze_data : list Transaction -> string -> string -> option dict.
Variable generate_insight_description : InsightData -> string -> option string.
Variable format_1f format_2f : Q -> string.
Variable float_1f : float -> string.

Lemma trends_shape txs username i :
  analyze_spending_trends analyze_data generate_insight_description txs username
  = Some i ->
  well_formed i /\ insight_type i = "spending_trends" /\ txs <> [].
Proof.
  unfold analyze_spending_trends. destruct txs as [|t ts]; [discriminate|].
  destruct (analyze_data _ _ _) as [res|]; [|discriminate].
  destruct (Py.dict_truthy res); [|discriminate]. cbn.
  intros [= <-]. unfold well_formed, known_configs.
  cbn [In insight_type priority description visualization_config].
  split; [|split; [reflexivity|discriminate]].
  split; [now left|]. split; [now left|]. split; [|now left].
  apply or_fallback_nonempty. discriminate.
Qed.

Lemma categories_shape txs username i :
  analyze_spending_categories generate_insight_description format_1f format_2f
    txs username = Some i ->
  well_formed i /\ insight_type i = "category_analysis" /\ txs <> [].
Proof.
  unfold analyze_spending_categories. destruct txs as [|t ts]; [discriminate|].
  destruct (categorize (t :: ts)) as [cats total_].
  destruct (0 <? total_).
  - destruct (Py.div _ _) as [q|e]; [|discriminate].
    rewrite !bind_ok. cbn [try_except]. intros [= <-].
    unfold well_formed, known_configs.
    cbn [In insight_type priority description visualization_config].
    split; [|split; [reflexivity|discriminate]].
    split; [right; now left|]. split; [now left|]. split; [|right; now left].
    apply or_fallback_nonempty. discriminate.
  - rewrite !bind_ok. cbn [try_except]. intros [= <-].
    unfold well_formed, known_configs.
    cbn [In insight_type priority description visualization_config].
    split; [|split; [reflexivity|discriminate]].
    split; [right; now left|]. split; [now left|]. split; [|right; now left].
    apply or_fallback_nonempty. discriminate.
Qed.

Lemma improvements_shape txs username i :
  analyze_improvements generate_insight_description float_1f txs username
  = Some i ->
  well_formed i /\ insight_type i = "improvement_analysis"
  /\ (10 <= length txs)%nat.
Proof.
  unfold analyze_improvements.
  destruct (Nat.ltb_spec (length txs) 10) as [|Hge]; [discriminate|].
  destruct (average_of _ (firstn _ _)) as [ra|e]; [|discriminate].
  rewrite bind_ok.
  destruct (average_of _ (skipn _ _)) as [oa|e]; [|discriminate].
  rewrite bind_ok.
  destruct (if PrimFloat.ltb 0 oa then _ else _) as [pct|e]; [|discriminate].
  rewrite bind_ok. cbn [try_except]. intros [= <-].
  unfold well_formed, known_configs.
  cbn [In insight_type priority description visualization_config].
  split; [|split; [reflexivity | exact Hge]].
  split; [right; right; left; reflexivity|].
  split; [destruct (PrimFloat.ltb 5 pct); [right | left]; reflexivity|].
  split; [|right; right; now left].
  apply or_fallback_nonempty. destruct (PrimFloat.ltb 5 pct); discriminate.
Qed.

Lemma to_list_length {A} (o : option A) : (length (to_list o) <= 1)%nat.
Proof. destruct o; simpl; lia. Qed.

End InsightShapes.

(** X3. Whatever the intent and the gateway do, [generate_insights]
    returns at most three insights, of pairwise different kinds, each of
    kind spending_trends, category_analysis or improvement_analysis with
    priority 2 or 3, a description that is not empty and one of the three
    fixed chart configurations; on empty data it
    returns no insight, and it returns an improvement insight only for
    ten or more rows. *)
Theorem generate_insights_invariants
    (analyze_data : list Transaction -> string -> string -> option dict)
    (generate_insight_description :
       InsightGenerator.InsightData -> string -> option string)
    (format_1f format_2f : Q -> string) (float_1f : float -> string)
    (rows : list Transaction) (query_intent : dict) (username : string) :
  let insights :=
    InsightGenerator.generate_insights analyze_data generate_insight_description
      format_1f format_2f float_1f rows query_intent username in
  (length insights <= 3)%nat
  /\ Forall InsightSpec.well_formed insights
  /\ List.NoDup (List.map InsightGenerator.insight_type insights)
  /\ (rows = [] -> insights = [])
  /\ (forall i, In i insights ->
        InsightGenerator.insight_type i = "improvement_analysis" ->
        (10 <= length rows)%nat).
Proof.
  cbv zeta. unfold InsightGenerator.generate_insights. cbn [try_except].
  set (tr := InsightGenerator.analyze_spending_trends analyze_data
               generate_insight_description rows username).
  set (ca := InsightGenerator.analyze_spending_categories
               generate_insight_description format_1f format_2f rows username).
  set (im := InsightGenerator.analyze_improvements
               generate_insight_description float_1f rows username).
  assert (Htr : forall i, tr = Some i ->
            InsightSpec.well_formed i
            /\ InsightGenerator.insight_type i = "spending_trends" /\ rows <> [])
    by (intros i; apply trends_shape).
  assert (Hca : forall i, ca = Some i ->
            InsightSpec.well_formed i
            /\ InsightGenerator.insight_type i = "category_analysis" /\ rows <> [])
    by (intros i; apply categories_shape).
  assert (Him : forall i, im = Some i ->
            InsightSpec.well_formed i
            /\ InsightGenerator.insight_type i = "improvement_analysis"
            /\ (10 <= length rows)%nat)
    by (intros i; apply improvements_shape).
  assert (Hgen : InsightGenerator._general_analysis analyze_data
                   generate_insight_description format_1f format_2f float_1f
                   rows username
                 = InsightGenerator.to_list tr ++ InsightGenerator.to_list ca
                   ++ InsightGenerator.to_list im) by reflexivity.
  rewrite Hgen. clearbody tr ca im. clear Hgen.
  destruct tr as [i1|], ca as [i2|], im as [i3|];
    try (destruct (Htr _ eq_refl) as [W1 [T1 N1]]);
    try (destruct (Hca _ eq_refl) as [W2 [T2 N2]]);
    try (destruct (Him _ eq_refl) as [W3 [T3 N3]]);
    clear Htr Hca Him;
    destruct (InsightGenerator.is_type _ "spending_trends");
    try destruct (InsightGenerator.is_type _ "category_analysis");
    try destruct (InsightGenerator.is_type _ "improvement");
    cbn [InsightGenerator.to_list app length List.map].
  all: split; [lia|].
  all: split;
    [repeat (apply List.Forall_cons; [assumption|]); apply List.Forall_nil|].
  all: split;
    [try rewrite T1; try rewrite T2; try rewrite T3;
     repeat (apply List.NoDup_cons; [cbn [In]; intuition discriminate|]);
     apply List.NoDup_nil|].
  all: split;
    [intros Hrows; first
       [ reflexivity
       | exfalso; match goal with
                  | N : _ <> [] |- _ => exact (N Hrows)
                  | N : (10 <= length _)%nat |- _ =>
                      rewrite Hrows in N; simpl in N; lia
                  end ]|].
  all: intros i Hi Ht; cbn [In] in Hi;
    repeat match goal with
           | H : _ \/ _ |- _ => destruct H as [H|H]
           | H : False |- _ => destruct H
           | H : ?x = i |- _ => subst i
           end;
    first [ assumption
          | rewrite T1 in Ht; discriminate Ht
          | rewrite T2 in Ht; discriminate Ht ].
Qed.

(** ** Alert checks: calls, invariants, timestamps *)

Section AlertMore.

Import AlertNotification AlertSpec.

Lemma traced_bind_fst {E A B} (m : Traced E A) (k : A -> Traced E B) (a : A) :
  snd m = Ok a -> fst (m ≫= k) = fst m ++ fst (k a).
Proof.
  destruct m as [tr [x|e]]; simpl; intros H; [|discriminate].
  injection H as ->. unfold mbind, Traced_bind. now destruct (k a).
Qed.

Lemma get_configs_fst env username :
  fst (_get_user_alert_configs env username) = [QueryAlertConfigs username].
Proof. reflexivity. Qed.

Lemma spending_check_fst env txs username configs :
  fst (_check_spending_threshold_alerts env txs username configs) = [].
Proof. reflexivity. Qed.

Lemma category_check_fst env txs username configs :
  fst (_check_category_budget_alerts env txs username configs) = [].
Proof. reflexivity. Qed.

Lemma unusual_check_fst env txs username configs :
  fst (_check_unusual_spending_alerts env txs username configs)
  = if (length txs <? 10)%nat then []
    else [AnalyzeData "unusual_spending_detection"].
Proof.
  unfold _check_unusual_spending_alerts, try_except_t, unusual_spending_body.
  cbn [fst]. destruct (length txs <? 10)%nat; reflexivity.
Qed.

Lemma improvement_check_fst env txs username prefs :
  fst (_check_improvement_alerts env txs username prefs)
  = if (length txs <? 20)%nat then []
    else [AnalyzeData "spending_improvement_analysis"].
Proof.
  unfold _check_improvement_alerts, try_except_t, improvement_body.
  cbn [fst]. destruct (length txs <? 20)%nat; reflexivity.
Qed.

Lemma balance_check_fst env username configs :
  fst (_check_balance_alerts env username configs)
  = match List.filter (fun c => String.eqb (alert_type c) "low_balance") configs with
    | [] => []
    | _ => [QueryBalance username]
    end.
Proof.
  unfold _check_balance_alerts, try_except_t, balance_body. cbn [fst].
  destruct (List.filter _ configs); [reflexivity|].
  unfold emit, lift, mbind, Traced_bind, mret, Traced_ret.
  destruct (get_user_balance env username); reflexivity.
Qed.

End AlertMore.

(** X4. The calls [check_alerts] makes for a non-empty transaction
    list, in order: the configuration query; the gateway's
    unusual-spending analysis only when there are at least 10
    transactions; the balance query only when the user has a low_balance
    configuration; the gateway's improvement analysis only when there are
    at least 20 transactions. Nothing else is called. *)
Theorem check_alerts_calls (env : AlertNotification.Env) (t : Transaction)
    (ts : list Transaction) (username : string) (prefs : list Database.PrefRow) :
  let txs := t :: ts in
  let configs := try_except (AlertNotification.alert_configurations env username) [] in
  fst (AlertNotification.check_alerts env txs username prefs)
  = [AlertNotification.QueryAlertConfigs username]
    ++ (if (length txs <? 10)%nat then []
        else [AlertNotification.AnalyzeData "unusual_spending_detection"])
    ++ (match List.filter
                (fun c => String.eqb (AlertNotification.alert_type c) "low_balance")
                configs with
        | [] => []
        | _ => [AlertNotification.QueryBalance username]
        end)
    ++ (if (length txs <? 20)%nat then []
        else [AlertNotification.AnalyzeData "spending_improvement_analysis"]).
Proof.
  intros txs configs. unfold AlertNotification.check_alerts, try_except_t.
  cbn [fst]. subst txs. cbv iota.
  rewrite (traced_bind_fst _ _ _ (get_configs_snd env username)).
  rewrite get_configs_fst. fold configs. f_equal.
  unfold AlertNotification._check_spending_threshold_alerts at 1.
  erewrite traced_bind_fst by apply try_except_t_snd.
  unfold AlertNotification._check_category_budget_alerts at 1.
  erewrite traced_bind_fst by apply try_except_t_snd.
  unfold AlertNotification._check_unusual_spending_alerts at 1.
  erewrite traced_bind_fst by apply try_except_t_snd.
  unfold AlertNotification._check_balance_alerts at 1.
  erewrite traced_bind_fst by apply try_except_t_snd.
  unfold AlertNotification._check_improvement_alerts at 1.
  erewrite traced_bind_fst by apply try_except_t_snd.
  fold (AlertNotification._check_spending_threshold_alerts env (t :: ts) username configs).
  fold (AlertNotification._check_category_budget_alerts env (t :: ts) username configs).
  fold (AlertNotification._check_unusual_spending_alerts env (t :: ts) username configs).
  fold (AlertNotification._check_balance_alerts env username configs).
  fold (AlertNotification._check_improvement_alerts env (t :: ts) username prefs).
  rewrite spending_check_fst, category_check_fst, unusual_check_fst,
    balance_check_fst, improvement_check_fst.
  cbn [fst mret Traced_ret app]. now rewrite app_nil_r.
Qed.

Section ConfigAlerts.

Import AlertNotification AlertSpec AlertVocab.

Lemma flat_map_length_le {A B} (f : A -> list B) (l : list A) :
  (forall a, (length (f a) <= 1)%nat) -> (length (flat_map f l) <= length l)%nat.
Proof.
  intros Hf. induction l as [|a l IH]; [reflexivity|].
  cbn [flat_map]. rewrite length_app. specialize (Hf a). simpl. lia.
Qed.

Lemma Qgt_minus (a b : Q) : (b < a)%Q -> (0 < a - b)%Q.
Proof. intros H. unfold Qminus. now apply (proj1 (Qlt_minus_iff b a)). Qed.

Lemma of_type_in name configs c :
  In c (of_type name configs) -> In c configs /\ alert_type c = name.
Proof.
  unfold of_type. intros H. apply List.filter_In in H as [H1 H2].
  split; [exact H1|]. now apply String.eqb_eq.
Qed.

Lemma spending_alerts_eq env txs username configs :
  alerts_of (_check_spending_threshold_alerts env txs username configs)
  = flat_map (fun config =>
      let spending :=
        _calculate_spending_for_period env txs (threshold_period config) in
      if Py.Qgt_bool (inject_Z spending) (threshold_value config)
      then [spending_alert env config spending] else [])
      (of_type "spending_threshold" configs).
Proof. reflexivity. Qed.

Lemma category_alerts_eq env txs username configs :
  alerts_of (_check_category_budget_alerts env txs username configs)
  = flat_map (fun config =>
      let spending :=
        _calculate_category_spending env txs (alert_name config)
          (threshold_period config) in
      if Py.Qgt_bool (inject_Z spending) (threshold_value config)
      then [category_alert env config spending] else [])
      (of_type "category_budget" configs).
Proof. reflexivity. Qed.

Lemma balance_alerts_eq env username configs :
  alerts_of (_check_balance_alerts env username configs)
  = match get_user_balance env username with
    | Ok current_balance =>
        flat_map (fun config =>
          if Qlt_bool current_balance (threshold_value config)
          then [balance_alert env config current_balance] else [])
          (of_type "low_balance" configs)
    | Raise _ => []
    end.
Proof.
  unfold alerts_of, _check_balance_alerts, try_except_t, balance_body, of_type.
  cbn [snd]. destruct (List.filter _ configs) as [|c cs].
  - simpl. now destruct (get_user_balance env username).
  - unfold emit, lift, mbind, Traced_bind, mret, Traced_ret.
    destruct (get_user_balance env username); reflexivity.
Qed.

End ConfigAlerts.

(** X5. The three configuration-driven checks (spending threshold,
    category budget, low balance) return at most one alert per
    configuration of their own type; every alert carries the id of such a
    configuration, and the excess (or, for low balance, the deficit) it
    reports is strictly positive. *)
Theorem config_alerts_invariant (env : AlertNotification.Env)
    (txs : list Transaction) (username : string)
    (configs : list AlertNotification.AlertConfig) :
  let spending :=
    AlertVocab.alerts_of
      (AlertNotification._check_spending_threshold_alerts env txs username configs) in
  let budget :=
    AlertVocab.alerts_of
      (AlertNotification._check_category_budget_alerts env txs username configs) in
  let balance :=
    AlertVocab.alerts_of
      (AlertNotification._check_balance_alerts env username configs) in
  ((length spending <= length (AlertVocab.of_type "spending_threshold" configs))%nat
   /\ (length budget <= length (AlertVocab.of_type "category_budget" configs))%nat
   /\ (length balance <= length (AlertVocab.of_type "low_balance" configs))%nat)
  /\ (forall a, In a spending ->
        AlertNotification.type a = "spending_threshold"
        /\ (exists c, In c configs
                      /\ AlertNotification.alert_type c = "spending_threshold"
                      /\ AlertNotification.alert_config_id a
                         = Some (AlertNotification.cfg_id c))
        /\ exists e, AlertNotification.excess_of a = Some e /\ (0 < e)%Q)
  /\ (forall a, In a budget ->
        AlertNotification.type a = "category_budget"
        /\ (exists c, In c configs
                      /\ AlertNotification.alert_type c = "category_budget"
                      /\ AlertNotification.alert_config_id a
                         = Some (AlertNotification.cfg_id c))
        /\ exists e, AlertNotification.excess_of a = Some e /\ (0 < e)%Q)
  /\ (forall a, In a balance ->
        AlertNotification.type a = "low_balance"
        /\ (exists c, In c configs
                      /\ AlertNotification.alert_type c = "low_balance"
                      /\ AlertNotification.alert_config_id a
                         = Some (AlertNotification.cfg_id c))
        /\ exists d, AlertVocab.deficit_of a = Some d /\ (0 < d)%Q).
Proof.
  cbv zeta. rewrite spending_alerts_eq, category_alerts_eq, balance_alerts_eq.
  split; [|split; [|split]].
  - split; [|split].
    + apply flat_map_length_le. intros c. cbv zeta.
      destruct (Py.Qgt_bool _ _); simpl; lia.
    + apply flat_map_length_le. intros c. cbv zeta.
      destruct (Py.Qgt_bool _ _); simpl; lia.
    + destruct (AlertNotification.get_user_balance env username); [|simpl; lia].
      apply flat_map_length_le. intros c.
      destruct (AlertNotification.Qlt_bool _ _); simpl; lia.
  - intros a Ha. apply in_flat_map in Ha as [c [Hc Ha]]. cbv zeta in Ha.
    apply of_type_in in Hc as [Hc Ht].
    destruct (Py.Qgt_bool _ _) eqn:E; [|destruct Ha].
    destruct Ha as [<-|[]]. apply Qgt_bool_spec in E.
    split; [reflexivity|]. split; [exists c; auto|].
    eexists. split; [reflexivity|]. now apply Qgt_minus.
  - intros a Ha. apply in_flat_map in Ha as [c [Hc Ha]]. cbv zeta in Ha.
    apply of_type_in in Hc as [Hc Ht].
    destruct (Py.Qgt_bool _ _) eqn:E; [|destruct Ha].
    destruct Ha as [<-|[]]. apply Qgt_bool_spec in E.
    split; [reflexivity|]. split; [exists c; auto|].
    eexists. split; [reflexivity|]. now apply Qgt_minus.
  - intros a Ha.
    destruct (AlertNotification.get_user_balance env username) as [b|e];
      [|destruct Ha].
    apply in_flat_map in Ha as [c [Hc Ha]].
    apply of_type_in in Hc as [Hc Ht].
    destruct (AlertNotification.Qlt_bool _ _) eqn:E; [|destruct Ha].
    destruct Ha as [<-|[]]. apply Qlt_bool_spec in E.
    split; [reflexivity|]. split; [exists c; auto|].
    eexists. split; [reflexivity|]. now apply Qgt_minus.
Qed.

Section Unorderable.

Import AlertNotification AlertSpec AlertVocab.

Lemma unorderable_step env (start : datetime) (t : Transaction) (d : datetime) b :
  dt_utcoffset start = None -> unorderable env t ->
  trans_date env t = Ok d -> Datetime.ge d start = Ok b -> False.
Proof.
  unfold unorderable, naive_us, Datetime.ge. intros Hs Hu Hd Hge.
  rewrite Hd in Hu. rewrite Hs in Hge.
  destruct (dt_utcoffset d); discriminate.
Qed.

Lemma spending_loop_unorderable env start txs acc :
  dt_utcoffset start = None -> Exists (unorderable env) txs ->
  raises (spending_loop env start txs acc) = true.
Proof.
  intros Hs. revert acc. induction txs as [|t txs IH]; intros acc Hex.
  - inversion Hex.
  - cbn [spending_loop].
    destruct (trans_date env t) as [d|e] eqn:Hd; [|reflexivity].
    rewrite bind_ok.
    destruct (Datetime.ge d start) as [b|e] eqn:Hge; [|reflexivity].
    rewrite bind_ok. apply IH.
    inversion Hex as [? ? Hu|? ? Hrest]; subst; [|exact Hrest].
    destruct (unorderable_step env start t d b Hs Hu Hd Hge).
Qed.

Lemma category_loop_unorderable env kws start txs acc :
  dt_utcoffset start = None -> Exists (unorderable env) txs ->
  raises (category_loop env kws start txs acc) = true.
Proof.
  intros Hs. revert acc. induction txs as [|t txs IH]; intros acc Hex.
  - inversion Hex.
  - cbn [category_loop].
    destruct (trans_date env t) as [d|e] eqn:Hd; [|reflexivity].
    rewrite bind_ok.
    destruct (Datetime.ge d start) as [b|e] eqn:Hge; [|reflexivity].
    rewrite bind_ok. apply IH.
    inversion Hex as [? ? Hu|? ? Hrest]; subst; [|exact Hrest].
    destruct (unorderable_step env start t d b Hs Hu Hd Hge).
Qed.

Lemma raises_try_except {A} (m : result A) (dflt : A) :
  raises m = true -> try_except m dflt = dflt.
Proof. destruct m; [discriminate|reflexivity]. Qed.

Lemma flat_map_all_nil {A B} (f : A -> list B) (l : list A) :
  (forall a, In a l -> f a = []) -> flat_map f l = [].
Proof.
  induction l as [|a l IH]; intros H; [reflexivity|].
  cbn [flat_map]. rewrite (H a (or_introl eq_refl)), IH; [reflexivity|].
  intros b Hb. apply H. now right.
Qed.

Lemma zero_not_above (q : Q) : (0 <= q)%Q -> Py.Qgt_bool (inject_Z 0) q = false.
Proof.
  intros H. destruct (Py.Qgt_bool (inject_Z 0) q) eqn:E; [|reflexivity].
  apply Qgt_bool_spec in E. exfalso. revert E. apply Qle_not_lt. exact H.
Qed.

End Unorderable.

(** X6. With a naive clock, the period totals are all or nothing: when
    every timestamp is naive the spending total is the sum over the
    window, but a single transaction whose timestamp is missing,
    unparsable or offset-aware, anywhere in the list, makes both the
    spending total and every category total 0 for every period, so no
    spending-threshold or category-budget alert with a non-negative
    threshold is produced. *)
Theorem period_totals_all_or_nothing (env : AlertNotification.Env)
    (txs : list Transaction)
    (Hnow : dt_utcoffset (AlertNotification.now env) = None) :
  (AlertSpec.all_naive env txs ->
   forall period,
     AlertNotification._calculate_spending_for_period env txs period
     = sum_amounts (List.filter (AlertSpec.in_window env period) txs))
  /\ (Exists (AlertVocab.unorderable env) txs ->
      (forall period,
         AlertNotification._calculate_spending_for_period env txs period = 0)
      /\ (forall category period,
            AlertNotification._calculate_category_spending env txs category period
            = 0)
      /\ (forall username configs,
            Forall (fun c => (0 <= AlertNotification.threshold_value c)%Q) configs ->
            AlertVocab.alerts_of
              (AlertNotification._check_spending_threshold_alerts
                 env txs username configs) = []
            /\ AlertVocab.alerts_of
                 (AlertNotification._check_category_budget_alerts
                    env txs username configs) = [])).
Proof.
  split.
  - intros Hall period. now apply calculate_spending_naive.
  - intros Hex.
    assert (Hs : forall period,
      AlertNotification._calculate_spending_for_period env txs period = 0).
    { intros period. unfold AlertNotification._calculate_spending_for_period.
      apply raises_try_except, spending_loop_unorderable; [|exact Hex].
      now rewrite period_start_offset. }
    assert (Hc : forall category period,
      AlertNotification._calculate_category_spending env txs category period = 0).
    { intros category period.
      unfold AlertNotification._calculate_category_spending.
      apply raises_try_except, category_loop_unorderable; [|exact Hex].
      now rewrite period_start_offset. }
    split; [exact Hs|]. split; [exact Hc|].
    intros username configs Hth.
    rewrite spending_alerts_eq, category_alerts_eq.
    split; apply flat_map_all_nil; intros c Hin; cbv zeta;
      apply of_type_in in Hin as [Hin _];
      pose proof (proj1 (List.Forall_forall _ _) Hth c Hin) as H0; cbv beta in H0.
    + rewrite Hs, zero_not_above; [reflexivity|exact H0].
    + rewrite Hc, zero_not_above; [reflexivity|exact H0].
Qed.

Lemma period_totals_all_or_nothing_witness :
  let env := Scenario.env [Scenario.daily_limit] (Ok 0%Q) in
  AlertNotification._calculate_spending_for_period env Scenario.today_naive "daily"
  = 150
  /\ Exists (AlertVocab.unorderable env) Scenario.today_utc
  /\ AlertNotification._calculate_spending_for_period env Scenario.today_utc "daily"
     = 0
  /\ AlertVocab.alerts_of
       (AlertNotification._check_spending_threshold_alerts env Scenario.today_utc
          "alice" [Scenario.daily_limit]) = [].
Proof.
  cbv zeta.
  pose proof (period_totals_all_or_nothing
                (Scenario.env [Scenario.daily_limit] (Ok 0%Q))
                Scenario.today_naive eq_refl) as [Hn _].
  pose proof (period_totals_all_or_nothing
                (Scenario.env [Scenario.daily_limit] (Ok 0%Q))
                Scenario.today_utc eq_refl) as [_ Hu].
  assert (Hex : Exists
            (AlertVocab.unorderable (Scenario.env [Scenario.daily_limit] (Ok 0%Q)))
            Scenario.today_utc).
  { apply Exists_cons_hd. vm_compute. reflexivity. }
  destruct (Hu Hex) as [Hs [_ Ha]].
  split; [|split; [exact Hex|split]].
  - rewrite Hn; [vm_compute; reflexivity|].
    repeat constructor; vm_compute; eexists; reflexivity.
  - exact (Hs "daily").
  - refine (proj1 (Ha "alice" [Scenario.daily_limit] _)).
    repeat constructor. vm_compute. discriminate.
Defined.

Section GatewayPatterns.

Import AlertNotification AlertSpec AlertVocab.

Lemma map_result_ok {A B} (f : A -> result B) (g : A -> B) (l : list A) :
  (forall a, In a l -> f a = Ok (g a)) -> map_result f l = Ok (List.map g l).
Proof.
  induction l as [|a l IH]; intros H; [reflexivity|].
  cbn [map_result List.map].
  rewrite (H a (or_introl eq_refl)), bind_ok, IH; [reflexivity|].
  intros b Hb. apply H. now right.
Qed.

Lemma map_result_raises {A B} (f : A -> result B) (l : list A) :
  Exists (fun a => raises (f a) = true) l -> raises (map_result f l) = true.
Proof.
  induction l as [|a l IH]; intros H; [inversion H|].
  cbn [map_result]. destruct (f a) as [b|e] eqn:Ha; [|reflexivity].
  rewrite bind_ok.
  inversion H as [? ? Hh|? ? Ht]; subst.
  - rewrite Ha in Hh. discriminate.
  - specialize (IH Ht). destruct (map_result f l); [discriminate|reflexivity].
Qed.

Lemma not_all_dicts (items : list Value) :
  forallb is_dict items = false -> Exists (fun v => is_dict v = false) items.
Proof.
  induction items as [|v items IH]; [discriminate|].
  cbn [forallb]. destruct (is_dict v) eqn:E.
  - intros H. apply Exists_cons_tl, IH, H.
  - intros _. now apply Exists_cons_hd.
Qed.

Lemma all_dicts (items : list Value) (v : Value) :
  forallb is_dict items = true -> In v items -> is_dict v = true.
Proof. intros H Hin. exact (proj1 (forallb_forall _ _) H v Hin). Qed.

Lemma has_key_truthy (r : dict) (k : string) (v : Value) :
  r !! k = Some v -> Py.dict_truthy r = true.
Proof.
  intros H. unfold Py.dict_truthy. apply negb_true_iff, bool_decide_eq_false.
  intros ->. rewrite lookup_empty in H. discriminate.
Qed.

Lemma concat_singletons {A B} (p : A -> bool) (g : A -> B) (l : list A) :
  concat (List.map (fun a => if p a then [g a] else []) l)
  = List.map g (List.filter p l).
Proof.
  induction l as [|a l IH]; [reflexivity|].
  cbn [List.map concat List.filter]. rewrite IH. now destruct (p a).
Qed.

End GatewayPatterns.

(** X7. With ten or more transactions and a gateway answer whose
    [unusual_patterns] entry iterates over [items], the unusual-spending
    check asks the gateway once and returns exactly one alert per item, in
    order, with the item's description and data (or their defaults) when
    every item is a dictionary; a single item that is not a dictionary
    discards all of them. *)
Theorem unusual_alerts_spec (env : AlertNotification.Env)
    (txs : list Transaction) (username : string)
    (configs : list AlertNotification.AlertConfig)
    (answer : dict) (patterns : Value) (items : list Value)
    (Hlen : (10 <= length txs)%nat)
    (Hanswer : AlertNotification.analyze_data env txs "unusual_spending_detection"
                 ("Detect unusual spending patterns for user " +:+ username)
               = Some answer)
    (Hkey : answer !! "unusual_patterns" = Some patterns)
    (Hitems : Py.iter patterns = Ok items) :
  let check :=
    AlertNotification._check_unusual_spending_alerts env txs username configs in
  fst check = [AlertNotification.AnalyzeData "unusual_spending_detection"]
  /\ (forallb AlertVocab.is_dict items = true ->
      snd check = Ok (List.map AlertVocab.unusual_alert items))
  /\ (forallb AlertVocab.is_dict items = false -> snd check = Ok []).
Proof.
  cbv zeta.
  unfold AlertNotification._check_unusual_spending_alerts, try_except_t,
    AlertNotification.unusual_spending_body.
  destruct (length txs <? 10)%nat eqn:E; [apply Nat.ltb_lt in E; lia|].
  unfold AlertNotification._detect_unusual_patterns.
  rewrite Hanswer, (has_key_truthy _ _ _ Hkey), Hkey, Hitems, bind_ok.
  split; [reflexivity|]. split.
  - intros Hall.
    rewrite (map_result_ok _
      (fun item =>
         {| AlertNotification.pattern_description :=
              AlertVocab.field "description"
                (VStr "Unusual spending pattern detected") item;
            AlertNotification.pattern_data :=
              AlertVocab.field "data" (VDict []) item |})).
    + cbn. rewrite List.map_map. reflexivity.
    + intros v Hv. pose proof (all_dicts _ _ Hall Hv) as Hd.
      destruct v; try discriminate. reflexivity.
  - intros Hnot.
    match goal with
    | |- context [AlertNotification.map_result ?f items] =>
        pose proof (map_result_raises f items) as Hr
    end.
    match type of Hr with
    | ?P -> _ => assert (Hp : P)
    end.
    { eapply List.Exists_impl; [|exact (not_all_dicts _ Hnot)].
      intros v Hv. destruct v; try discriminate; reflexivity. }
    specialize (Hr Hp).
    destruct (AlertNotification.map_result _ items); [discriminate|reflexivity].
Qed.

Lemma unusual_alerts_spec_witness :
  snd (AlertNotification._check_unusual_spending_alerts GatewayScenario.env
         Scenario.ten_transactions "alice" [])
  = Ok [AlertVocab.unusual_alert GatewayScenario.weekend_pattern;
        AlertVocab.unusual_alert GatewayScenario.bare_pattern].
Proof.
  apply (unusual_alerts_spec GatewayScenario.env Scenario.ten_transactions
           "alice" [] GatewayScenario.answer
           (VList [GatewayScenario.weekend_pattern; GatewayScenario.bare_pattern])
           [GatewayScenario.weekend_pattern; GatewayScenario.bare_pattern]).
  - simpl. lia.
  - reflexivity.
  - apply lookup_insert_eq.
  - reflexivity.
  - reflexivity.
Defined.

(** X8. With twenty or more transactions and a gateway answer whose
    [improvements] entry iterates over [items], the improvement check asks
    the gateway once and returns exactly one alert for each item whose
    [is_positive] entry is truthy, in order, and none for the others; a
    single item that is not a dictionary discards all of them. *)
Theorem improvement_alerts_spec (env : AlertNotification.Env)
    (txs : list Transaction) (username : string)
    (prefs : list Database.PrefRow)
    (answer : dict) (improvements : Value) (items : list Value)
    (Hlen : (20 <= length txs)%nat)
    (Hanswer : AlertNotification.analyze_data env txs "spending_improvement_analysis"
                 ("Analyze spending improvements for user " +:+ username)
               = Some answer)
    (Hkey : answer !! "improvements" = Some improvements)
    (Hitems : Py.iter improvements = Ok items) :
  let check :=
    AlertNotification._check_improvement_alerts env txs username prefs in
  fst check = [AlertNotification.AnalyzeData "spending_improvement_analysis"]
  /\ (forallb AlertVocab.is_dict items = true ->
      snd check
      = Ok (List.map AlertVocab.improvement_alert
              (List.filter AlertVocab.is_positive items)))
  /\ (forallb AlertVocab.is_dict items = false -> snd check = Ok []).
Proof.
  cbv zeta.
  unfold AlertNotification._check_improvement_alerts, try_except_t,
    AlertNotification.improvement_body.
  destruct (length txs <? 20)%nat eqn:E; [apply Nat.ltb_lt in E; lia|].
  unfold AlertNotification._analyze_spending_improvements.
  rewrite Hanswer, (has_key_truthy _ _ _ Hkey), Hkey, Hitems, bind_ok.
  split; [reflexivity|]. split.
  - intros Hall.
    rewrite (map_result_ok _
      (fun item =>
         if AlertVocab.is_positive item
         then [{| AlertNotification.pattern_description :=
                    AlertVocab.field "description"
                      (VStr "Positive spending improvement detected") item;
                  AlertNotification.pattern_data :=
                    AlertVocab.field "data" (VDict []) item |}]
         else [])).
    + rewrite bind_ok, concat_singletons. cbn. rewrite List.map_map. reflexivity.
    + intros v Hv. pose proof (all_dicts _ _ Hall Hv) as Hd.
      destruct v; try discriminate. cbn [Py.get]. rewrite bind_ok.
      unfold AlertVocab.is_positive. cbn [AlertVocab.field].
      destruct (Py.truthy _); reflexivity.
  - intros Hnot.
    match goal with
    | |- context [AlertNotification.map_result ?f items] =>
        pose proof (map_result_raises f items) as Hr
    end.
    match type of Hr with
    | ?P -> _ => assert (Hp : P)
    end.
    { eapply List.Exists_impl; [|exact (not_all_dicts _ Hnot)].
      intros v Hv. destruct v; try discriminate; reflexivity. }
    specialize (Hr Hp).
    destruct (AlertNotification.map_result _ items); [discriminate|reflexivity].
Qed.

Lemma improvement_alerts_spec_witness :
  snd (AlertNotification._check_improvement_alerts GatewayScenario.env
         GatewayScenario.twenty_transactions "alice" [])
  = Ok [AlertVocab.improvement_alert GatewayScenario.saved].
Proof.
  apply (improvement_alerts_spec GatewayScenario.env
           GatewayScenario.twenty_transactions "alice" [] GatewayScenario.answer
           (VList [GatewayScenario.saved; GatewayScenario.worse;
                   GatewayScenario.bare_pattern])
           [GatewayScenario.saved; GatewayScenario.worse;
            GatewayScenario.bare_pattern]).
  - simpl. lia.
  - reflexivity.
  - unfold GatewayScenario.answer.
    rewrite lookup_insert_ne; [apply lookup_insert_eq|discriminate].
  - reflexivity.
  - reflexivity.
Defined.

Section TableFacts.

Import Database UserPreference TableSpec.

(** A table with the same committed rows and a sequence that has not gone
    back is still well formed. *)
Lemma well_formed_frame db db' :
  well_formed db -> user_preferences db' = user_preferences db ->
  next_id db <= next_id db' -> well_formed db'.
Proof.
  intros [H1 H2 H3 H4] Hrows Hseq. constructor; rewrite ?Hrows.
  - lia.
  - exact H2.
  - eapply List.Forall_impl; [|exact H3]. intros r Hr. cbv beta in *. lia.
  - exact H4.
Qed.

Variable fails : nat -> bool.
Variable valid_json : string -> bool.

Lemma fresh_frame u db db' p :
  user_preferences db' = user_preferences db ->
  fresh valid_json u db p -> fresh valid_json u db' p.
Proof. unfold fresh. now intros ->. Qed.

(** A run of upserts never changes a committed row, and completes only
    when every upsert is an insert that the column takes. *)
Lemma run_upserts_frame u ups n db :
  let out := run_upserts fails valid_json u ups n db in
  user_preferences (snd out) = user_preferences db
  /\ next_id db <= next_id (snd out) <= next_id db + Z.of_nat (length ups)
  /\ (statements db <= statements (snd out) <= statements db + 2 * length ups)%nat
  /\ (forall m, fst out = Ok m ->
        Forall (fresh valid_json u db) ups
        /\ next_id (snd out) = next_id db + Z.of_nat (length ups)
        /\ statements (snd out) = (statements db + 2 * length ups)%nat
        /\ (n <= m <= n + length ups)%nat
        /\ (0 < next_id db -> m = (n + length ups)%nat)).
Proof.
  revert n db. induction ups as [|[[t k] v] ups IH]; intros n db; cbv zeta.
  - cbn [run_upserts fst snd length]. unfold mret, DB_ret. cbn [fst snd].
    split; [reflexivity|]. split; [lia|]. split; [lia|].
    intros m Hm. injection Hm as <-. split; [constructor|]. repeat split; lia.
  - cbn [run_upserts]. unfold mbind, DB_bind.
    pose proof (save_frame fails valid_json u t k v db) as Hs. cbv zeta in Hs.
    destruct (save_user_preference fails valid_json u t k v db) as [[i|e] db1];
      cbn [fst snd] in Hs; destruct Hs as [Hrows [Hst [Hseq [_ Hok]]]].
    + destruct (Hok i eq_refl) as [Hnone [Hjson [Hi [Hseq1 Hst1]]]].
      pose proof (IH (if id_truthy i then S n else n) db1) as IH1.
      cbv zeta in IH1. destruct IH1 as [Hrows2 [Hseq2 [Hst2 Hok2]]].
      split; [now rewrite Hrows2|]. cbn [length].
      split; [lia|]. split; [lia|].
      intros m Hm. destruct (Hok2 m Hm) as [Hall [Hseq3 [Hst3 [Hm1 Hm2]]]].
      split.
      { constructor; [now split|].
        eapply List.Forall_impl; [|exact Hall].
        intros p. apply fresh_frame. now symmetry. }
      split; [lia|]. split; [lia|]. split; [destruct (id_truthy i); lia|].
      intros Hpos.
      assert (Htruthy : id_truthy i = true).
      { subst i. cbn [id_truthy]. apply negb_true_iff, Z.eqb_neq. lia. }
      rewrite Htruthy in Hm2. lia.
    + cbn [fst snd length]. split; [exact Hrows|]. split; [lia|]. split; [lia|].
      discriminate.
Qed.

Lemma run_upserts_completes u ups n db :
  (forall s, fails s = false) -> Forall (fresh valid_json u db) ups ->
  exists m db', run_upserts fails valid_json u ups n db = (Ok m, db').
Proof.
  intros Hnf. revert n db. induction ups as [|[[t k] v] ups IH]; intros n db Hall.
  - cbn. eauto.
  - apply List.Forall_cons_iff in Hall as [[Hnone Hjson] Hall].
    cbn [fst snd] in Hnone, Hjson.
    cbn [run_upserts]. unfold mbind, DB_bind.
    rewrite (save_user_preference_total fails valid_json u t k v db
               (Hnf _) (Hnf _) Hnone Hjson).
    apply IH. eapply List.Forall_impl; [|exact Hall].
    intros p. apply fresh_frame. reflexivity.
Qed.

Lemma update_preferences_frame u prefs db :
  let ups := upserts_of prefs in
  let out := update_preferences fails valid_json u prefs db in
  user_preferences (snd out) = user_preferences db
  /\ next_id db <= next_id (snd out) <= next_id db + Z.of_nat (length ups)
  /\ (statements db <= statements (snd out) <= statements db + 2 * length ups)%nat.
Proof.
  cbv zeta. unfold update_preferences. rewrite save_all_run.
  destruct (run_upserts_frame u (upserts_of prefs) 0%nat db) as [H1 [H2 [H3 _]]].
  destruct (run_upserts fails valid_json u (upserts_of prefs) 0%nat db)
    as [[m|e] db']; cbn [fst snd] in *; repeat split; tauto.
Qed.

End TableFacts.

Lemma empty_accounts_well_formed : TableSpec.well_formed Database.empty_accounts.
Proof.
  constructor; cbn.
  - lia.
  - constructor.
  - constructor.
  - intros. lia.
Qed.

(** X9. [save_user_preference] never changes a committed row: it sends
    one or two statements and draws at most one id. For a key that has a
    record it always raises (the update returns no rows to read). It
    returns only for a key without a record and a value that the column
    takes, after two statements, and then with the id it drew, although
    the row is rolled back with the uncommitted transaction. A well-formed
    table stays well formed. *)
Theorem save_user_preference_rolled_back (fails : nat -> bool)
    (valid_json : string -> bool) (u t k : string) (v : Value)
    (db : Database.Accounts) :
  let out := Database.save_user_preference fails valid_json u t k v db in
  let records :=
    List.filter (Database.matches u t k) (Database.user_preferences db) in
  Database.user_preferences (snd out) = Database.user_preferences db
  /\ (Database.statements db < Database.statements (snd out)
      <= Database.statements db + 2)%nat
  /\ Database.next_id db <= Database.next_id (snd out) <= Database.next_id db + 1
  /\ (records <> [] -> raises (fst out) = true)
  /\ (forall i, fst out = Ok i ->
        records = []
        /\ Database.bind_jsonb valid_json v = Database.Json
        /\ i = Some (Database.next_id db)
        /\ Database.next_id (snd out) = Database.next_id db + 1
        /\ Database.statements (snd out) = (Database.statements db + 2)%nat)
  /\ (TableSpec.well_formed db -> TableSpec.well_formed (snd out)).
Proof.
  cbv zeta.
  destruct (save_frame fails valid_json u t k v db) as [H1 [H2 [H3 [H4 H5]]]].
  split; [exact H1|]. split; [exact H2|]. split; [exact H3|].
  split; [exact H4|]. split; [exact H5|].
  intros Hwf. apply (well_formed_frame db); [exact Hwf | exact H1 | lia].
Qed.

(** X10. [update_preferences] never changes a committed row and sends at
    most two statements per upsert. It returns true only when there is an
    upsert and every upsert is an insert, for a key without a record, of a
    value that the column takes; then one id is drawn per upsert and the
    keys still have no record. With a positive sequence and no failing
    statement it returns true in every such case. *)
Theorem update_preferences_rolled_back (fails : nat -> bool)
    (valid_json : string -> bool) (u : string) (prefs : list (string * Value))
    (db : Database.Accounts) :
  let ups := UserPreference.upserts_of prefs in
  let out := UserPreference.update_preferences fails valid_json u prefs db in
  Database.user_preferences (snd out) = Database.user_preferences db
  /\ (Database.statements (snd out) <= Database.statements db + 2 * length ups)%nat
  /\ (fst out = true ->
      ups <> []
      /\ Forall (TableSpec.fresh valid_json u db) ups
      /\ Forall (TableSpec.fresh valid_json u (snd out)) ups
      /\ Database.next_id (snd out) = Database.next_id db + Z.of_nat (length ups))
  /\ ((forall n, fails n = false) -> 0 < Database.next_id db ->
      ups <> [] -> Forall (TableSpec.fresh valid_json u db) ups ->
      fst out = true).
Proof.
  cbv zeta.
  destruct (update_preferences_frame fails valid_json u prefs db) as [H1 [_ H3]].
  split; [exact H1|]. split; [lia|].
  revert H1. unfold UserPreference.update_preferences. rewrite save_all_run.
  pose proof (run_upserts_frame fails valid_json u
                (UserPreference.upserts_of prefs) 0%nat db) as H.
  cbv zeta in H. destruct H as [_ [_ [_ Hok]]].
  pose proof (run_upserts_completes fails valid_json u
                (UserPreference.upserts_of prefs) 0%nat db) as Hc.
  destruct (UserPreference.run_upserts fails valid_json u
              (UserPreference.upserts_of prefs) 0%nat db) as [[m|e] db'];
    cbn [fst snd]; intros Hrows.
  - destruct (Hok m eq_refl) as [Hall [Hseq [_ [Hm1 Hm2]]]]. split.
    + intros Hm. apply Nat.ltb_lt in Hm. split.
      { intros E. rewrite E in Hm1. cbn [length] in Hm1. lia. }
      split; [exact Hall|]. split; [|exact Hseq].
      eapply List.Forall_impl; [|exact Hall].
      intros p. now apply fresh_frame.
    + intros _ Hpos Hne _. apply Nat.ltb_lt. rewrite (Hm2 Hpos).
      destruct (UserPreference.upserts_of prefs); [now destruct Hne|cbn; lia].
  - split; [discriminate|]. intros Hnf _ _ Hall.
    destruct (Hc Hnf Hall) as [m [db'' Hm]]. discriminate Hm.
Qed.

(** A record that exists is never updated: the upsert raises at the
    update and the record keeps its value. And "dark" is not JSON: the
    insert raises and no id is drawn. *)
Example save_user_preference_raises :
  let row :=
    {| Database.id := 1; Database.username := "alice";
       Database.preference_type := "display";
       Database.preference_key := "font_size";
       Database.preference_value := VInt 12 |} in
  Database.save_user_preference (fun _ => false) Scenario.valid_json
    "alice" "display" "font_size" (VStr "14")
    {| Database.user_preferences := [row]; Database.next_id := 2;
       Database.statements := 0 |}
  = (Raise SQLAlchemyError,
     {| Database.user_preferences := [row]; Database.next_id := 2;
        Database.statements := 2 |})
  /\ Database.save_user_preference (fun _ => false) Scenario.valid_json
       "alice" "display" "theme" (VStr "dark") Database.empty_accounts
     = (Raise SQLAlchemyError,
        {| Database.user_preferences := []; Database.next_id := 1;
           Database.statements := 2 |}).
Proof. split; reflexivity. Qed.

(** X11. The answer of [process_user_query] tells how far the workflow
    went: "could not understand" means only the understanding stage ran,
    "could not generate" the first three, "no data" the first four; a
    success means every stage ran, visualization included exactly when the
    intent asks for it; and the generic error means the stages that ran
    are a non-empty prefix of a complete run. There is always an answer. *)
Theorem process_user_query_stages (agents : Orchestrator.Agents)
    (username query : string) :
  let out := Orchestrator.process_user_query agents username query in
  exists resp,
    snd out = Ok resp
    /\ ((resp = Orchestrator.failure WorkflowSpec.not_understood
         /\ fst out = [Orchestrator.UnderstandQuery])
        \/ (resp = Orchestrator.failure Orchestrator.no_sql_message
            /\ fst out = [Orchestrator.UnderstandQuery;
                          Orchestrator.GetUserPreferences;
                          Orchestrator.GenerateSql])
        \/ (resp = Orchestrator.failure WorkflowSpec.no_data
            /\ fst out = [Orchestrator.UnderstandQuery;
                          Orchestrator.GetUserPreferences;
                          Orchestrator.GenerateSql; Orchestrator.ExecuteQuery])
        \/ (resp = Orchestrator.failure WorkflowSpec.generic_error
            /\ fst out <> []
            /\ exists b rest, fst out ++ rest = WorkflowSpec.pipeline b)
        \/ (resp !! "success" = Some (Orchestrator.FBool true)
            /\ exists intent,
                 resp !! "query_intent" = Some (Orchestrator.FIntent intent)
                 /\ fst out
                    = WorkflowSpec.pipeline (WorkflowSpec.wants_visualization intent))).
Proof.
  cbv zeta. unfold Orchestrator.process_user_query.
  rewrite try_except_t_snd. eexists. split; [reflexivity|].
  unfold try_except_t. cbn [fst].
  destruct (Orchestrator.understand_query agents query) as [i|e];
    [rewrite call_bind
    |rewrite call_bind_raise; right; right; right; left;
     split; [reflexivity|]; split; [discriminate|];
     exists false; eexists; reflexivity].
  cbn [fst snd].
  destruct (Orchestrator.intent_truthy i) as [intent|];
    [|left; split; reflexivity].
  destruct (Orchestrator.get_user_preferences agents username) as [prefs|e];
    [rewrite call_bind
    |rewrite call_bind_raise; right; right; right; left;
     split; [reflexivity|]; split; [discriminate|];
     exists false; eexists; reflexivity].
  cbn [fst snd].
  destruct (Orchestrator.generate_sql_query agents intent username prefs) as [sql|e];
    [rewrite call_bind
    |rewrite call_bind_raise; right; right; right; left;
     split; [reflexivity|]; split; [discriminate|];
     exists false; eexists; reflexivity].
  cbn [fst snd].
  destruct (Orchestrator.sql_truthy sql) as [q|];
    [|right; left; split; reflexivity].
  destruct (Orchestrator.execute_query agents q username) as [rows|e];
    [rewrite call_bind
    |rewrite call_bind_raise; right; right; right; left;
     split; [reflexivity|]; split; [discriminate|];
     exists false; eexists; reflexivity].
  cbn [fst snd].
  destruct rows as [|r rows]; [right; right; left; split; reflexivity|].
  destruct (Orchestrator.generate_insights agents (r :: rows) intent username prefs)
    as [ins|e];
    [rewrite call_bind
    |rewrite call_bind_raise; right; right; right; left;
     split; [reflexivity|]; split; [discriminate|];
     exists false; eexists; reflexivity].
  cbn [fst snd].
  fold (WorkflowSpec.wants_visualization intent).
  destruct (WorkflowSpec.wants_visualization intent) eqn:Ev.
  - destruct (Orchestrator.create_visualizations agents (r :: rows) ins intent)
      as [vis|e];
      [rewrite call_bind
      |rewrite call_bind_raise; right; right; right; left;
       split; [reflexivity|]; split; [discriminate|];
       exists true; eexists; reflexivity].
    cbn [fst snd].
    destruct (Orchestrator.log_interaction agents username "query_processed" _)
      as [l|e];
      [rewrite call_bind
      |rewrite call_bind_raise; right; right; right; left;
       split; [reflexivity|]; split; [discriminate|];
       exists true; exists []; reflexivity].
    right; right; right; right. split; [reflexivity|].
    exists intent. rewrite Ev. split; reflexivity.
  - unfold mbind at 1, Traced_bind at 1, mret at 1, Traced_ret at 1.
    destruct (Orchestrator.log_interaction agents username "query_processed" _)
      as [l|e];
      [rewrite call_bind
      |rewrite call_bind_raise; right; right; right; left;
       split; [reflexivity|]; split; [discriminate|];
       exists false; exists []; reflexivity].
    right; right; right; right. split; [reflexivity|].
    exists intent. rewrite Ev. split; reflexivity.
Qed.

(** X12. When every stage up to insight generation answers and the query
    returns rows, [process_user_query] echoes the intent, the rows and the
    insights; the chart agent is called exactly when the intent asks for a
    visualization (the list is empty otherwise); and the answer is a
    success only if the logging call returns: when logging raises, the
    computed answer is replaced by the generic error. *)
Theorem process_user_query_complete (agents : Orchestrator.Agents)
    (username query : string) (intent : dict) (prefs : list Database.PrefRow)
    (sql : string) (row : Transaction) (rows : list Transaction)
    (insights : list InsightGenerator.Insight) (logged : result (option Z))
    (Hintent : Orchestrator.understand_query agents query = Ok (Some intent))
    (Htruthy : Py.dict_truthy intent = true)
    (Hprefs : Orchestrator.get_user_preferences agents username = Ok prefs)
    (Hsql : Orchestrator.generate_sql_query agents intent username prefs
            = Ok (Some sql))
    (Hnonempty : PyStr.truthy sql = true)
    (Hrows : Orchestrator.execute_query agents sql username = Ok (row :: rows))
    (Hinsights : Orchestrator.generate_insights agents (row :: rows) intent
                   username prefs = Ok insights)
    (Hlogged : Orchestrator.log_interaction agents username "query_processed"
                 (query, intent, length insights) = logged) :
  (WorkflowSpec.wants_visualization intent = false ->
   Orchestrator.process_user_query agents username query
   = (WorkflowSpec.pipeline false,
      Ok (WorkflowSpec.answer agents intent (row :: rows) insights [] logged)))
  /\ (forall visualizations,
        WorkflowSpec.wants_visualization intent = true ->
        Orchestrator.create_visualizations agents (row :: rows) insights intent
        = Ok visualizations ->
        Orchestrator.process_user_query agents username query
        = (WorkflowSpec.pipeline true,
           Ok (WorkflowSpec.answer agents intent (row :: rows) insights
                 visualizations logged))).
Proof.
  split.
  - intros Hv. unfold Orchestrator.process_user_query.
    rewrite Hintent, call_bind. unfold Orchestrator.intent_truthy.
    rewrite Htruthy, Hprefs, call_bind, Hsql, call_bind.
    unfold Orchestrator.sql_truthy. rewrite Hnonempty, Hrows, call_bind.
    rewrite Hinsights, call_bind.
    fold (WorkflowSpec.wants_visualization intent). rewrite Hv, Hlogged.
    destruct logged; reflexivity.
  - intros vis Hv Hvis. unfold Orchestrator.process_user_query.
    rewrite Hintent, call_bind. unfold Orchestrator.intent_truthy.
    rewrite Htruthy, Hprefs, call_bind, Hsql, call_bind.
    unfold Orchestrator.sql_truthy. rewrite Hnonempty, Hrows, call_bind.
    rewrite Hinsights, call_bind.
    fold (WorkflowSpec.wants_visualization intent). rewrite Hv, Hvis, call_bind, Hlogged.
    destruct logged; reflexivity.
Qed.

Lemma process_user_query_complete_witness :
  let intent : dict := {[ "analysis_type" := VStr "general" ]} in
  let agents := WorkflowSpec.agents_ok intent Scenario.ten_transactions in
  Orchestrator.process_user_query agents "alice" "How much did I spend?"
  = (WorkflowSpec.pipeline false,
     Ok (WorkflowSpec.answer agents intent Scenario.ten_transactions [] []
           (Ok (Some 1)))).
Proof.
  cbv zeta.
  refine (proj1 (process_user_query_complete
    (WorkflowSpec.agents_ok {[ "analysis_type" := VStr "general" ]}
       Scenario.ten_transactions)
    "alice" "How much did I spend?" {[ "analysis_type" := VStr "general" ]} []
    "SELECT amount FROM transactions"
    (mk_tx (Some 30) None None)
    (List.map (fun a => mk_tx (Some a) None None) [50; 40; 20; 60; 100; 150; 50; 90; 110])
    [] (Ok (Some 1)) eq_refl _ eq_refl eq_refl eq_refl eq_refl eq_refl eq_refl) _).
  - vm_compute. reflexivity.
  - vm_compute. reflexivity.
Defined.

(** ** Query understanding *)

Section PeriodFacts.

Import QueryUnderstanding TimePeriods.

Lemma first_period_some pats q p :
  first_period pats q = Some p ->
  exists phrase d, In (phrase, d) pats /\ PyStr.contains phrase q = true
                   /\ p = PyStr.replace1 " " "_" phrase.
Proof.
  induction pats as [|[phrase d] pats IH]; [discriminate|].
  cbn [first_period]. destruct (PyStr.contains phrase q) eqn:E.
  - intros H. injection H as <-. exists phrase, d. split; [now left|]. now split.
  - intros H. destruct (IH H) as [ph [d' [Hin Hrest]]].
    exists ph, d'. split; [now right|exact Hrest].
Qed.

Lemma first_period_none pats q :
  first_period pats q = None ->
  forall phrase d, In (phrase, d) pats -> PyStr.contains phrase q = false.
Proof.
  induction pats as [|[phrase d] pats IH]; [intros _ ? ? []|].
  cbn [first_period]. destruct (PyStr.contains phrase q) eqn:E; [discriminate|].
  intros H ph d' [Heq|Hin].
  - injection Heq as <- <-. exact E.
  - exact (IH H ph d' Hin).
Qed.

Lemma pattern_days phrase d :
  In (phrase, d) time_patterns ->
  get_time_period_days (PyStr.replace1 " " "_" phrase) = Z.max 1 d.
Proof.
  intros H. repeat (destruct H as [H|H]; [injection H as <- <-; reflexivity|]).
  destruct H.
Qed.

End PeriodFacts.

(** X13. Without a gateway answer the time period of a query is always
    one that [get_time_period_days] knows: either the query contains a
    phrase of the pattern table and the number of days is the one listed
    for that phrase (1 instead of 0 for "today"), or it contains none and
    the period is this_month with 30 days; the window of
    [get_time_period_dates] ends now and is that many days long, at least
    one. *)
Theorem fallback_period_days (query : string) (now_ : datetime) :
  exists period,
    QueryUnderstanding._extract_time_period query None = VStr period
    /\ ((exists phrase d,
           In (phrase, d) QueryUnderstanding.time_patterns
           /\ PyStr.contains phrase query = true
           /\ period = PyStr.replace1 " " "_" phrase
           /\ TimePeriods.get_time_period_days period = Z.max 1 d)
        \/ ((forall phrase d, In (phrase, d) QueryUnderstanding.time_patterns ->
                              PyStr.contains phrase query = false)
            /\ period = "this_month"
            /\ TimePeriods.get_time_period_days period = 30))
    /\ 1 <= TimePeriods.get_time_period_days period <= 730
    /\ (let '(start_date, end_date) :=
          TimePeriods.get_time_period_dates now_ period in
        end_date = now_
        /\ dt_us end_date - dt_us start_date
           = TimePeriods.get_time_period_days period * Datetime.day_us
        /\ dt_utcoffset start_date = dt_utcoffset now_).
Proof.
  unfold QueryUnderstanding._extract_time_period. cbn [QueryUnderstanding.ai_field].
  destruct (QueryUnderstanding.first_period QueryUnderstanding.time_patterns query)
    as [p|] eqn:E.
  - destruct (first_period_some _ _ _ E) as [phrase [d [Hin [Hc Hp]]]].
    exists p. cbn [default]. split; [reflexivity|].
    pose proof (pattern_days phrase d Hin) as Hd. rewrite <- Hp in Hd.
    split; [left; exists phrase, d; auto|].
    split.
    + rewrite Hd. clear - Hin.
      repeat (destruct Hin as [Hin|Hin]; [injection Hin as <- <-; simpl; lia|]).
      destruct Hin.
    + unfold TimePeriods.get_time_period_dates. cbv zeta.
      split; [reflexivity|]. split; [cbn [Datetime.minus_days dt_us]; lia|reflexivity].
  - exists "this_month". cbn [default]. split; [reflexivity|].
    split; [right; split; [exact (first_period_none _ _ E)|split; reflexivity]|].
    split; [cbn; lia|].
    unfold TimePeriods.get_time_period_dates. cbv zeta.
    split; [reflexivity|]. split; [cbn [Datetime.minus_days dt_us]; lia|reflexivity].
Qed.

Section IntentFacts.

Import QueryUnderstanding.

Lemma ai_field_some (ai : dict) (key : string) (v : Value) :
  ai !! key = Some v -> ai_field (Some ai) key = Some v.
Proof.
  intros H. unfold ai_field. now rewrite (has_key_truthy _ _ _ H).
Qed.

End IntentFacts.

(** X14. [understand_query] always returns an intent, whatever the
    gateway does: it has exactly the seven keys, keeps the query text as
    typed, takes each of the five gateway fields from the gateway answer
    whenever the answer has it (whatever its value) and uses 0.8 as the
    confidence when the answer has none; and the orchestrator's test
    [if not query_intent] never rejects it. *)
Theorem understand_query_total (gateway : string -> result (option dict))
    (query : string) :
  exists intent : dict,
    QueryUnderstanding.understand_query gateway query = Some intent
    /\ Orchestrator.intent_truthy (Some intent) = Some intent
    /\ (forall key, is_Some (intent !! key) <-> In key IntentSpec.intent_keys)
    /\ intent !! "original_query" = Some (VStr query)
    /\ (forall answer key v,
          gateway query = Ok (Some answer) ->
          In key IntentSpec.gateway_fields ->
          answer !! key = Some v -> intent !! key = Some v)
    /\ (forall answer,
          gateway query = Ok (Some answer) -> answer <> ∅ ->
          intent !! "confidence"
          = Some (default (VFloat (8 # 10)) (answer !! "confidence"))).
Proof.
  unfold QueryUnderstanding.understand_query. cbn [try_except].
  eexists. split; [reflexivity|].
  split.
  { unfold Orchestrator.intent_truthy.
    assert (H : Py.dict_truthy
      {[ "original_query" := VStr query;
         "analysis_type" := QueryUnderstanding._determine_analysis_type
            (PyStr.strip (PyStr.lower query))
            (QueryUnderstanding._ai_understand_query gateway query);
         "time_period" := QueryUnderstanding._extract_time_period
            (PyStr.strip (PyStr.lower query))
            (QueryUnderstanding._ai_understand_query gateway query);
         "categories" := QueryUnderstanding._extract_categories
            (PyStr.strip (PyStr.lower query))
            (QueryUnderstanding._ai_understand_query gateway query);
         "needs_visualization" := QueryUnderstanding._needs_visualization
            (PyStr.strip (PyStr.lower query))
            (QueryUnderstanding._ai_understand_query gateway query);
         "priority" := QueryUnderstanding._determine_priority
            (PyStr.strip (PyStr.lower query))
            (QueryUnderstanding._ai_understand_query gateway query);
         "confidence" := QueryUnderstanding.confidence
            (QueryUnderstanding._ai_understand_query gateway query) ]} = true).
    { eapply has_key_truthy. apply lookup_insert_eq. }
    now rewrite H. }
  split.
  { intros key. unfold IntentSpec.intent_keys. split.
    - intros [v Hv].
      repeat (apply lookup_insert_Some in Hv as [[<- _]|[_ Hv]]; [cbn; tauto|]).
      apply lookup_singleton_Some in Hv as [<- _]. cbn. tauto.
    - intros H. cbn [In] in H.
      repeat (destruct H as [<-|H];
              [eexists; repeat (rewrite lookup_insert_ne by discriminate);
               first [apply lookup_insert_eq | apply lookup_singleton_eq]|]).
      destruct H. }
  split; [apply lookup_insert_eq|].
  split.
  - intros answer key v Hg Hin Hv.
    unfold QueryUnderstanding._ai_understand_query. rewrite Hg. cbn [try_except].
    unfold QueryUnderstanding._determine_analysis_type,
      QueryUnderstanding._extract_time_period,
      QueryUnderstanding._extract_categories,
      QueryUnderstanding._needs_visualization,
      QueryUnderstanding._determine_priority.
    unfold IntentSpec.gateway_fields in Hin.
    repeat (destruct Hin as [<-|Hin];
            [rewrite (ai_field_some _ _ _ Hv); reflexivity|]).
    destruct Hin.
  - intros answer Hg Hne.
    unfold QueryUnderstanding._ai_understand_query. rewrite Hg. cbn [try_except].
    unfold QueryUnderstanding.confidence, Py.dict_truthy.
    rewrite bool_decide_eq_false_2 by exact Hne. reflexivity.
Qed.

(** ** Generated SQL *)

Section SqlCleaning.

Import PyStr VertexAI.

Lemma rstrip_idem s : rstrip (rstrip s) = rstrip s.
Proof.
  induction s as [|c s IH]; [reflexivity|].
  cbn [rstrip]. destruct (is_empty (rstrip s) && isspace c) eqn:E; [reflexivity|].
  cbn [rstrip]. rewrite IH, E. reflexivity.
Qed.

Lemma lstrip_head s :
  lstrip s = EmptyString
  \/ exists c t, lstrip s = String c t /\ isspace c = false.
Proof.
  induction s as [|c s IH]; [now left|].
  cbn [lstrip]. destruct (isspace c) eqn:E; [exact IH|].
  right. exists c, s. now split.
Qed.

Lemma rstrip_cons c t :
  isspace c = false -> rstrip (String c t) = String c (rstrip t).
Proof. intros H. cbn [rstrip]. now rewrite H, andb_false_r. Qed.

Lemma strip_cons c t :
  isspace c = false -> strip (String c t) = String c (rstrip t).
Proof.
  intros H. unfold strip. cbn [lstrip]. rewrite H. now apply rstrip_cons.
Qed.

Lemma strip_idem s : strip (strip s) = strip s.
Proof.
  unfold strip at 2 3. destruct (lstrip_head s) as [->|[c [t [-> Hc]]]]; [reflexivity|].
  rewrite (rstrip_cons c t Hc), (strip_cons c _ Hc), rstrip_idem. reflexivity.
Qed.

Lemma length_append (a b : string) :
  String.length (a +:+ b) = (String.length a + String.length b)%nat.
Proof.
  induction a as [|c a IH]; [reflexivity|].
  change (String c a +:+ b) with (String c (a +:+ b)).
  cbn [String.length Nat.add]. f_equal. exact IH.
Qed.

Lemma drop_append (a b : string) : drop (String.length a) (a +:+ b) = b.
Proof.
  induction a as [|c a IH]; [now destruct b|].
  change (String c a +:+ b) with (String c (a +:+ b)). exact IH.
Qed.

Lemma take_append (a b : string) : take (String.length a) (a +:+ b) = a.
Proof.
  induction a as [|c a IH]; [now destruct b|].
  change (String c a +:+ b) with (String c (a +:+ b)).
  cbn [String.length take]. f_equal. exact IH.
Qed.

Lemma endswith_append (a p : string) : endswith (a +:+ p) p = true.
Proof.
  unfold endswith. rewrite length_append.
  replace (String.length a + String.length p - String.length p)%nat
    with (String.length a) by lia.
  rewrite drop_append, String.eqb_refl, andb_true_r.
  apply Nat.leb_le. lia.
Qed.

Lemma take_cons n c t :
  take n (String c t) = EmptyString \/ exists t', take n (String c t) = String c t'.
Proof. destruct n; [now left|right]. cbn. eauto. Qed.

Lemma validate_backtick t username :
  DataAnalyst._validate_sql_query (String "`" t) username = None.
Proof.
  unfold DataAnalyst._validate_sql_query.
  rewrite (strip_cons "`" t eq_refl). reflexivity.
Qed.

Lemma validate_strip s username :
  DataAnalyst._validate_sql_query (strip s) username
  = DataAnalyst._validate_sql_query s username.
Proof. unfold DataAnalyst._validate_sql_query. now rewrite strip_idem. Qed.

Lemma validate_empty username :
  DataAnalyst._validate_sql_query EmptyString username = None.
Proof. reflexivity. Qed.

Lemma analyst_of_some q username :
  DataAnalyst.generate_sql_query (Ok (Some q)) username
  = DataAnalyst._validate_sql_query q username.
Proof.
  unfold DataAnalyst.generate_sql_query. cbn.
  destruct q; [reflexivity|reflexivity].
Qed.

End SqlCleaning.

(** X15. A gateway response that is, after trimming, a statement inside
    a [```sql] ... [```] fence is unwrapped to the trimmed statement, and the
    data analyst then returns exactly what SQL validation says of the
    statement inside the fence. *)
Theorem fenced_sql_unwrapped (response body username : string)
    (Hfence : PyStr.strip response
              = VertexAI.fence_open +:+ body +:+ VertexAI.fence_close) :
  VertexAI.generate_sql_query (Some response) = Some (PyStr.strip body)
  /\ VertexAI.analyst_sql (Some response) username
     = DataAnalyst._validate_sql_query body username.
Proof.
  assert (H : VertexAI.generate_sql_query (Some response) = Some (PyStr.strip body)).
  { unfold VertexAI.generate_sql_query.
    assert (Ht : PyStr.truthy response = true).
    { destruct response; [discriminate Hfence|reflexivity]. }
    rewrite Ht. cbv zeta. rewrite Hfence.
    assert (Hs : PyStr.startswith
                   (VertexAI.fence_open +:+ body +:+ VertexAI.fence_close)
                   VertexAI.fence_open = true).
    { apply startswith_spec. eexists. reflexivity. }
    rewrite Hs.
    change (VertexAI.drop 6 (VertexAI.fence_open +:+ body +:+ VertexAI.fence_close))
      with (body +:+ VertexAI.fence_close).
    rewrite endswith_append, length_append.
    change (String.length VertexAI.fence_close) with 3%nat.
    replace (String.length body + 3 - 3)%nat with (String.length body) by lia.
    now rewrite take_append. }
  split; [exact H|].
  unfold VertexAI.analyst_sql. rewrite H, analyst_of_some. apply validate_strip.
Qed.

Lemma fenced_sql_unwrapped_witness :
  VertexAI.analyst_sql
    (Some "```sql SELECT amount FROM transactions WHERE amount > 10 ```") "alice"
  = DataAnalyst._validate_sql_query
      " SELECT amount FROM transactions WHERE amount > 10 " "alice".
Proof.
  apply (proj2 (fenced_sql_unwrapped
    "```sql SELECT amount FROM transactions WHERE amount > 10 ```"
    " SELECT amount FROM transactions WHERE amount > 10 " "alice" eq_refl)).
Defined.

(** X16. A response whose trimmed text begins with a backquote but not
    with the [```sql] fence (a bare [```] fence, for instance) is never
    accepted: the data analyst returns nothing for it. *)
Theorem bare_fence_rejected (response rest username : string)
    (Hhead : PyStr.strip response = String "`" rest)
    (Hbare : PyStr.startswith (PyStr.strip response) VertexAI.fence_open = false) :
  VertexAI.analyst_sql (Some response) username = None.
Proof.
  unfold VertexAI.analyst_sql, VertexAI.generate_sql_query.
  assert (Ht : PyStr.truthy response = true).
  { destruct response; [discriminate Hhead|reflexivity]. }
  rewrite Ht. cbv zeta. rewrite Hbare, Hhead, analyst_of_some, validate_strip.
  destruct (VertexAI.endswith (String "`" rest) VertexAI.fence_close);
    [|apply validate_backtick].
  destruct (take_cons (String.length (String "`" rest) - 3) "`" rest)
    as [->|[t' ->]]; [apply validate_empty|apply validate_backtick].
Qed.

Lemma bare_fence_rejected_witness :
  VertexAI.analyst_sql (Some "``` SELECT amount FROM transactions ```") "alice"
  = None.
Proof.
  apply (bare_fence_rejected "``` SELECT amount FROM transactions ```"
           "`` SELECT amount FROM transactions ```" "alice"); reflexivity.
Defined.

(** X17. Whatever the gateway client returns, a statement that the data
    analyst returns is trimmed and not empty, begins with SELECT and holds
    none of the keywords DROP, DELETE, UPDATE, INSERT and ALTER (letter
    case ignored as [str.upper] ignores it), and is left unchanged by a
    second validation. *)
Theorem analyst_sql_clean (upper_char : N -> list N)
    (ai_sql : result (option Unicode.str)) (username : string) (q : Unicode.str)
    (Hq : Unicode.generate_sql_query upper_char ai_sql username = Some q) :
  Unicode.strip q = q
  /\ q <> []
  /\ Unicode.begins_with_ci upper_char Unicode.select q
  /\ (forall kw, In kw Unicode.dangerous_keywords ->
                 ~ Unicode.substring_ci upper_char kw q)
  /\ forall username', Unicode._validate_sql_query upper_char q username' = Some q.
Proof.
  unfold Unicode.generate_sql_query in Hq.
  destruct ai_sql as [[s|]|e]; try discriminate Hq.
  cbn in Hq. destruct (Unicode.truthy s); [|discriminate Hq].
  unfold Unicode._validate_sql_query in Hq. cbv zeta in Hq.
  destruct (Unicode.startswith (Unicode.upper upper_char (Unicode.strip s))
              Unicode.select) eqn:Hsel; [|discriminate Hq].
  cbn [negb] in Hq.
  destruct (Unicode.any_in Unicode.dangerous_keywords
              (Unicode.upper upper_char (Unicode.strip s))) eqn:Hdanger;
    [discriminate Hq|].
  injection Hq as <-.
  split; [apply ustrip_idem|]. split.
  { intros E. rewrite E in Hsel. discriminate Hsel. }
  split; [apply ustartswith_spec; exact Hsel|]. split.
  { intros kw Hin Hsub.
    assert (H : Unicode.any_in Unicode.dangerous_keywords
                  (Unicode.upper upper_char (Unicode.strip s)) = true)
      by (apply udangerous_spec; eauto).
    congruence. }
  intros username'. unfold Unicode._validate_sql_query. cbv zeta.
  rewrite ustrip_idem, Hsel, Hdanger. reflexivity.
Qed.

Lemma analyst_sql_clean_witness :
  Unicode.strip (383%N :: Unicode.of_string "elect 1")
  = 383%N :: Unicode.of_string "elect 1"
  /\ Unicode.begins_with_ci Unicode.basic_upper Unicode.select
       (383%N :: Unicode.of_string "elect 1").
Proof.
  destruct (analyst_sql_clean Unicode.basic_upper
              (Ok (Some (160%N :: 383%N :: Unicode.of_string "elect 1 ")))
              "alice" (383%N :: Unicode.of_string "elect 1") eq_refl)
    as [H1 [_ [H2 _]]].
  split; [exact H1|exact H2].
Defined.

(** ** Structured gateway responses *)

Section JsonSpan.

Import PyStr VertexAI.

Lemma cons_append c a b : String c a +:+ b = String c (a +:+ b).
Proof. reflexivity. Qed.

Lemma contains_char_cons c a s :
  contains (String c EmptyString) (String a s)
  = Ascii.eqb c a || contains (String c EmptyString) s.
Proof. cbn [contains startswith]. now rewrite andb_true_r. Qed.

Lemma find_from_append c pre rest i :
  contains (String c EmptyString) pre = false ->
  find_from c (pre +:+ String c rest) i = i + Z.of_nat (String.length pre).
Proof.
  revert i. induction pre as [|a pre IH]; intros i H.
  - change (EmptyString +:+ String c rest) with (String c rest).
    cbn [find_from String.length]. rewrite Ascii.eqb_refl. lia.
  - rewrite contains_char_cons in H. apply orb_false_iff in H as [Ha Hp].
    rewrite cons_append. cbn [find_from String.length].
    rewrite Ascii.eqb_sym, Ha, (IH _ Hp). lia.
Qed.

Lemma find_from_none c s i :
  contains (String c EmptyString) s = false -> find_from c s i = -1.
Proof.
  revert i. induction s as [|a s IH]; intros i H; [reflexivity|].
  rewrite contains_char_cons in H. apply orb_false_iff in H as [Ha Hp].
  cbn [find_from]. rewrite Ascii.eqb_sym, Ha. now apply IH.
Qed.

Lemma rfind_from_append c x y i last :
  rfind_from c (x +:+ y) i last
  = rfind_from c y (i + Z.of_nat (String.length x)) (rfind_from c x i last).
Proof.
  revert i last. induction x as [|a x IH]; intros i last.
  - change (EmptyString +:+ y) with y. cbn [rfind_from String.length].
    now replace (i + Z.of_nat 0) with i by lia.
  - rewrite cons_append. cbn [rfind_from String.length]. rewrite IH.
    f_equal. lia.
Qed.

Lemma rfind_from_none c s i last :
  contains (String c EmptyString) s = false -> rfind_from c s i last = last.
Proof.
  revert i last. induction s as [|a s IH]; intros i last H; [reflexivity|].
  rewrite contains_char_cons in H. apply orb_false_iff in H as [Ha Hp].
  cbn [rfind_from]. rewrite Ascii.eqb_sym, Ha. now apply IH.
Qed.

Lemma rfind_from_bound c s i last :
  last < i -> rfind_from c s i last < i + Z.of_nat (String.length s).
Proof.
  revert i last. induction s as [|a s IH]; intros i last H.
  - cbn. lia.
  - cbn [rfind_from String.length].
    specialize (IH (i + 1) (if Ascii.eqb a c then i else last)).
    destruct (Ascii.eqb a c); lia.
Qed.

Lemma take_append_more (a b : string) (n : nat) :
  take (String.length a + n) (a +:+ b) = a +:+ take n b.
Proof.
  induction a as [|c a IH]; [reflexivity|].
  rewrite !cons_append. cbn [String.length Nat.add take]. now rewrite IH.
Qed.

End JsonSpan.

(** X18. [generate_structured_response] hands to the JSON parser the
    text from the first opening brace to the last closing brace: for a
    response [pre { mid } post] with no opening brace in [pre] and no
    closing brace in [post], the result is the parse of [{ mid }], and
    nothing when the parse fails; a response without an opening brace, or
    with no closing brace after the first opening one, gives nothing
    whatever the parser would say. *)
Theorem structured_response_span (json_loads : string -> result dict) :
  (forall pre mid post,
     PyStr.contains "{" pre = false -> PyStr.contains "}" post = false ->
     VertexAI.generate_structured_response json_loads
       (Some (pre +:+ "{" +:+ mid +:+ "}" +:+ post))
     = match json_loads ("{" +:+ mid +:+ "}") with
       | Ok parsed => Some parsed
       | Raise _ => None
       end)
  /\ (forall text,
        PyStr.contains "{" text = false ->
        VertexAI.generate_structured_response json_loads (Some text) = None)
  /\ (forall pre rest,
        PyStr.contains "{" pre = false -> PyStr.contains "}" rest = false ->
        VertexAI.generate_structured_response json_loads
          (Some (pre +:+ "{" +:+ rest)) = None).
Proof.
  split; [|split].
  - intros pre mid post Hpre Hpost.
    unfold VertexAI.generate_structured_response.
    assert (Ht : PyStr.truthy (pre +:+ "{" +:+ mid +:+ "}" +:+ post) = true)
      by (destruct pre; reflexivity).
    rewrite Ht. cbv zeta.
    assert (Hfind : VertexAI.find "{" (pre +:+ "{" +:+ mid +:+ "}" +:+ post)
                    = Z.of_nat (String.length pre)).
    { unfold VertexAI.find.
      change ("{" +:+ mid +:+ "}" +:+ post)
        with (String "{" (mid +:+ "}" +:+ post)).
      rewrite (find_from_append "{" pre _ 0 Hpre). lia. }
    assert (Hrfind : VertexAI.rfind "}" (pre +:+ "{" +:+ mid +:+ "}" +:+ post)
                     = Z.of_nat (String.length pre + 1 + String.length mid)).
    { unfold VertexAI.rfind. rewrite rfind_from_append.
      change ("{" +:+ mid +:+ "}" +:+ post)
        with (String "{" (mid +:+ "}" +:+ post)).
      cbn [VertexAI.rfind_from]. rewrite rfind_from_append.
      change ("}" +:+ post) with (String "}" post).
      cbn [VertexAI.rfind_from]. rewrite Ascii.eqb_refl.
      rewrite (rfind_from_none "}" post _ _ Hpost). lia. }
    rewrite Hfind, Hrfind.
    assert (Hc : (negb (Z.of_nat (String.length pre) =? -1)
                  && (Z.of_nat (String.length pre)
                      <? Z.of_nat (String.length pre + 1 + String.length mid) + 1))
                 = true).
    { apply andb_true_iff. split.
      - apply negb_true_iff, Z.eqb_neq. lia.
      - apply Z.ltb_lt. lia. }
    rewrite Hc. unfold VertexAI.slice.
    rewrite Nat2Z.id.
    replace (Z.to_nat (Z.of_nat (String.length pre + 1 + String.length mid) + 1))
      with (String.length pre + (2 + String.length mid))%nat by lia.
    rewrite take_append_more, drop_append.
    change (VertexAI.take (2 + String.length mid) ("{" +:+ mid +:+ "}" +:+ post))
      with (String "{" (VertexAI.take (S (String.length mid)) (mid +:+ "}" +:+ post))).
    replace (S (String.length mid)) with (String.length mid + 1)%nat by lia.
    rewrite take_append_more.
    change (VertexAI.take 1 ("}" +:+ post)) with "}".
    change (String "{" (mid +:+ "}")) with ("{" +:+ mid +:+ "}").
    destruct (json_loads ("{" +:+ mid +:+ "}")); reflexivity.
  - intros text Htext. unfold VertexAI.generate_structured_response.
    destruct (PyStr.truthy text); [|reflexivity]. cbv zeta.
    unfold VertexAI.find. rewrite (find_from_none "{" text 0 Htext). reflexivity.
  - intros pre rest Hpre Hrest. unfold VertexAI.generate_structured_response.
    destruct (PyStr.truthy _); [|reflexivity]. cbv zeta.
    assert (Hfind : VertexAI.find "{" (pre +:+ "{" +:+ rest)
                    = Z.of_nat (String.length pre)).
    { unfold VertexAI.find. change ("{" +:+ rest) with (String "{" rest).
      rewrite (find_from_append "{" pre _ 0 Hpre). lia. }
    assert (Hrfind : VertexAI.rfind "}" (pre +:+ "{" +:+ rest)
                     < Z.of_nat (String.length pre)).
    { unfold VertexAI.rfind. rewrite rfind_from_append.
      change ("{" +:+ rest) with (String "{" rest).
      cbn [VertexAI.rfind_from].
      change (Ascii.eqb "{" "}") with false. cbv iota.
      rewrite (rfind_from_none "}" rest _ _ Hrest).
      pose proof (rfind_from_bound "}" pre 0 (-1) ltac:(lia)). lia. }
    rewrite Hfind.
    assert (Hc : (Z.of_nat (String.length pre)
                  <? VertexAI.rfind "}" (pre +:+ "{" +:+ rest) + 1) = false)
      by (apply Z.ltb_ge; lia).
    rewrite Hc, andb_false_r. reflexivity.
Qed.

(** ** Alert configurations *)



(** ** Learned preferences *)

Section LearnedFacts.

Import Database TableSpec LearnedPreferences.

Lemma assoc_app k (a b : list (string * Value)) :
  Py.assoc k (a ++ b)
  = match Py.assoc k a with Some v => Some v | None => Py.assoc k b end.
Proof.
  induction a as [|[k' v] a IH]; [reflexivity|].
  cbn [app Py.assoc]. destruct (String.eqb k k'); [reflexivity|exact IH].
Qed.

Lemma assoc_overridden k (a b : list (string * Value)) :
  Py.assoc k (List.map (fun kv => (fst kv, default (snd kv) (Py.assoc (fst kv) b))) a)
  = match Py.assoc k a with
    | Some v => Some (default v (Py.assoc k b))
    | None => None
    end.
Proof.
  induction a as [|[k' v] a IH]; [reflexivity|].
  cbn [List.map Py.assoc fst snd].
  destruct (String.eqb_spec k k') as [->|]; [reflexivity|exact IH].
Qed.

Lemma assoc_only_new k (a b : list (string * Value)) :
  Py.assoc k a = None ->
  Py.assoc k (List.filter (fun kv => negb (has_key (fst kv) a)) b) = Py.assoc k b.
Proof.
  intros Ha. induction b as [|[k' v] b IH]; [reflexivity|].
  cbn [List.filter fst Py.assoc].
  destruct (String.eqb_spec k k') as [<-|Hne].
  - unfold has_key. rewrite Ha. cbn [negb Py.assoc]. now rewrite String.eqb_refl.
  - destruct (negb (has_key k' a)); [|exact IH].
    cbn [Py.assoc]. destruct (String.eqb_spec k k'); [congruence|exact IH].
Qed.

Lemma assoc_merge k (a b : list (string * Value)) :
  Py.assoc k (merge a b)
  = match Py.assoc k b with Some v => Some v | None => Py.assoc k a end.
Proof.
  unfold merge. rewrite assoc_app, assoc_overridden.
  destruct (Py.assoc k a) as [va|] eqn:Ea.
  - destruct (Py.assoc k b); reflexivity.
  - rewrite (assoc_only_new k a b Ea). now destruct (Py.assoc k b).
Qed.

Variable fails : nat -> bool.
Variable valid_json : string -> bool.

Lemma select_values_run u t k db :
  select_values fails u t k db
  = if fails (statements db) then (Raise SQLAlchemyError, sent db)
    else (Ok (List.map preference_value
                (List.filter (matches u t k) (user_preferences db))), sent db).
Proof. unfold select_values, execute_query. now destruct (fails (statements db)). Qed.

(** One learned entry never changes a committed row; for a key that has a
    record it raises, at the update. *)
Lemma apply_entry_frame u t k v db :
  let out := apply_entry fails valid_json u t k v db in
  user_preferences (snd out) = user_preferences db
  /\ next_id db <= next_id (snd out) <= next_id db + 1
  /\ (statements db < statements (snd out) <= statements db + 3)%nat
  /\ (List.filter (matches u t k) (user_preferences db) <> [] ->
      raises (fst out) = true)
  /\ (fst out = Ok tt ->
      List.filter (matches u t k) (user_preferences db) = []
      /\ bind_jsonb valid_json v = Json
      /\ statements (snd out) = (statements db + 3)%nat).
Proof.
  cbv zeta. unfold apply_entry, mbind, DB_bind.
  rewrite select_values_run.
  destruct (fails (statements db)).
  { cbn [fst snd sent user_preferences next_id statements raises].
    split; [reflexivity|]. split; [lia|]. split; [lia|].
    split; [reflexivity|]. discriminate. }
  destruct (List.filter (matches u t k) (user_preferences db)) as [|old rest] eqn:EL;
    cbn [List.map].
  - pose proof (save_frame fails valid_json u t k v (sent db)) as Hs.
    cbv zeta in Hs. cbn [sent user_preferences next_id statements] in Hs.
    rewrite EL in Hs.
    destruct (save_user_preference fails valid_json u t k v (sent db))
      as [[i|e] db2]; cbn [fst snd] in *;
      destruct Hs as [Hrows [Hst [Hseq [_ Hok]]]]; unfold mret, DB_ret;
      cbn [fst snd raises].
    + destruct (Hok i eq_refl) as [_ [Hjson [_ [_ Hst2]]]].
      split; [exact Hrows|]. split; [lia|]. split; [lia|].
      split; [intros H; now destruct H|]. intros _.
      split; [reflexivity|]. split; [exact Hjson|]. lia.
    + split; [exact Hrows|]. split; [lia|]. split; [lia|].
      split; [reflexivity|]. discriminate.
  - pose proof (save_frame fails valid_json u t k
                  (updated_value (preference_value old) v) (sent db)) as Hs.
    cbv zeta in Hs. cbn [sent user_preferences next_id statements] in Hs.
    rewrite EL in Hs.
    destruct (save_user_preference fails valid_json u t k
                (updated_value (preference_value old) v) (sent db))
      as [[i|e] db2]; cbn [fst snd] in *;
      destruct Hs as [Hrows [Hst [Hseq [Hraise Hok]]]]; unfold mret, DB_ret;
      cbn [fst snd raises].
    + exfalso. assert (H : false = true) by (apply Hraise; discriminate).
      discriminate H.
    + split; [exact Hrows|]. split; [lia|]. split; [lia|].
      split; [reflexivity|]. discriminate.
Qed.

Lemma apply_entries_frame u t entries db :
  let out := apply_entries fails valid_json u t entries db in
  user_preferences (snd out) = user_preferences db
  /\ next_id db <= next_id (snd out)
  /\ (statements db <= statements (snd out) <= statements db + 3 * length entries)%nat.
Proof.
  revert db. induction entries as [|[k v] entries IH]; intros db; cbv zeta.
  - cbn. split; [reflexivity|]. lia.
  - cbn [apply_entries]. unfold mbind, DB_bind.
    pose proof (apply_entry_frame u t k v db) as Hs. cbv zeta in Hs.
    destruct (apply_entry fails valid_json u t k v db) as [[[]|e] db1];
      cbn [fst snd] in *; destruct Hs as [Hrows [Hseq [Hst _]]].
    + destruct (IH db1) as [Hrows2 [Hseq2 Hst2]].
      split; [now rewrite Hrows2|]. cbn [length]. lia.
    + split; [exact Hrows|]. cbn [length]. lia.
Qed.

Lemma apply_all_frame u learned db :
  let out := apply_all fails valid_json u learned db in
  user_preferences (snd out) = user_preferences db
  /\ next_id db <= next_id (snd out)
  /\ (statements db <= statements (snd out)
      <= statements db + 3 * entries_of learned)%nat.
Proof.
  revert db. induction learned as [|[t d] learned IH]; intros db; cbv zeta.
  - cbn. split; [reflexivity|]. lia.
  - cbn [apply_all]. unfold mbind, DB_bind.
    assert (Hskip : AlertVocab.is_dict d = false ->
              entries_of ((t, d) :: learned) = entries_of learned).
    { intros Hd. unfold entries_of. cbn [List.filter snd]. now rewrite Hd. }
    destruct d as [| | | | | |entries];
      try (unfold mret, DB_ret; rewrite (Hskip eq_refl); now apply IH).
    assert (Hlen : entries_of ((t, VDict entries) :: learned)
                   = (length entries + entries_of learned)%nat).
    { unfold entries_of. cbn [List.filter snd AlertVocab.is_dict].
      unfold UserPreference.upserts_of. cbn [flat_map snd].
      now rewrite length_app, length_map. }
    rewrite Hlen.
    pose proof (apply_entries_frame u t entries db) as Hs. cbv zeta in Hs.
    destruct (apply_entries fails valid_json u t entries db) as [[[]|e] db1];
      cbn [fst snd] in *; destruct Hs as [Hrows1 [Hseq1 Hst1]].
    + destruct (IH db1) as [Hrows2 [Hseq2 Hst2]].
      split; [now rewrite Hrows2|]. lia.
    + split; [exact Hrows1|]. lia.
Qed.

End LearnedFacts.

(** X21. One learned entry never changes a committed row and sends at
    most three statements. When its key has a record the entry always
    raises, which ends the run: the value prepared for the update is the
    learned value, or the merge of the stored and the learned dictionary
    when both are dictionaries (every stored key kept, a learned key
    taking the learned value), but the update returns no rows to read and
    a dictionary cannot be bound. The entry completes only as the insert
    of a value that the column takes for a key without a record. So
    [_apply_learned_preferences] leaves every committed row as it was. *)
Theorem apply_entry_rolled_back (fails : nat -> bool)
    (valid_json : string -> bool) (u t k : string) (v : Value)
    (db : Database.Accounts) :
  let out := LearnedPreferences.apply_entry fails valid_json u t k v db in
  let records :=
    List.filter (Database.matches u t k) (Database.user_preferences db) in
  Database.user_preferences (snd out) = Database.user_preferences db
  /\ (Database.statements db < Database.statements (snd out)
      <= Database.statements db + 3)%nat
  /\ (records <> [] -> raises (fst out) = true)
  /\ (fst out = Ok tt ->
      records = []
      /\ Database.bind_jsonb valid_json v = Database.Json
      /\ Database.statements (snd out) = (Database.statements db + 3)%nat)
  /\ (forall a b,
        LearnedPreferences.updated_value (VDict a) (VDict b)
        = VDict (LearnedPreferences.merge a b)
        /\ Database.bind_jsonb valid_json (VDict (LearnedPreferences.merge a b))
           = Database.Rejected
        /\ forall key,
             Py.assoc key (LearnedPreferences.merge a b)
             = match Py.assoc key b with
               | Some x => Some x
               | None => Py.assoc key a
               end)
  /\ (forall current,
        AlertVocab.is_dict current && AlertVocab.is_dict v = false ->
        LearnedPreferences.updated_value current v = v)
  /\ (forall learned,
        Database.user_preferences
          (LearnedPreferences._apply_learned_preferences fails valid_json u
             learned db)
        = Database.user_preferences db).
Proof.
  cbv zeta.
  destruct (apply_entry_frame fails valid_json u t k v db)
    as [Hrows [_ [Hst [Hraise Hok]]]].
  split; [exact Hrows|]. split; [exact Hst|]. split; [exact Hraise|].
  split; [exact Hok|]. split; [|split].
  - intros a b. split; [reflexivity|]. split; [reflexivity|].
    intros key. apply assoc_merge.
  - intros current H. destruct current; try reflexivity.
    destruct v; try reflexivity. discriminate H.
  - intros learned. unfold LearnedPreferences._apply_learned_preferences.
    exact (proj1 (apply_all_frame fails valid_json u learned db)).
Qed.

(** A stored dictionary is never merged with a learned one: the run
    raises at the update and the record keeps its value. *)
Example learned_dictionary_not_merged :
  let db :=
    {| Database.user_preferences :=
         [{| Database.id := 1; Database.username := "alice";
             Database.preference_type := "display";
             Database.preference_key := "theme";
             Database.preference_value :=
               VDict [("mode", VStr "dark"); ("font", VStr "serif")] |}];
       Database.next_id := 2; Database.statements := 0 |} in
  let out :=
    LearnedPreferences.apply_entry (fun _ => false) Scenario.valid_json "alice"
      "display" "theme" (VDict [("mode", VStr "light"); ("size", VInt 12)]) db in
  fst out = Raise SQLAlchemyError
  /\ Database.user_preferences (snd out) = Database.user_preferences db.
Proof. split; reflexivity. Qed.

(** X22. Whatever fails, [_apply_learned_preferences] keeps a
    well-formed table well formed, leaves the rows of every other user as
    they were, and sends at most three statements for each entry of a
    dictionary-valued learned preference; learned preferences that are not
    dictionaries are ignored, so with none that is a dictionary nothing is
    sent and the table is unchanged. *)
Theorem apply_learned_preferences_invariant (fails : nat -> bool)
    (valid_json : string -> bool) (u : string)
    (learned : list (string * Value)) (db : Database.Accounts)
    (Hwf : TableSpec.well_formed db) :
  let db' :=
    LearnedPreferences._apply_learned_preferences fails valid_json u learned db in
  TableSpec.well_formed db'
  /\ (forall u', u' <> u -> TableSpec.rows_of u' db' = TableSpec.rows_of u' db)
  /\ (Database.statements db <= Database.statements db'
      <= Database.statements db + 3 * LearnedPreferences.entries_of learned)%nat
  /\ (Forall (fun p => AlertVocab.is_dict (snd p) = false) learned -> db' = db).
Proof.
  cbv zeta. unfold LearnedPreferences._apply_learned_preferences.
  destruct (apply_all_frame fails valid_json u learned db) as [H1 [H2 H3]].
  split; [exact (well_formed_frame db _ Hwf H1 H2)|].
  split; [intros u' _; unfold TableSpec.rows_of; now rewrite H1|].
  split; [exact H3|].
  clear. intros Hall. induction learned as [|[t d] learned IH]; [reflexivity|].
  apply List.Forall_cons_iff in Hall as [Hd Hall]. cbn [snd] in Hd.
  cbn [LearnedPreferences.apply_all]. unfold mbind, Database.DB_bind.
  destruct d; try discriminate Hd; unfold mret at 1, Database.DB_ret at 1;
    exact (IH Hall).
Qed.

Lemma apply_learned_preferences_invariant_witness :
  LearnedPreferences._apply_learned_preferences (fun _ => false)
    Scenario.valid_json "alice"
    [("language", VStr "en"); ("limit", VInt 3)] Database.empty_accounts
  = Database.empty_accounts.
Proof.
  apply (proj2 (proj2 (proj2
    (apply_learned_preferences_invariant (fun _ => false) Scenario.valid_json
       "alice" [("language", VStr "en"); ("limit", VInt 3)]
       Database.empty_accounts empty_accounts_well_formed)))).
  repeat constructor.
Defined.

(** ** Charts *)

Section ChartFacts.

Import InsightGenerator DataVisualization.

Variable generate_structured_response :
  string -> list Transaction -> dict -> result (option dict).
Variable stamp : string.
Variable now_isoformat : string.

Lemma enhance_lookup base data_ insight k :
  k <> "data" -> k <> "insight_id" -> k <> "insight_type" -> k <> "description" ->
  k <> "created_at" ->
  _enhance_visualization_config now_isoformat base data_ insight !! k = base !! k.
Proof.
  intros H1 H2 H3 H4 H5. unfold _enhance_visualization_config. cbv zeta.
  rewrite lookup_insert_ne by congruence.
  destruct (has _ "description").
  - now rewrite !lookup_insert_ne by congruence.
  - now rewrite !lookup_insert_ne by congruence.
Qed.

Lemma enhance_data base data_ insight :
  _enhance_visualization_config now_isoformat base data_ insight !! "data"
  = Some (FRows data_).
Proof.
  unfold _enhance_visualization_config. cbv zeta.
  rewrite lookup_insert_ne by discriminate.
  destruct (has _ "description");
    rewrite !lookup_insert_ne by discriminate; apply lookup_insert_eq.
Qed.

Lemma enhance_has base data_ insight k :
  k <> "data" -> k <> "insight_id" -> k <> "insight_type" -> k <> "description" ->
  k <> "created_at" ->
  has (_enhance_visualization_config now_isoformat base data_ insight) k = has base k.
Proof. intros. unfold has. now rewrite enhance_lookup. Qed.

Lemma enhance_validate base data_ insight :
  validate_visualization_config
    (_enhance_visualization_config now_isoformat base data_ insight)
  = has base "id" && has base "type" && has base "chart_type" && has base "title"
    && nonempty data_.
Proof.
  unfold validate_visualization_config, required_fields. cbn [forallb].
  rewrite !enhance_has by discriminate.
  assert (Hd : has (_enhance_visualization_config now_isoformat base data_ insight)
                 "data" = true).
  { unfold has. now rewrite enhance_data. }
  rewrite Hd, enhance_data. cbn [default field_truthy]. fold (nonempty data_).
  destruct (has base "id"), (has base "type"), (has base "chart_type"),
    (has base "title"); reflexivity.
Qed.

Lemma insight_chart_has_no_id insight :
  InsightSpec.well_formed insight -> has (base_config_of insight) "id" = false.
Proof.
  intros [_ [_ [_ H]]]. unfold base_config_of.
  unfold InsightSpec.known_configs in H. cbn [In] in H.
  destruct H as [<-|[<-|[<-|[]]]]; reflexivity.
Qed.

Lemma intent_chart data_ query_intent c :
  In c (_create_visualizations_for_intent generate_structured_response stamp
          data_ query_intent) ->
  validate_visualization_config c = nonempty data_
  /\ c !! "data" = Some (FRows data_)
  /\ exists kind, In kind chart_kinds /\ c !! "type" = Some (FVal kind).
Proof.
  unfold _create_visualizations_for_intent. cbv zeta.
  destruct (is_type _ "spending_trends").
  { unfold _create_trend_visualization.
    destruct data_ as [|first rest]; [intros []|].
    destruct (tx_timestamp first); [|intros []].
    destruct (config_for _ _ _ _) as [[config|]|e];
      cbn [mbind result_bind try_except to_list In];
      [|intros []|intros []].
    intros [<-|[]]. split; [reflexivity|]. split; [reflexivity|].
    exists (VStr "trend_analysis"). split; [cbn; tauto|reflexivity]. }
  destruct (is_type _ "category_analysis").
  { unfold _create_category_visualization.
    destruct (config_for _ _ _ _) as [[config|]|e];
      cbn [mbind result_bind try_except to_list In];
      [|intros []|intros []].
    intros [<-|[]]. split; [now destruct data_|]. split; [reflexivity|].
    exists (VStr "category_analysis"). split; [cbn; tauto|reflexivity]. }
  destruct (is_type _ "improvement").
  { unfold _create_improvement_visualization.
    destruct (config_for _ _ _ _) as [[config|]|e];
      cbn [mbind result_bind try_except to_list In];
      [|intros []|intros []].
    intros [<-|[]]. split; [now destruct data_|]. split; [reflexivity|].
    exists (VStr "improvement_analysis"). split; [cbn; tauto|reflexivity]. }
  unfold _create_general_visualization.
  destruct (config_for _ _ _ _) as [[config|]|e];
    cbn [mbind result_bind try_except to_list In];
    [|intros []|intros []].
  intros [<-|[]]. split; [now destruct data_|]. split; [reflexivity|].
  exists (VStr "general_analysis"). split; [cbn; tauto|reflexivity].
Qed.

End ChartFacts.

(** X23. A chart configuration enhanced for an insight always carries
    the data rows, and it passes [validate_visualization_config] exactly
    when the base configuration has an id, a type, a chart type and a
    title and there is at least one row; the configurations that the
    insight generator attaches to its insights have no id, so the chart
    made from a generated insight never passes validation. *)
Theorem enhanced_config_validation (now_isoformat : string)
    (base : DataVisualization.Config) (data_ : list Transaction)
    (insight : InsightGenerator.Insight) :
  let enhanced :=
    DataVisualization._enhance_visualization_config now_isoformat base data_
      insight in
  enhanced !! "data" = Some (DataVisualization.FRows data_)
  /\ DataVisualization.validate_visualization_config enhanced
     = DataVisualization.has base "id" && DataVisualization.has base "type"
       && DataVisualization.has base "chart_type"
       && DataVisualization.has base "title"
       && match data_ with [] => false | _ => true end
  /\ (InsightSpec.well_formed insight ->
      DataVisualization.validate_visualization_config
        (DataVisualization._enhance_visualization_config now_isoformat
           (DataVisualization.base_config_of insight) data_ insight) = false).
Proof.
  cbv zeta. split; [apply enhance_data|]. split; [apply enhance_validate|].
  intros Hwf. rewrite enhance_validate, (insight_chart_has_no_id insight Hwf).
  reflexivity.
Qed.

(** X24. [create_visualizations] returns at most one chart made for the
    intent, and only when the intent asks for a visualization, followed by
    one chart for each insight that has a chart configuration. A chart
    made for the intent is of one of the four kinds, carries the data
    rows, and passes validation exactly when there is at least one row;
    among the charts returned for generated insights, only a chart made
    for the intent can pass validation. *)
Theorem create_visualizations_spec
    (generate_structured_response :
       string -> list Transaction -> dict -> result (option dict))
    (stamp now_isoformat : string) (data_ : list Transaction)
    (insights : list InsightGenerator.Insight) (query_intent : dict) :
  let for_intent :=
    DataVisualization._create_visualizations_for_intent
      generate_structured_response stamp data_ query_intent in
  let charts :=
    DataVisualization.create_visualizations generate_structured_response stamp
      now_isoformat data_ insights query_intent in
  (length for_intent <= 1)%nat
  /\ (length charts <= 1 + length insights)%nat
  /\ (WorkflowSpec.wants_visualization query_intent = false ->
      length charts = length (List.filter DataVisualization.has_chart insights))
  /\ (forall c, In c for_intent ->
        DataVisualization.validate_visualization_config c
        = match data_ with [] => false | _ => true end
        /\ c !! "data" = Some (DataVisualization.FRows data_)
        /\ exists kind, In kind DataVisualization.chart_kinds
                        /\ c !! "type" = Some (DataVisualization.FVal kind))
  /\ (Forall InsightSpec.well_formed insights ->
      forall c, In c charts ->
        DataVisualization.validate_visualization_config c = true ->
        WorkflowSpec.wants_visualization query_intent = true
        /\ In c for_intent /\ data_ <> []).
Proof.
  cbv zeta.
  assert (Hlen : (length (DataVisualization._create_visualizations_for_intent
                            generate_structured_response stamp data_ query_intent)
                  <= 1)%nat).
  { unfold DataVisualization._create_visualizations_for_intent. cbv zeta.
    apply to_list_length. }
  split; [exact Hlen|].
  unfold DataVisualization.create_visualizations.
  fold (WorkflowSpec.wants_visualization query_intent).
  split.
  { rewrite length_app, length_map.
    pose proof (List.filter_length_le DataVisualization.has_chart insights).
    destruct (WorkflowSpec.wants_visualization query_intent); simpl in *; lia. }
  split.
  { intros ->. now rewrite length_app, length_map. }
  split; [intros c Hc; exact (intent_chart _ _ _ _ c Hc)|].
  intros Hwf c Hc Hvalid. apply in_app_or in Hc as [Hc|Hc].
  - destruct (WorkflowSpec.wants_visualization query_intent); [|destruct Hc].
    split; [reflexivity|]. split; [exact Hc|].
    destruct (intent_chart _ _ _ _ c Hc) as [Hv _]. rewrite Hv in Hvalid.
    destruct data_; [discriminate|discriminate].
  - exfalso. apply List.in_map_iff in Hc as [i [<- Hi]].
    apply List.filter_In in Hi as [Hi _].
    rewrite List.Forall_forall in Hwf.
    rewrite enhance_validate, (insight_chart_has_no_id i (Hwf i Hi)) in Hvalid.
    discriminate.
Qed.

(** ** Daily insights *)

Section DailyFacts.

Import InsightGenerator DailyInsights.

Variable generate_insight_description : InsightData -> string -> option string.
Variable format_1f format_2f : Q -> string.

Lemma analyze_spending_categories_some t ts u :
  exists i,
    analyze_spending_categories generate_insight_description format_1f format_2f
      (t :: ts) u = Some i.
Proof.
  unfold analyze_spending_categories.
  destruct (categorize (t :: ts)) as [cats total_].
  destruct (Z.ltb_spec 0 total_) as [Hpos|Hle].
  - rewrite div_ok by (unfold Qeq; simpl; lia).
    rewrite !bind_ok. cbn [try_except]. eexists. reflexivity.
  - rewrite !bind_ok. cbn [try_except]. eexists. reflexivity.
Qed.

Variable float_1f : float -> string.
Variable env : AlertNotification.Env.
Variable get_user_preferences : string -> list Database.PrefRow.

(** With transactions there is always an insight, and the insights come
    first. *)
Lemma collect_head t ts u :
  exists i rest,
    collect generate_insight_description format_1f format_2f float_1f env
      get_user_preferences u (t :: ts) = InsightItem i :: rest.
Proof.
  unfold collect. cbv zeta.
  destruct (analyze_spending_categories_some t ts u) as [c ->].
  destruct (analyze_spending_trends _ _ _ _) as [tr|]; cbn [to_list app List.map];
    eexists; eexists; reflexivity.
Qed.

End DailyFacts.

(** X25. [generate_daily_insights] always returns the empty list and
    never adds a row. Without transactions it sends no statement.
    With transactions there is always an insight to save (the
    category breakdown at least) and the insights are saved first; the
    data of an insight is a dictionary, which cannot be bound to the
    statement, so the first save raises, after one statement, and the
    handler returns the empty list. *)
Theorem generate_daily_insights_saves_nothing (fails : nat -> bool)
    (bind_alert : Value -> Value -> Database.Binding)
    (generate_insight_description :
       InsightGenerator.InsightData -> string -> option string)
    (format_1f format_2f : Q -> string) (float_1f : float -> string)
    (env : AlertNotification.Env)
    (get_user_preferences : string -> list Database.PrefRow)
    (get_user_transactions : string -> result (list Transaction))
    (u : string) (t : DailyInsights.InsightTable) :
  let run :=
    DailyInsights.generate_daily_insights fails bind_alert
      generate_insight_description format_1f format_2f float_1f env
      get_user_preferences get_user_transactions u t in
  fst run = []
  /\ DailyInsights.saved (snd run) = DailyInsights.saved t
  /\ DailyInsights.next_id (snd run) = DailyInsights.next_id t
  /\ (raises (get_user_transactions u) = true \/ get_user_transactions u = Ok [] ->
      snd run = t)
  /\ (forall row rows,
        get_user_transactions u = Ok (row :: rows) ->
        DailyInsights.statements (snd run) = S (DailyInsights.statements t)
        /\ exists i rest,
             DailyInsights.collect generate_insight_description format_1f
               format_2f float_1f env get_user_preferences u (row :: rows)
             = DailyInsights.InsightItem i :: rest).
Proof.
  cbv zeta. unfold DailyInsights.generate_daily_insights.
  destruct (get_user_transactions u) as [[|row rows]|e].
  - split; [reflexivity|]. split; [reflexivity|]. split; [reflexivity|].
    split; [intros _; reflexivity|]. intros row' rows' H. discriminate H.
  - destruct (collect_head generate_insight_description format_1f format_2f
                float_1f env get_user_preferences row rows u) as [i [rest Hc]].
    rewrite Hc. cbn [DailyInsights.save_each]. unfold DailyInsights.save_insight.
    cbn [DailyInsights.bind_item].
    destruct (fails (DailyInsights.statements t)); cbn [fst snd
      DailyInsights.saved DailyInsights.next_id DailyInsights.statements].
    + split; [reflexivity|]. split; [reflexivity|]. split; [reflexivity|].
      split; [intros [H|H]; discriminate H|].
      intros row' rows' H. injection H as <- <-. split; [reflexivity|].
      exists i, rest. exact Hc.
    + split; [reflexivity|]. split; [reflexivity|]. split; [reflexivity|].
      split; [intros [H|H]; discriminate H|].
      intros row' rows' H. injection H as <- <-. split; [reflexivity|].
      exists i, rest. exact Hc.
  - split; [reflexivity|]. split; [reflexivity|]. split; [reflexivity|].
    split; [intros _; reflexivity|]. intros row' rows' H. discriminate H.
Qed.

(** Ten transactions, no alert configuration: the category breakdown and
    the improvement analysis are collected, the first save raises, and
    the run returns the empty list. *)
Example daily_insights_of_ten_transactions :
  let t := {| DailyInsights.saved := []; DailyInsights.next_id := 1;
              DailyInsights.statements := 0 |} in
  length (DailyInsights.collect (fun _ _ => None) Scenario.format_2f
            Scenario.format_2f (fun _ => "60.0") (Scenario.env [] (Ok 0%Q))
            (fun _ => []) "alice" Scenario.ten_transactions) = 2%nat
  /\ DailyInsights.generate_daily_insights (fun _ => false)
       (fun _ _ => Database.Json) (fun _ _ => None) Scenario.format_2f
       Scenario.format_2f (fun _ => "60.0") (Scenario.env [] (Ok 0%Q))
       (fun _ => []) (fun _ => Ok Scenario.ten_transactions) "alice" t
     = ([], {| DailyInsights.saved := []; DailyInsights.next_id := 1;
               DailyInsights.statements := 1 |}).
Proof. split; vm_compute; reflexivity. Qed.

(** ** Authentication *)

Section AuthFacts.

Import Auth.

Lemma split_first_word s :
  exists ws, split " " s = until_space s :: ws.
Proof.
  induction s as [|a s [ws IH]]; [cbn; eauto|].
  cbn [split until_space]. destruct (Ascii.eqb a " "); [eauto|].
  rewrite IH. eauto.
Qed.

Lemma append_cancel (p a b : string) : p +:+ a = p +:+ b -> a = b.
Proof.
  induction p as [|c p IH]; [trivial|].
  change (String c p +:+ a) with (String c (p +:+ a)).
  change (String c p +:+ b) with (String c (p +:+ b)).
  intros [= H]. exact (IH H).
Qed.

Lemma bearer_token rest :
  nth_error (split " " ("Bearer " +:+ rest)) 1 = Some (until_space rest).
Proof.
  destruct (split_first_word rest) as [ws H].
  change ("Bearer " +:+ rest)
    with (String "B" (String "e" (String "a" (String "r" (String "e"
            (String "r" (String " " rest))))))).
  cbn [split Ascii.eqb Bool.eqb]. rewrite H. reflexivity.
Qed.

End AuthFacts.

(** X26. [get_current_user] accepts a request exactly when the header
    is [Bearer ] followed by a token, the text up to the next space,
    that decodes to a payload whose [username] entry is truthy, and then
    returns that entry; every other request is rejected with status 401
    and one of four details, and the token is the only text that is ever
    decoded. *)
Theorem get_current_user_spec (decode : string -> result dict)
    (authorization : option string) :
  (forall username,
     Auth.get_current_user decode authorization = inr username
     <-> exists rest payload,
           authorization = Some ("Bearer " +:+ rest)
           /\ decode (Auth.until_space rest) = Ok payload
           /\ payload !! "username" = Some username
           /\ Py.truthy username = true)
  /\ (forall failure,
        Auth.get_current_user decode authorization = inl failure ->
        exists detail, In detail Auth.details
                       /\ failure = Auth.HTTPException 401 detail).
Proof.
  destruct authorization as [header|]; cbn [Auth.get_current_user].
  2:{ split.
      - intros username. split; [discriminate|].
        intros [rest [payload [H _]]]. discriminate H.
      - intros failure [= <-]. eexists. split; [|reflexivity]. cbn; tauto. }
  destruct (PyStr.truthy header) eqn:Ht; cbn [negb].
  2:{ split.
      - intros username. split; [discriminate|].
        intros [rest [payload [H _]]]. injection H as ->. discriminate Ht.
      - intros failure [= <-]. eexists. split; [|reflexivity]. cbn; tauto. }
  destruct (PyStr.startswith header "Bearer ") eqn:Hs; cbn [negb].
  2:{ split.
      - intros username. split; [discriminate|].
        intros [rest [payload [H _]]]. injection H as ->.
        assert (Hb : PyStr.startswith ("Bearer " +:+ rest) "Bearer " = true)
          by (apply startswith_spec; eauto).
        congruence.
      - intros failure [= <-]. eexists. split; [|reflexivity]. cbn; tauto. }
  apply startswith_spec in Hs as [rest ->]. rewrite bearer_token.
  unfold Auth.is_token_valid, Auth.get_username_from_token, Auth.verify_jwt_token.
  destruct (decode (Auth.until_space rest)) as [payload|e] eqn:Hd;
    cbn [mbind result_bind try_except negb].
  2:{ split.
      - intros username. split; [discriminate|].
        intros [rest' [payload [H [Hd' _]]]].
        injection H as H. apply append_cancel in H.
        subst rest'. congruence.
      - intros failure [= <-]. eexists. split; [|reflexivity]. cbn; tauto. }
  destruct (Py.dict_truthy payload) eqn:Hp.
  - destruct (payload !! "username") as [v|] eqn:Hu.
    + destruct (Py.truthy v) eqn:Hv.
      * split.
        -- intros username. split.
           ++ intros [= <-]. exists rest, payload. auto.
           ++ intros [rest' [payload' [H [Hd' [Hu' _]]]]].
              injection H as H. apply append_cancel in H.
              subst rest'. congruence.
        -- discriminate.
      * split.
        -- intros username. split; [discriminate|].
           intros [rest' [payload' [H [Hd' [Hu' Hv']]]]].
           injection H as H. apply append_cancel in H.
           subst rest'. congruence.
        -- intros failure [= <-]. eexists. split; [|reflexivity]. cbn; tauto.
    + split.
      * intros username. split; [discriminate|].
        intros [rest' [payload' [H [Hd' [Hu' Hv']]]]].
        injection H as H. apply append_cancel in H.
        subst rest'. congruence.
      * intros failure [= <-]. eexists. split; [|reflexivity]. cbn; tauto.
  - split.
    + intros username. split; [discriminate|].
      intros [rest' [payload' [H [Hd' [Hu' Hv']]]]].
      injection H as H. apply append_cancel in H.
      subst rest'. rewrite Hd in Hd'. injection Hd' as <-.
      rewrite (has_key_truthy _ _ _ Hu') in Hp. discriminate.
    + intros failure [= <-]. eexists. split; [|reflexivity]. cbn; tauto.
Qed.

(** ** The alerts of one run *)

Section AlertKinds.

Import AlertNotification AlertSpec AlertVocab.

Lemma unusual_contribution env txs username configs :
  exists patterns,
    contribution (unusual_spending_body env txs username configs)
    = List.map (fun pattern =>
        {| type := "unusual_spending";
           title := "Unusual Spending Pattern Detected";
           description := pattern_description pattern;
           data := PatternData (pattern_data pattern);
           priority := 2;
           alert_config_id := None |}) patterns.
Proof.
  unfold unusual_spending_body. destruct (length txs <? 10)%nat.
  - exists []. reflexivity.
  - unfold _detect_unusual_patterns. eexists. reflexivity.
Qed.

Lemma improvement_contribution env txs username prefs :
  exists improvements,
    contribution (improvement_body env txs username prefs)
    = List.map (fun improvement =>
        {| type := "improvement_alert";
           title := "Great Job! Spending Improvement Detected";
           description := pattern_description improvement;
           data := PatternData (pattern_data improvement);
           priority := 1;
           alert_config_id := None |}) improvements.
Proof.
  unfold improvement_body. destruct (length txs <? 20)%nat.
  - exists []. reflexivity.
  - unfold _analyze_spending_improvements. eexists. reflexivity.
Qed.

Lemma forall_flat_map {A B} (P : B -> Prop) (f : A -> list B) (l : list A) :
  (forall a, Forall P (f a)) -> Forall P (flat_map f l).
Proof.
  intros H. induction l as [|a l IH]; [constructor|].
  cbn [flat_map]. apply List.Forall_app. split; [apply H|exact IH].
Qed.

End AlertKinds.

(** X27. [check_alerts] always returns a list, and every alert in it is
    of one of five kinds with the priority of its kind: spending_threshold
    and category_budget (3), unusual_spending (2), low_balance (4) and
    improvement_alert (1); the alerts raised from a configuration name it,
    the two kinds that come from the gateway name none. *)
Theorem check_alerts_kinds (env : AlertNotification.Env)
    (txs : list Transaction) (username : string)
    (prefs : list Database.PrefRow) :
  exists alerts,
    snd (AlertNotification.check_alerts env txs username prefs) = Ok alerts
    /\ Forall (fun a => In (AlertVocab.kind_of a) AlertVocab.kinds) alerts.
Proof.
  destruct txs as [|t ts].
  { exists []. split; [reflexivity|constructor]. }
  rewrite (check_alerts_contributions env t ts username prefs). cbv zeta.
  eexists. split; [reflexivity|].
  set (configs := try_except (AlertNotification.alert_configurations env username) []).
  repeat (apply List.Forall_app; split).
  - change (AlertSpec.contribution
              (AlertNotification.spending_threshold_body env (t :: ts) username configs))
      with (AlertVocab.alerts_of
              (AlertNotification._check_spending_threshold_alerts env (t :: ts)
                 username configs)).
    rewrite spending_alerts_eq. apply forall_flat_map. intros c. cbv zeta.
    destruct (Py.Qgt_bool _ _); [|constructor].
    apply List.Forall_cons; [|constructor]. left. reflexivity.
  - change (AlertSpec.contribution
              (AlertNotification.category_budget_body env (t :: ts) username configs))
      with (AlertVocab.alerts_of
              (AlertNotification._check_category_budget_alerts env (t :: ts)
                 username configs)).
    rewrite category_alerts_eq. apply forall_flat_map. intros c. cbv zeta.
    destruct (Py.Qgt_bool _ _); [|constructor].
    apply List.Forall_cons; [|constructor]. right. left. reflexivity.
  - destruct (unusual_contribution env (t :: ts) username configs) as [ps ->].
    apply List.Forall_forall. intros a Ha.
    apply List.in_map_iff in Ha as [p [<- _]].
    right. right. left. reflexivity.
  - change (AlertSpec.contribution
              (AlertNotification.balance_body env username configs))
      with (AlertVocab.alerts_of
              (AlertNotification._check_balance_alerts env username configs)).
    rewrite balance_alerts_eq.
    destruct (AlertNotification.get_user_balance env username); [|constructor].
    apply forall_flat_map. intros c.
    destruct (AlertNotification.Qlt_bool _ _); [|constructor].
    apply List.Forall_cons; [|constructor]. right. right. right. left. reflexivity.
  - destruct (improvement_contribution env (t :: ts) username prefs) as [ps ->].
    apply List.Forall_forall. intros a Ha.
    apply List.in_map_iff in Ha as [p [<- _]].
    right. right. right. right. left. reflexivity.
Qed.
